(** * Cybernetic chatbot client: resilience and local retrieval engine

    A shallow embedding of the client core of the repository
    (CyberneticClient.ts, CyberneticCache.ts, CyberneticLocalRAG.ts) and
    the properties stated about it.

    Conventions of the embedding.
    - JavaScript strings are sequences of UTF-16 code units; the model uses
      [string], that is, code units below 256 (Latin-1).  Within that range
      [toLowerCase], the regular-expression classes [\w], [\s], [\d] and the
      [i] flag behave exactly as modelled below.  Above it [toLowerCase]
      can give ASCII letters (U+212A gives k; U+0130 gives i and U+0307):
      what is proved for every string or character is proved for Latin-1
      texts, and is stated through the lower-case form where it matters.
    - JavaScript numbers that hold scores are IEEE-754 binary64 values and
      are modelled by the primitive [float]; [Math.log] is
      implementation-approximated in ECMAScript and is a parameter.
    - Timestamps, delays and counters are integers well inside the exact
      range of binary64 and are modelled by [Z] and [nat].
    - Asynchronous methods are run to completion in program order;
      a rejected promise is a thrown value.
    - The callbacks of the host page are recorded as events.  [Client]
      is the client with callbacks that return; [Host] is the client
      with callbacks that may throw, and agrees with [Client] when they
      do not ([ask_quiet], [askStream_quiet]). *)

From Stdlib Require Import Bool Arith ZArith List String Ascii Lia Floats DecimalString DecimalNat.
Import ListNotations.

Set Implicit Arguments.
Set Warnings "-inexact-float".
Local Open Scope string_scope.
Local Open Scope bool_scope.
Local Open Scope list_scope.

(* ================================================================== *)
(** * Part I: the embedding *)
(* ================================================================== *)

(** ** JavaScript strings *)

Module JsString.

Definition code (c : ascii) : nat := nat_of_ascii c.

Definition between (lo hi : nat) (c : ascii) : bool :=
  (lo <=? code c)%nat && (code c <=? hi)%nat.

Definition isUpper (c : ascii) : bool := between 65 90 c.
Definition isLower (c : ascii) : bool := between 97 122 c.
Definition isDigit (c : ascii) : bool := between 48 57 c.

(** ASCII letters and digits. *)
Definition isAlnum (c : ascii) : bool := isUpper c || isLower c || isDigit c.

(** The class [\w]: ASCII letters, digits and the underscore. *)
Definition isWordChar (c : ascii) : bool := isAlnum c || (code c =? 95)%nat.

(** The class [\s] below 256: TAB, LF, VT, FF, CR, SPACE and NBSP. *)
Definition isSpace (c : ascii) : bool :=
  between 9 13 c || (code c =? 32)%nat || (code c =? 160)%nat.

(** [toLowerCase] on one code unit: A-Z, and the Latin-1 capitals
    (U+00C0 to U+00DE without the multiplication sign U+00D7). *)
Definition lowerChar (c : ascii) : ascii :=
  if isUpper c || (between 192 222 c && negb (code c =? 215)%nat)
  then ascii_of_nat (code c + 32)
  else c.

Fixpoint smap (f : ascii -> ascii) (s : string) : string :=
  match s with
  | EmptyString => EmptyString
  | String c s' => String (f c) (smap f s')
  end.

Definition toLowerCase (s : string) : string := smap lowerChar s.

(** [s.includes(sub)]. *)
Fixpoint includes (s sub : string) : bool :=
  String.prefix sub s ||
  match s with
  | EmptyString => false
  | String _ s' => includes s' sub
  end.

(** [s.split(/[sep]+/)]: the pieces between maximal runs of separator
    characters.  As in JavaScript a leading or trailing run yields an empty
    piece and the empty string yields one empty piece. *)
Fixpoint splitRuns (sep : ascii -> bool) (s : string) (cur : string)
         (inSep : bool) : list string :=
  match s with
  | EmptyString => [cur]
  | String c s' =>
      if sep c
      then (if inSep then splitRuns sep s' "" true
            else cur :: splitRuns sep s' "" true)
      else splitRuns sep s' (cur ++ String c "") false
  end.

Definition split (sep : ascii -> bool) (s : string) : list string :=
  splitRuns sep s "" false.

Fixpoint dropWhile (p : ascii -> bool) (s : string) : string :=
  match s with
  | EmptyString => EmptyString
  | String c s' => if p c then dropWhile p s' else s
  end.

Fixpoint takeWhile (p : ascii -> bool) (s : string) : string :=
  match s with
  | EmptyString => EmptyString
  | String c s' => if p c then String c (takeWhile p s') else EmptyString
  end.

Fixpoint srev (s acc : string) : string :=
  match s with
  | EmptyString => acc
  | String c s' => srev s' (String c acc)
  end.

(** [s.trim()]. *)
Definition trim (s : string) : string :=
  srev (dropWhile isSpace (srev (dropWhile isSpace s) "")) "".

(** [s.substring(0, n)]. *)
Definition substring0 (n : nat) (s : string) : string := String.substring 0 n s.

Fixpoint drop (n : nat) (s : string) : string :=
  match n, s with
  | O, _ => s
  | S _, EmptyString => EmptyString
  | S n', String _ s' => drop n' s'
  end.

(** Prefix test under the [i] flag for a lower-case ASCII pattern: only
    the ASCII capitals fold. *)
Definition foldAscii (c : ascii) : ascii :=
  if isUpper c then ascii_of_nat (code c + 32) else c.

Fixpoint prefixIgnoreCase (p s : string) : bool :=
  match p, s with
  | EmptyString, _ => true
  | String _ _, EmptyString => false
  | String a p', String c s' => Ascii.eqb a (foldAscii c) && prefixIgnoreCase p' s'
  end.

(** The integer that a string of decimal digits writes. *)
Definition digitValue (c : ascii) : Z := Z.of_nat (code c - 48).

Fixpoint parseDigits (ds : string) (acc : Z) : Z :=
  match ds with
  | EmptyString => acc
  | String c ds' => parseDigits ds' (10 * acc + digitValue c)
  end.

(** A JavaScript number that holds a non-negative integer: a binary64
    value that is an integer, or [Infinity]. *)
Inductive JsNumber : Type :=
| Finite (value : Z)
| Infinity.

(** The Number value of a non-negative integer: the binary64 nearest to
    it, ties to even, by the rounding of the Standard Library's IEEE 754
    specification at precision 53; from 2^1024 - 2^970 on it is
    [Infinity]. *)
Definition toNumber (n : Z) : JsNumber :=
  match SpecFloat.binary_normalize FloatOps.prec FloatOps.emax n 0 false with
  | S754_zero _ => Finite 0
  | S754_finite _ m e => Finite (Z.shiftl (Z.pos m) e)
  | S754_infinity _ => Infinity
  | S754_nan => Infinity
  end.

(** [parseInt(ds, 10)] on a string of decimal digits.  (ECMAScript lets
    an implementation replace the digits after the 20th by zeros; the
    model takes the digits as they are.) *)
Definition parseInt (ds : string) : JsNumber := toNumber (parseDigits ds 0).

(** [s.match(/retry after (\d+)/i)]: the digits captured by the leftmost
    match, if any. *)
Fixpoint matchRetryAfter (s : string) : option string :=
  let here :=
    if prefixIgnoreCase "retry after " s
    then match takeWhile isDigit (drop 12 s) with
         | EmptyString => None
         | ds => Some ds
         end
    else None in
  match here with
  | Some ds => Some ds
  | None =>
      match s with
      | EmptyString => None
      | String _ s' => matchRetryAfter s'
      end
  end.

Definition isEmpty (s : string) : bool :=
  match s with EmptyString => true | _ => false end.

(** [a || b] on strings: the empty string is falsy. *)
Definition orElse (a b : string) : string := if isEmpty a then b else a.

End JsString.
Import JsString.

(** ** Thrown values and outcomes *)

(** What a [throw] or a rejected promise carries: an [Error] instance with
    its [message], or a value that is not an [Error] (such as [null]). *)
Inductive Thrown : Type :=
| JsError (message : string)
| NotAnError.

Inductive Outcome (A : Type) : Type :=
| Ret (a : A)
| Throw (e : Thrown).

Arguments Ret {A} a.
Arguments Throw {A} e.

(** The [TypeError] raised on reading a property of [undefined] or on
    iterating a value that is not iterable (the text is engine specific). *)
Definition TypeError : Thrown := JsError "TypeError".

(** ** JavaScript numbers used as scores *)

Module Num.
Local Open Scope float_scope.

Definition ofNat (n : nat) : float :=
  PrimFloat.of_uint63 (Uint63.of_Z (Z.of_nat n)).

(** Truthiness of a number: [0], [-0] and [NaN] are falsy. *)
Definition falsy (x : float) : bool := PrimFloat.eqb x 0 || PrimFloat.is_nan x.

(** [o || d] where [o] is a number or [undefined]. *)
Definition orElse (o : option float) (d : float) : float :=
  match o with
  | Some v => if falsy v then d else v
  | None => d
  end.

(** [Math.max(...l)]: [-Infinity] for no argument, [NaN] if an argument is
    [NaN], the largest argument otherwise. *)
Definition mathMax (l : list float) : float :=
  if existsb PrimFloat.is_nan l then nan
  else fold_left (fun acc v => if PrimFloat.ltb acc v then v else acc) l neg_infinity.

End Num.

(** ** [Map<string, V>]: keys in insertion order *)

Module JsMap.
Section Defs.
Variable V : Type.

Definition t := list (string * V).

Definition empty : t := [].

Fixpoint get (m : t) (k : string) : option V :=
  match m with
  | [] => None
  | (k', v) :: m' => if String.eqb k k' then Some v else get m' k
  end.

(** [m.set(k, v)]: an existing key keeps its place, a new key goes last. *)
Fixpoint set (m : t) (k : string) (v : V) : t :=
  match m with
  | [] => [(k, v)]
  | (k', v') :: m' =>
      if String.eqb k k' then (k', v) :: m' else (k', v') :: set m' k v
  end.

Definition values (m : t) : list V := map snd m.
Definition keys (m : t) : list string := map fst m.

End Defs.

Definition mapValues {V W : Type} (f : string -> V -> W) (m : t V) : t W :=
  map (fun kv => (fst kv, f (fst kv) (snd kv))) m.

End JsMap.

(** ** [Array.prototype.sort] with a comparator

    The sort is stable.  [after x y] says that the comparator is positive
    on [(x, y)], that is, [y] has to come before [x]; a comparator result
    that is zero, negative or [NaN] keeps the order of the two.  For a
    consistent comparator every stable sort returns this list. *)
Section Sort.
Variable A : Type.
Variable after : A -> A -> bool.

Fixpoint insertSorted (x : A) (l : list A) : list A :=
  match l with
  | [] => [x]
  | y :: l' => if after x y then y :: insertSorted x l' else x :: l
  end.

Fixpoint sortBy (l : list A) : list A :=
  match l with
  | [] => []
  | x :: l' => insertSorted x (sortBy l')
  end.

End Sort.

(** ** Documents *)

(** [CachedDocument] of types.ts. *)
Record CachedDocument : Type := {
  doc_id : string;
  doc_title : string;
  doc_content : string;
  doc_updatedAt : string
}.

(** An element of a document array as it reaches the engine at run time
    (from [JSON.parse] of the stored text or from the server's JSON): a
    document, or a value whose [content] is not a string
    (with its [id] when it has one). *)
Inductive JsDoc : Type :=
| WellFormed (d : CachedDocument)
| Malformed (id : option string).

(** A value where a document array is expected, once it is there (neither
    [undefined] nor [null]): an array, or a value that cannot be iterated
    and has no [length] above 0 (a number, a boolean, an object that is no
    array).  A string behaves as the array of its characters, each a value
    without [content] and without [id].  An object that is no array and
    yet has a [length] above 0 is left out. *)
Inductive JsDocs : Type :=
| DocArray (l : list JsDoc)
| NotIterable.

(** ** CyberneticLocalRAG.ts *)

Module LocalRAG.
Local Open Scope float_scope.

Record Source : Type := {
  title : string;
  snippet : string;
  score : float
}.

Record LocalRAGResult : Type := {
  answer : string;
  sources : list Source;
  topScore : float
}.

Record IndexedDocument : Type := {
  idoc_id : string;
  idoc_title : string;
  idoc_content : string;
  tokens : list string;
  tfidf : JsMap.t float
}.

(** The fields of the class. *)
Record t : Type := {
  documents : list IndexedDocument;
  idf : JsMap.t float;
  indexed : bool
}.

(** A new engine. *)
Definition create : t := {| documents := []; idf := []; indexed := false |}.

Definition isIndexed (rag : t) : bool :=
  indexed rag && (0 <? List.length (documents rag))%nat.

Definition reset (rag : t) : t :=
  {| documents := []; idf := []; indexed := false |}.

Definition stopWords : list string :=
  [ "the"; "a"; "an"; "and"; "or"; "but"; "in"; "on"; "at"; "to"; "for";
    "of"; "with"; "by"; "from"; "up"; "about"; "into"; "through"; "during";
    "is"; "are"; "was"; "were"; "be"; "been"; "being"; "have"; "has"; "had";
    "do"; "does"; "did"; "will"; "would"; "could"; "should"; "may"; "might";
    "this"; "that"; "these"; "those"; "it"; "its"; "they"; "them"; "their";
    "what"; "which"; "who"; "whom"; "when"; "where"; "why"; "how";
    "all"; "each"; "every"; "both"; "few"; "more"; "most"; "other"; "some";
    "such"; "no"; "not"; "only"; "same"; "so"; "than"; "too"; "very" ].

Definition isStopWord (word : string) : bool :=
  existsb (String.eqb word) stopWords.

(** [.replace(/[^\w\s]/g, ' ')] on one code unit. *)
Definition replaceNonWord (c : ascii) : ascii :=
  if negb (isWordChar c || isSpace c) then " "%char else c.

Definition keepToken (token : string) : bool :=
  (2 <? String.length token)%nat && negb (isStopWord token).

Definition tokenize (text : string) : list string :=
  filter keepToken
    (JsString.split isSpace (smap replaceNonWord (toLowerCase text))).

(** [new Set(tokens)] in iteration order: first occurrences. *)
Fixpoint uniq (seen : list string) (l : list string) : list string :=
  match l with
  | [] => []
  | x :: l' =>
      if existsb (String.eqb x) seen then uniq seen l'
      else x :: uniq (x :: seen) l'
  end.

(** [m.set(k, (m.get(k) || 0) + 1)]. *)
Definition increment (m : JsMap.t float) (k : string) : JsMap.t float :=
  JsMap.set m k (Num.orElse (JsMap.get m k) 0 + 1).

Definition computeTermFrequency (toks : list string) : JsMap.t float :=
  let freq := fold_left increment toks [] in
  let maxFreq := Num.mathMax (JsMap.values freq) in
  if 0 <? maxFreq
  then JsMap.mapValues (fun _ f => f / maxFreq) freq
  else freq.

Definition cosineSimilarity (vec1 vec2 : JsMap.t float) : float :=
  let '(dotProduct, norm1) :=
    fold_left
      (fun acc kv =>
         let val1 := snd kv in
         let val2 := Num.orElse (JsMap.get vec2 (fst kv)) 0 in
         (fst acc + val1 * val2, snd acc + val1 * val1))
      vec1 (0, 0) in
  let norm2 := fold_left (fun acc val => acc + val * val) (JsMap.values vec2) 0 in
  if PrimFloat.eqb norm1 0 || PrimFloat.eqb norm2 0 then 0
  else dotProduct / (PrimFloat.sqrt norm1 * PrimFloat.sqrt norm2).

Definition isSentenceEnd (c : ascii) : bool :=
  Ascii.eqb c "."%char || Ascii.eqb c "!"%char || Ascii.eqb c "?"%char.

Fixpoint join (sep : string) (l : list string) : string :=
  match l with
  | [] => ""
  | [x] => x
  | x :: l' => x ++ sep ++ join sep l'
  end.

Definition extractRelevantSnippet (content : string) (queryTokens : list string)
  : string :=
  let sentences :=
    filter (fun s => (0 <? String.length (trim s))%nat)
           (JsString.split isSentenceEnd content) in
  let scored :=
    map (fun sentence =>
           let sentenceTokens := uniq [] (tokenize sentence) in
           (trim sentence,
            List.length (filter (fun qt => existsb (String.eqb qt) sentenceTokens)
                           queryTokens)))
        sentences in
  let sorted := sortBy (fun a b => (snd a <? snd b)%nat) scored in
  let topSentences := filter (fun s => (0 <? snd s)%nat) (firstn 3 sorted) in
  match topSentences with
  | [] => substring0 300 content ++ "..."
  | _ => join ". " (map fst topSentences) ++ "."
  end.

(** The record [index] pushes for a document; its TF-IDF vector is
    computed once the IDF table is known. *)
Definition pushed (doc : CachedDocument) : IndexedDocument :=
  {| idoc_id := doc_id doc; idoc_title := doc_title doc;
     idoc_content := doc_content doc; tokens := tokenize (doc_content doc);
     tfidf := [] |}.

Section WithLog.
(** [Math.log]. *)
Variable Math_log : float -> float.

(** The first loop of [index]: tokenizes each element, counts document
    frequencies and pushes the indexed documents; it stops with a
    [TypeError] at an element whose content is not a string, leaving the
    documents pushed so far. *)
Fixpoint indexLoop (docs : list JsDoc) (docFreq : JsMap.t float)
         (acc : list IndexedDocument)
  : Outcome (JsMap.t float) * list IndexedDocument :=
  match docs with
  | [] => (Ret docFreq, acc)
  | Malformed _ :: _ => (Throw TypeError, acc)
  | WellFormed doc :: docs' =>
      let uniqueTokens := uniq [] (tokenize (doc_content doc)) in
      let docFreq' := fold_left increment uniqueTokens docFreq in
      indexLoop docs' docFreq' (acc ++ [pushed doc])
  end.

Definition computeIdf (N : nat) (docFreq : JsMap.t float) : JsMap.t float :=
  JsMap.mapValues
    (fun _ df => Math_log ((Num.ofNat N + 1) / (df + 1)) + 1) docFreq.

Definition withTfidf (idfs : JsMap.t float) (doc : IndexedDocument)
  : IndexedDocument :=
  {| idoc_id := idoc_id doc; idoc_title := idoc_title doc;
     idoc_content := idoc_content doc; tokens := tokens doc;
     tfidf := JsMap.mapValues
                (fun term tf => tf * Num.orElse (JsMap.get idfs term) 1)
                (computeTermFrequency (tokens doc)) |}.

(** [index(documents)]: the outcome and the engine afterwards. *)
Definition index (docs : JsDocs) (rag : t) : Outcome unit * t :=
  match docs with
  | NotIterable =>
      (Throw TypeError, {| documents := []; idf := []; indexed := indexed rag |})
  | DocArray l =>
      match indexLoop l [] [] with
      | (Throw e, pushed) =>
          (Throw e, {| documents := pushed; idf := []; indexed := indexed rag |})
      | (Ret docFreq, pushed) =>
          let idfs := computeIdf (List.length l) docFreq in
          (Ret tt, {| documents := map (withTfidf idfs) pushed;
                      idf := idfs; indexed := true |})
      end
  end.

End WithLog.

Definition Scored : Type := (IndexedDocument * float)%type.

(** The comparator [(a, b) => b.score - a.score] is positive. *)
Definition scoreAfter (a b : Scored) : bool := 0 <? snd b - snd a.

Definition toSource (r : Scored) : Source :=
  {| title := idoc_title (fst r);
     snippet := substring0 200 (idoc_content (fst r)) ++ "...";
     score := snd r |}.

(** The TF-IDF vector of the query under the IDF table of the corpus. *)
Definition queryVector (rag : t) (query : string) : JsMap.t float :=
  let queryTokens := tokenize query in
  let queryTf := computeTermFrequency queryTokens in
  JsMap.mapValues (fun term tf => tf * Num.orElse (JsMap.get (idf rag) term) 1)
                  queryTf.

Definition scored (rag : t) (query : string) (doc : IndexedDocument) : Scored :=
  (doc, cosineSimilarity (queryVector rag query) (tfidf doc)).

Definition rankedScores (rag : t) (query : string) : list Scored :=
  sortBy scoreAfter (map (scored rag query) (documents rag)).

Definition ask (rag : t) (query : string) : LocalRAGResult :=
  if negb (indexed rag) || (List.length (documents rag) =? 0)%nat
  then {| answer := "I don't have any information available offline.";
          sources := []; topScore := 0 |}
  else
    let scores := rankedScores rag query in
    let topResults := filter (fun r => 0.1 <? snd r) (firstn 3 scores) in
    match topResults with
    | [] =>
        {| answer := "I couldn't find relevant information for your question in my offline data.";
           sources := [];
           topScore := Num.orElse (option_map snd (hd_error scores)) 0 |}
    | top :: _ =>
        {| answer := extractRelevantSnippet (idoc_content (fst top)) (tokenize query);
           sources := map toSource topResults;
           topScore := snd top |}
    end.

End LocalRAG.

(** ** types.ts *)

Inductive ConnectionStatus : Type := connecting | online | offline | error.

Inductive ConfidenceLevel : Type := high | medium | low | none.

Inductive ErrorCode : Type :=
| NETWORK_ERROR | AUTH_ERROR | RATE_LIMIT | SERVER_ERROR
| CACHE_ERROR | LOCAL_RAG_ERROR.

Definition ErrorCode_eqb (a b : ErrorCode) : bool :=
  match a, b with
  | NETWORK_ERROR, NETWORK_ERROR | AUTH_ERROR, AUTH_ERROR
  | RATE_LIMIT, RATE_LIMIT | SERVER_ERROR, SERVER_ERROR
  | CACHE_ERROR, CACHE_ERROR | LOCAL_RAG_ERROR, LOCAL_RAG_ERROR => true
  | _, _ => false
  end.

Definition ConnectionStatus_eqb (a b : ConnectionStatus) : bool :=
  match a, b with
  | connecting, connecting | online, online | offline, offline
  | error, error => true
  | _, _ => false
  end.

(** An ISO date string as [new Date(s).getTime()] reads it: the instant in
    milliseconds, or a text that is no date (the time value is [NaN]). *)
Inductive DateString : Type :=
| IsoDate (ms : Z)
| InvalidDate.

(** [new Date(s).getTime()]; [None] stands for [NaN]. *)
Definition getTime (s : DateString) : option Z :=
  match s with
  | IsoDate ms => Some ms
  | InvalidDate => None
  end.

Module CyberneticError.
Record t : Type := {
  code : ErrorCode;
  message : string;
  retryAfter : option JsNumber;
  originalError : option Thrown
}.
End CyberneticError.

Module Source.
Record t : Type := {
  title : string;
  snippet : string;
  relevance : float
}.
End Source.

(** [CyberneticResponse]: the answer of the engine. *)
Module Response.
Record t : Type := {
  reply : string;
  confidence : ConfidenceLevel;
  sources : list Source.t;
  offline : bool;
  sessionId : option string;
  retryAfter : option JsNumber;
  degradedReason : option string
}.
End Response.

Module SystemSettings.
Record t : Type := {
  cacheRetentionHours : Z;
  maintenanceMode : bool;
  maintenanceMessage : option string;
  forceOfflineClients : bool
}.
End SystemSettings.

Module CacheStatus.
Record t : Type := {
  documentCount : nat;
  lastSyncAt : option DateString;
  cacheSize : nat;
  isStale : bool
}.
End CacheStatus.

Module AskOptions.
Record t : Type := {
  sessionId : option string;
  context : option (option string * option string);
  skipFallback : option bool
}.
End AskOptions.

(** ** The transport collaborator (ApiClient.ts) as seen by the client *)

(** The part of the chat response the client reads. *)
Module ChatResponse.
Record t : Type := {
  reply : string;
  sessionId : option string;
  sources : option (list Source.t)
}.
End ChatResponse.

(** [systemSettings] of the status response: every field may be absent. *)
Module ReportedSettings.
Record t : Type := {
  cacheRetentionHours : option Z;
  maintenanceMode : option bool;
  maintenanceMessage : option string;
  forceOfflineClients : option bool
}.
End ReportedSettings.

(** One data event of the chat stream, as [chatStream] reads it. *)
Inductive StreamChunk : Type :=
| ChunkText (text : string)
| ChunkSources (sources : list Source.t)
| ChunkSession (sessionId : string).

(** A run of [chatStream]: the request is rejected before any event (the
    promise rejects), or events are read until the stream is done or a
    read fails. *)
Inductive StreamRun : Type :=
| StreamRejected (e : Thrown)
| StreamRead (chunks : list StreamChunk) (failure : option Thrown).

Module StatusResponse.
Record t : Type := {
  systemSettings : option ReportedSettings.t
}.
End StatusResponse.

(** ** The browser storage *)

Inductive StorageKind : Type := indexeddb | localstorage.

(** The text of a [localStorage] item, by what [JSON.parse] makes of it. *)
Inductive StoredText : Type :=
| TextDocs (docs : JsDocs)
| TextMeta (documentCount : nat) (lastSyncAt : option DateString)
| TextInvalid
| TextEmpty.

(** The two items the cache uses: 'cybernetic-cache-docs' and
    'cybernetic-cache-meta'. *)
Inductive StorageKey : Type := DocsKey | MetaKey.

Module LocalStorage.
Record t : Type := {
  docs : option StoredText;
  meta : option StoredText
}.
Definition empty : t := {| docs := None; meta := None |}.
Definition getItem (s : t) (k : StorageKey) : option StoredText :=
  match k with DocsKey => docs s | MetaKey => meta s end.
Definition setItem (s : t) (k : StorageKey) (v : StoredText) : t :=
  match k with
  | DocsKey => {| docs := Some v; meta := meta s |}
  | MetaKey => {| docs := docs s; meta := Some v |}
  end.
Definition removeItem (s : t) (k : StorageKey) : t :=
  match k with
  | DocsKey => {| docs := None; meta := meta s |}
  | MetaKey => {| docs := docs s; meta := None |}
  end.
End LocalStorage.

(** The database 'cybernetic-cache': the object store [documents] keyed by
    [id] and kept in key order, and the two records of [metadata]. *)
Module IndexedDb.
Record t : Type := {
  documents : list (string * JsDoc);
  metaCount : option nat;
  metaLastSync : option DateString
}.
Definition empty : t :=
  {| documents := []; metaCount := None; metaLastSync := None |}.

Definition keyOf (d : JsDoc) : option string :=
  match d with
  | WellFormed doc => Some (doc_id doc)
  | Malformed k => k
  end.

(** [put] under key [k]: replaces the record of that key or inserts it in
    key order. *)
Fixpoint put (l : list (string * JsDoc)) (k : string) (d : JsDoc)
  : list (string * JsDoc) :=
  match l with
  | [] => [(k, d)]
  | (k', d') :: l' =>
      if String.eqb k k' then (k, d) :: l'
      else if String.ltb k k' then (k, d) :: l
      else (k', d') :: put l' k d
  end.
End IndexedDb.

(** ** The environment of a run

    The collaborators answer by the number of the call: the n-th chat call,
    the n-th clock reading, and so on. *)
Record Env : Type := {
  Date_now : nat -> Z;
  api_chat : nat -> string -> option string -> Outcome ChatResponse.t;
  api_chatStream : nat -> string -> option string -> StreamRun;
  api_getStatus : nat -> Outcome StatusResponse.t;
  (** [data.documents] of the answer; [None] when the answer has none
      ([undefined]) or [null]. *)
  api_getGeneralDocs : nat -> option DateString -> Outcome (option JsDocs);
  (** [Some e]: the n-th [localStorage.setItem] throws [e] (quota). *)
  setItem_throws : nat -> StorageKey -> StoredText -> option Thrown;
  (** [Some e]: the n-th IndexedDB request fails with [e]. *)
  idb_fails : nat -> option Thrown;
  Math_log : float -> float
}.

(** What the client does to the outside, in program order.  The observers
    [onStatusChange] and [onError] of the configuration and the callbacks
    of a stream ([onToken], [onSources], [onComplete], [onError]) are
    notifications: what is handed to them is recorded.  In [Client] the
    host callback, when there is one, returns; [Host], further down,
    embeds the methods that reach a callback with callbacks that may
    throw, and is what the properties about returning and throwing are
    stated on. *)
Inductive Event : Type :=
| EvChat (message : string) (sessionId : option string)
| EvGetStatus
| EvGetGeneralDocs (since : option DateString)
| EvSleep (ms : Z)
| EvStatusChange (s : ConnectionStatus)
| EvError (e : CyberneticError.t)
| EvChatStream (message : string) (sessionId : option string)
| EvToken (token : string)
| EvSources (sources : list Source.t)
| EvComplete (response : Response.t)
| EvStreamError (e : CyberneticError.t).

Module World.
Record t : Type := {
  clockReads : nat;
  chatCalls : nat;
  streamCalls : nat;
  statusCalls : nat;
  docsCalls : nat;
  setItemCalls : nat;
  idbRequests : nat;
  storage : LocalStorage.t;
  database : IndexedDb.t;
  events : list Event
}.

Definition initial (s : LocalStorage.t) (d : IndexedDb.t) : t :=
  {| clockReads := 0; chatCalls := 0; streamCalls := 0; statusCalls := 0; docsCalls := 0;
     setItemCalls := 0; idbRequests := 0; storage := s; database := d;
     events := [] |}.

Definition tickClock (w : t) : t :=
  {| clockReads := S (clockReads w); chatCalls := chatCalls w;
     streamCalls := streamCalls w;
     statusCalls := statusCalls w; docsCalls := docsCalls w;
     setItemCalls := setItemCalls w; idbRequests := idbRequests w;
     storage := storage w; database := database w; events := events w |}.

Definition tickChat (w : t) : t :=
  {| clockReads := clockReads w; chatCalls := S (chatCalls w);
     streamCalls := streamCalls w;
     statusCalls := statusCalls w; docsCalls := docsCalls w;
     setItemCalls := setItemCalls w; idbRequests := idbRequests w;
     storage := storage w; database := database w; events := events w |}.

Definition tickStream (w : t) : t :=
  {| clockReads := clockReads w; chatCalls := chatCalls w;
     streamCalls := S (streamCalls w);
     statusCalls := statusCalls w; docsCalls := docsCalls w;
     setItemCalls := setItemCalls w; idbRequests := idbRequests w;
     storage := storage w; database := database w; events := events w |}.

Definition tickStatus (w : t) : t :=
  {| clockReads := clockReads w; chatCalls := chatCalls w;
     streamCalls := streamCalls w;
     statusCalls := S (statusCalls w); docsCalls := docsCalls w;
     setItemCalls := setItemCalls w; idbRequests := idbRequests w;
     storage := storage w; database := database w; events := events w |}.

Definition tickDocs (w : t) : t :=
  {| clockReads := clockReads w; chatCalls := chatCalls w;
     streamCalls := streamCalls w;
     statusCalls := statusCalls w; docsCalls := S (docsCalls w);
     setItemCalls := setItemCalls w; idbRequests := idbRequests w;
     storage := storage w; database := database w; events := events w |}.

Definition tickSetItem (w : t) : t :=
  {| clockReads := clockReads w; chatCalls := chatCalls w;
     streamCalls := streamCalls w;
     statusCalls := statusCalls w; docsCalls := docsCalls w;
     setItemCalls := S (setItemCalls w); idbRequests := idbRequests w;
     storage := storage w; database := database w; events := events w |}.

Definition tickIdb (w : t) : t :=
  {| clockReads := clockReads w; chatCalls := chatCalls w;
     streamCalls := streamCalls w;
     statusCalls := statusCalls w; docsCalls := docsCalls w;
     setItemCalls := setItemCalls w; idbRequests := S (idbRequests w);
     storage := storage w; database := database w; events := events w |}.

Definition setStorage (s : LocalStorage.t) (w : t) : t :=
  {| clockReads := clockReads w; chatCalls := chatCalls w;
     streamCalls := streamCalls w;
     statusCalls := statusCalls w; docsCalls := docsCalls w;
     setItemCalls := setItemCalls w; idbRequests := idbRequests w;
     storage := s; database := database w; events := events w |}.

Definition setDatabase (d : IndexedDb.t) (w : t) : t :=
  {| clockReads := clockReads w; chatCalls := chatCalls w;
     streamCalls := streamCalls w;
     statusCalls := statusCalls w; docsCalls := docsCalls w;
     setItemCalls := setItemCalls w; idbRequests := idbRequests w;
     storage := storage w; database := d; events := events w |}.

Definition addEvent (e : Event) (w : t) : t :=
  {| clockReads := clockReads w; chatCalls := chatCalls w;
     streamCalls := streamCalls w;
     statusCalls := statusCalls w; docsCalls := docsCalls w;
     setItemCalls := setItemCalls w; idbRequests := idbRequests w;
     storage := storage w; database := database w;
     events := events w ++ [e] |}.
End World.

(** ** The objects: cache, engine and client *)

(** How [getDB] finds the database once construction has settled: opened
    (with the metadata loaded), never requested ([indexedDB] undefined, or
    the local-storage configuration), or an open request that was rejected. *)
Inductive DbHandle : Type :=
| DbOpen
| DbMissing
| DbRejected (e : Thrown).

(** The fields of [CyberneticCache]. *)
Module CacheFields.
Record t : Type := {
  storage : StorageKind;
  maxAge : Z;
  db : DbHandle;
  documentCount : nat;
  lastSyncAt : option DateString
}.

Definition setDocumentCount (n : nat) (c : t) : t :=
  {| storage := storage c; maxAge := maxAge c; db := db c;
     documentCount := n; lastSyncAt := lastSyncAt c |}.

Definition setLastSyncAt (d : option DateString) (c : t) : t :=
  {| storage := storage c; maxAge := maxAge c; db := db c;
     documentCount := documentCount c; lastSyncAt := d |}.
End CacheFields.

(** [ResolvedConfig], without the transport credentials, the agentic part
    and the two observers (see [Event]). *)
Module Config.
Record Fallback : Type := {
  enabled : bool;
  cacheMaxAge : Z;
  cacheOnConnect : bool;
  cacheStorage : StorageKind
}.
Record Retry : Type := {
  maxRetries : Z;
  initialDelay : Z;
  exponentialBackoff : bool
}.
Record t : Type := {
  fallback : Fallback;
  retry : Retry
}.
(** The defaults the constructor applies. *)
Definition default : t :=
  {| fallback := {| enabled := true; cacheMaxAge := 86400000;
                    cacheOnConnect := true; cacheStorage := indexeddb |};
     retry := {| maxRetries := 2; initialDelay := 1000;
                 exponentialBackoff := true |} |}.
End Config.

(** The fields of [CyberneticClient]. *)
Module ClientFields.
Record t : Type := {
  config : Config.t;
  cache : CacheFields.t;
  localRAG : LocalRAG.t;
  status : ConnectionStatus;
  lastError : option CyberneticError.t;
  systemSettings : option SystemSettings.t;
  settingsLastChecked : Z
}.

Definition setCache (x : CacheFields.t) (c : t) : t :=
  {| config := config c; cache := x; localRAG := localRAG c;
     status := status c; lastError := lastError c;
     systemSettings := systemSettings c;
     settingsLastChecked := settingsLastChecked c |}.

Definition setLocalRAG (x : LocalRAG.t) (c : t) : t :=
  {| config := config c; cache := cache c; localRAG := x;
     status := status c; lastError := lastError c;
     systemSettings := systemSettings c;
     settingsLastChecked := settingsLastChecked c |}.

Definition setStatusField (x : ConnectionStatus) (c : t) : t :=
  {| config := config c; cache := cache c; localRAG := localRAG c;
     status := x; lastError := lastError c;
     systemSettings := systemSettings c;
     settingsLastChecked := settingsLastChecked c |}.

Definition setLastError (x : option CyberneticError.t) (c : t) : t :=
  {| config := config c; cache := cache c; localRAG := localRAG c;
     status := status c; lastError := x;
     systemSettings := systemSettings c;
     settingsLastChecked := settingsLastChecked c |}.

Definition setSystemSettings (x : option SystemSettings.t) (c : t) : t :=
  {| config := config c; cache := cache c; localRAG := localRAG c;
     status := status c; lastError := lastError c;
     systemSettings := x;
     settingsLastChecked := settingsLastChecked c |}.

Definition setSettingsLastChecked (x : Z) (c : t) : t :=
  {| config := config c; cache := cache c; localRAG := localRAG c;
     status := status c; lastError := lastError c;
     systemSettings := systemSettings c;
     settingsLastChecked := x |}.
End ClientFields.

(** The client object together with the world it runs in. *)
Record Machine : Type := {
  client : ClientFields.t;
  world : World.t
}.

(** ** Computations: state, and [throw] / [try ... catch] *)

Definition M (A : Type) : Type := Env -> Machine -> Outcome A * Machine.

Definition ret {A : Type} (a : A) : M A := fun _ s => (Ret a, s).

Definition throw {A : Type} (e : Thrown) : M A := fun _ s => (Throw e, s).

Definition bind {A B : Type} (m : M A) (k : A -> M B) : M B :=
  fun env s =>
    match m env s with
    | (Ret a, s') => k a env s'
    | (Throw e, s') => (Throw e, s')
    end.

Definition tryCatch {A : Type} (m : M A) (handler : Thrown -> M A) : M A :=
  fun env s =>
    match m env s with
    | (Ret a, s') => (Ret a, s')
    | (Throw e, s') => handler e env s'
    end.

Declare Scope js_scope.
Delimit Scope js_scope with js.
Notation "x <- m ;; k" := (bind m (fun x => k))
  (at level 61, m at next level, right associativity) : js_scope.
Notation "m ;; k" := (bind m (fun _ => k))
  (at level 61, right associativity) : js_scope.
Local Open Scope js_scope.

Definition getEnv : M Env := fun env s => (Ret env, s).
Definition getClient : M ClientFields.t := fun _ s => (Ret (client s), s).
Definition getWorld : M World.t := fun _ s => (Ret (world s), s).

Definition modifyClient (f : ClientFields.t -> ClientFields.t) : M unit :=
  fun _ s => (Ret tt, {| client := f (client s); world := world s |}).

Definition modifyWorld (f : World.t -> World.t) : M unit :=
  fun _ s => (Ret tt, {| client := client s; world := f (world s) |}).

Definition modifyCache (f : CacheFields.t -> CacheFields.t) : M unit :=
  modifyClient (fun c => ClientFields.setCache (f (ClientFields.cache c)) c).

(** [Date.now()]. *)
Definition dateNow : M Z :=
  env <- getEnv ;; w <- getWorld ;;
  modifyWorld World.tickClock ;;
  ret (Date_now env (World.clockReads w)).

Definition emit (e : Event) : M unit := modifyWorld (World.addEvent e).

(** [await this.sleep(ms)]. *)
Definition sleep (ms : Z) : M unit := emit (EvSleep ms).

(** [localStorage.setItem(k, v)]. *)
Definition setItem (k : StorageKey) (v : StoredText) : M unit :=
  env <- getEnv ;; w <- getWorld ;;
  modifyWorld World.tickSetItem ;;
  match setItem_throws env (World.setItemCalls w) k v with
  | Some e => throw e
  | None =>
      modifyWorld (fun w' => World.setStorage (LocalStorage.setItem (World.storage w') k v) w')
  end.

Definition removeItem (k : StorageKey) : M unit :=
  modifyWorld (fun w => World.setStorage (LocalStorage.removeItem (World.storage w) k) w).

(** One request inside an IndexedDB transaction that started from the
    database [snapshot]: a failed request aborts the transaction. *)
Definition idbRequest (snapshot : IndexedDb.t) : M unit :=
  env <- getEnv ;; w <- getWorld ;;
  modifyWorld World.tickIdb ;;
  match idb_fails env (World.idbRequests w) with
  | Some e => modifyWorld (World.setDatabase snapshot) ;; throw e
  | None => ret tt
  end.

Definition modifyDatabase (f : IndexedDb.t -> IndexedDb.t) : M unit :=
  modifyWorld (fun w => World.setDatabase (f (World.database w)) w).

(** ** CyberneticCache.ts *)

Module Cache.

Definition fields : M CacheFields.t :=
  c <- getClient ;; ret (ClientFields.cache c).

Definition getDB : M unit :=
  c <- fields ;;
  match CacheFields.db c with
  | DbOpen => ret tt
  | DbMissing => throw (JsError "Database not available")
  | DbRejected e => throw e
  end.

Definition storeLocalStorage (documents : list JsDoc) : M unit :=
  tryCatch
    (setItem DocsKey (TextDocs (DocArray documents)) ;;
     modifyCache (CacheFields.setDocumentCount (List.length documents)) ;;
     t <- dateNow ;;
     modifyCache (CacheFields.setLastSyncAt (Some (IsoDate t))) ;;
     c <- fields ;;
     setItem MetaKey
       (TextMeta (CacheFields.documentCount c) (CacheFields.lastSyncAt c)))
    (fun _ =>
     removeItem DocsKey ;;
     let limited := firstn 50 documents in
     setItem DocsKey (TextDocs (DocArray limited)) ;;
     modifyCache (CacheFields.setDocumentCount (List.length limited))).

Definition retrieveLocalStorage : M JsDocs :=
  w <- getWorld ;;
  ret match LocalStorage.getItem (World.storage w) DocsKey with
      | Some (TextDocs d) => d
      | Some (TextMeta _ _) => NotIterable
      | Some TextInvalid => DocArray []
      | Some TextEmpty => DocArray []
      | None => DocArray []
      end.

(** The [put] loop of [store]: a value without [id] is refused with a
    [DataError] before any request is made. *)
Fixpoint putAll (snapshot : IndexedDb.t) (documents : list JsDoc) : M unit :=
  match documents with
  | [] => ret tt
  | doc :: rest =>
      match IndexedDb.keyOf doc with
      | None => throw (JsError "DataError")
      | Some k =>
          idbRequest snapshot ;;
          modifyDatabase (fun d =>
            {| IndexedDb.documents := IndexedDb.put (IndexedDb.documents d) k doc;
               IndexedDb.metaCount := IndexedDb.metaCount d;
               IndexedDb.metaLastSync := IndexedDb.metaLastSync d |}) ;;
          putAll snapshot rest
      end
  end.

Definition store (documents : list JsDoc) : M unit :=
  c <- fields ;;
  match CacheFields.storage c with
  | localstorage => storeLocalStorage documents
  | indexeddb =>
      getDB ;;
      w <- getWorld ;;
      let snapshot := World.database w in
      putAll snapshot documents ;;
      idbRequest snapshot ;;
      w1 <- getWorld ;;
      modifyCache (CacheFields.setDocumentCount
                     (List.length (IndexedDb.documents (World.database w1)))) ;;
      t <- dateNow ;;
      modifyCache (CacheFields.setLastSyncAt (Some (IsoDate t))) ;;
      c1 <- fields ;;
      idbRequest snapshot ;;
      modifyDatabase (fun d =>
        {| IndexedDb.documents := IndexedDb.documents d;
           IndexedDb.metaCount := Some (CacheFields.documentCount c1);
           IndexedDb.metaLastSync := IndexedDb.metaLastSync d |}) ;;
      idbRequest snapshot ;;
      modifyDatabase (fun d =>
        {| IndexedDb.documents := IndexedDb.documents d;
           IndexedDb.metaCount := IndexedDb.metaCount d;
           IndexedDb.metaLastSync := CacheFields.lastSyncAt c1 |}) ;;
      idbRequest snapshot
  end.

Definition retrieve : M JsDocs :=
  c <- fields ;;
  match CacheFields.storage c with
  | localstorage => retrieveLocalStorage
  | indexeddb =>
      getDB ;;
      w <- getWorld ;;
      idbRequest (World.database w) ;;
      ret (DocArray (map snd (IndexedDb.documents (World.database w))))
  end.

Definition getLastSync : M (option DateString) :=
  c <- fields ;; ret (CacheFields.lastSyncAt c).

Definition getStatus : M CacheStatus.t :=
  now <- dateNow ;;
  c <- fields ;;
  let lastSync :=
    match CacheFields.lastSyncAt c with
    | Some d => getTime d
    | None => Some 0%Z
    end in
  let isStale :=
    match lastSync with
    | Some t => (CacheFields.maxAge c <? now - t)%Z
    | None => false
    end in
  ret {| CacheStatus.documentCount := CacheFields.documentCount c;
         CacheStatus.lastSyncAt := CacheFields.lastSyncAt c;
         CacheStatus.cacheSize := CacheFields.documentCount c * 5000;
         CacheStatus.isStale := isStale |}.

Definition clear : M unit :=
  c <- fields ;;
  match CacheFields.storage c with
  | localstorage =>
      removeItem DocsKey ;;
      removeItem MetaKey ;;
      modifyCache (CacheFields.setDocumentCount 0) ;;
      modifyCache (CacheFields.setLastSyncAt None)
  | indexeddb =>
      getDB ;;
      w <- getWorld ;;
      let snapshot := World.database w in
      idbRequest snapshot ;;
      modifyDatabase (fun d =>
        {| IndexedDb.documents := [];
           IndexedDb.metaCount := IndexedDb.metaCount d;
           IndexedDb.metaLastSync := IndexedDb.metaLastSync d |}) ;;
      idbRequest snapshot ;;
      modifyDatabase (fun d =>
        {| IndexedDb.documents := IndexedDb.documents d;
           IndexedDb.metaCount := None;
           IndexedDb.metaLastSync := None |}) ;;
      idbRequest snapshot ;;
      modifyCache (CacheFields.setDocumentCount 0) ;;
      modifyCache (CacheFields.setLastSyncAt None)
  end.

(** The constructor: the fields of a new cache over the given storage.
    [dbHandle] says how the database request of the constructor ends. *)
Definition create (kind : StorageKind) (maxAge : Z) (dbHandle : DbHandle)
           (w : World.t) : CacheFields.t :=
  match kind with
  | indexeddb =>
      match dbHandle with
      | DbOpen =>
          (* loadMetadata: [value || 0] and [value || null] *)
          {| CacheFields.storage := kind; CacheFields.maxAge := maxAge;
             CacheFields.db := DbOpen;
             CacheFields.documentCount :=
               match IndexedDb.metaCount (World.database w) with
               | Some n => n | None => 0 end;
             CacheFields.lastSyncAt := IndexedDb.metaLastSync (World.database w) |}
      | h =>
          {| CacheFields.storage := kind; CacheFields.maxAge := maxAge;
             CacheFields.db := h;
             CacheFields.documentCount := 0; CacheFields.lastSyncAt := None |}
      end
  | localstorage =>
      (* loadLocalStorageMetadata *)
      match LocalStorage.getItem (World.storage w) MetaKey with
      | Some (TextMeta n d) =>
          {| CacheFields.storage := kind; CacheFields.maxAge := maxAge;
             CacheFields.db := DbMissing;
             CacheFields.documentCount := n; CacheFields.lastSyncAt := d |}
      | _ =>
          {| CacheFields.storage := kind; CacheFields.maxAge := maxAge;
             CacheFields.db := DbMissing;
             CacheFields.documentCount := 0; CacheFields.lastSyncAt := None |}
      end
  end.

End Cache.

(** ** CyberneticClient.ts *)

(** The run-time value passed as [message]: a string, or anything else
    ([null], a number, ...). *)
Inductive MessageArg : Type :=
| Str (s : string)
| NotAString.

Module Client.
Local Open Scope Z_scope.

Definition SETTINGS_CHECK_INTERVAL : Z := 300000.

Definition liftOutcome {A : Type} (o : Outcome A) : M A :=
  match o with
  | Ret a => ret a
  | Throw e => throw e
  end.

(** The calls to the transport collaborator. *)
Definition apiChat (message : string) (sessionId : option string)
  : M ChatResponse.t :=
  env <- getEnv ;; w <- getWorld ;;
  modifyWorld World.tickChat ;;
  emit (EvChat message sessionId) ;;
  liftOutcome (api_chat env (World.chatCalls w) message sessionId).

Definition apiGetStatus : M StatusResponse.t :=
  env <- getEnv ;; w <- getWorld ;;
  modifyWorld World.tickStatus ;;
  emit EvGetStatus ;;
  liftOutcome (api_getStatus env (World.statusCalls w)).

Definition apiGetGeneralDocs (since : option DateString) : M (option JsDocs) :=
  env <- getEnv ;; w <- getWorld ;;
  modifyWorld World.tickDocs ;;
  emit (EvGetGeneralDocs since) ;;
  liftOutcome (api_getGeneralDocs env (World.docsCalls w) since).

(** [this.localRAG.index(docs)]. *)
Definition ragIndex (docs : JsDocs) : M unit :=
  env <- getEnv ;; c <- getClient ;;
  let '(o, rag) := LocalRAG.index (Math_log env) docs (ClientFields.localRAG c) in
  modifyClient (ClientFields.setLocalRAG rag) ;;
  liftOutcome o.

(** [setStatus] with an [onStatusChange] observer that returns
    ([Host.setStatus] is the method with any observer). *)
Definition setStatus (s : ConnectionStatus) : M unit :=
  c <- getClient ;;
  if negb (ConnectionStatus_eqb (ClientFields.status c) s)
  then modifyClient (ClientFields.setStatusField s) ;; emit (EvStatusChange s)
  else ret tt.

(** [match ? parseInt(match[1], 10) : 60]. *)
Definition retryAfterOf (msg : string) : JsNumber :=
  match matchRetryAfter msg with
  | Some ds => parseInt ds
  | None => Finite 60
  end.

Definition normalizeError (error : Thrown) : CyberneticError.t :=
  match error with
  | JsError msg =>
      if includes msg "401" || includes msg "Unauthorized" then
        {| CyberneticError.code := AUTH_ERROR;
           CyberneticError.message := "Invalid or expired API key";
           CyberneticError.retryAfter := None;
           CyberneticError.originalError := Some error |}
      else if includes msg "429" || includes msg "Rate limit" then
        {| CyberneticError.code := RATE_LIMIT;
           CyberneticError.message := "Rate limit exceeded";
           CyberneticError.retryAfter := Some (retryAfterOf msg);
           CyberneticError.originalError := Some error |}
      else if includes msg "5" || includes msg "Server" then
        {| CyberneticError.code := SERVER_ERROR;
           CyberneticError.message := "Server error occurred";
           CyberneticError.retryAfter := None;
           CyberneticError.originalError := Some error |}
      else
        {| CyberneticError.code := NETWORK_ERROR;
           CyberneticError.message := JsString.orElse msg "Network error";
           CyberneticError.retryAfter := None;
           CyberneticError.originalError := Some error |}
  | NotAnError =>
      {| CyberneticError.code := NETWORK_ERROR;
         CyberneticError.message := "Unknown error occurred";
         CyberneticError.retryAfter := None;
         CyberneticError.originalError := None |}
  end.

Definition createErrorResponse (message : string) (confidence : ConfidenceLevel)
           (retryAfter : option JsNumber) : Response.t :=
  {| Response.reply := message;
     Response.confidence := confidence;
     Response.sources := [];
     Response.offline := false;
     Response.sessionId := None;
     Response.retryAfter := retryAfter;
     Response.degradedReason := None |}.

Definition sessionIdOf (options : option AskOptions.t) : option string :=
  match options with
  | Some o => AskOptions.sessionId o
  | None => None
  end.

(** [options?.skipFallback] is truthy. *)
Definition skipsFallback (options : option AskOptions.t) : bool :=
  match options with
  | Some o => match AskOptions.skipFallback o with Some b => b | None => false end
  | None => false
  end.

Definition noRetry (c : ErrorCode) : bool :=
  ErrorCode_eqb c AUTH_ERROR || ErrorCode_eqb c RATE_LIMIT.

(** The [for] loop of [apiWithRetry]: [remaining] iterations are left,
    the next one is number [attempt]. *)
Fixpoint retryLoop (message : string) (options : option AskOptions.t)
         (cfg : Config.Retry) (remaining : nat) (attempt : Z)
         (lastError : Thrown) : M ChatResponse.t :=
  match remaining with
  | O => throw lastError
  | S remaining' =>
      tryCatch
        (apiChat message (sessionIdOf options))
        (fun error =>
           let omegaError := normalizeError error in
           if noRetry (CyberneticError.code omegaError) then throw error
           else
             (if attempt <? Config.maxRetries cfg
              then sleep (if Config.exponentialBackoff cfg
                          then Config.initialDelay cfg * 2 ^ attempt
                          else Config.initialDelay cfg)
              else ret tt) ;;
             retryLoop message options cfg remaining' (attempt + 1) error)
  end.

Definition apiWithRetry (message : string) (options : option AskOptions.t)
  : M ChatResponse.t :=
  c <- getClient ;;
  let cfg := Config.retry (ClientFields.config c) in
  retryLoop message options cfg (Z.to_nat (Config.maxRetries cfg + 1)) 0 NotAnError.

Definition defaultSettings : SystemSettings.t :=
  {| SystemSettings.cacheRetentionHours := 168;
     SystemSettings.maintenanceMode := false;
     SystemSettings.maintenanceMessage := None;
     SystemSettings.forceOfflineClients := false |}.

(** The settings extracted from a status response ([?.] and [??]). *)
Definition settingsOf (status : StatusResponse.t) : SystemSettings.t :=
  let field {A} (f : ReportedSettings.t -> option A) : option A :=
    match StatusResponse.systemSettings status with
    | Some r => f r
    | None => None
    end in
  {| SystemSettings.cacheRetentionHours :=
       match field ReportedSettings.cacheRetentionHours with
       | Some h => h | None => 168 end;
     SystemSettings.maintenanceMode :=
       match field ReportedSettings.maintenanceMode with
       | Some b => b | None => false end;
     SystemSettings.maintenanceMessage := field ReportedSettings.maintenanceMessage;
     SystemSettings.forceOfflineClients :=
       match field ReportedSettings.forceOfflineClients with
       | Some b => b | None => false end |}.

Definition checkSystemStatus : M SystemSettings.t :=
  c <- getClient ;;
  cached <-
    match ClientFields.systemSettings c with
    | Some s =>
        now <- dateNow ;;
        ret (if now - ClientFields.settingsLastChecked c <? SETTINGS_CHECK_INTERVAL
             then Some s else None)
    | None => ret None
    end ;;
  match cached with
  | Some s => ret s
  | None =>
      tryCatch
        (status <- apiGetStatus ;;
         let settings := settingsOf status in
         modifyClient (ClientFields.setSystemSettings (Some settings)) ;;
         now <- dateNow ;;
         modifyClient (ClientFields.setSettingsLastChecked now) ;;
         ret settings)
        (fun _ =>
         c' <- getClient ;;
         ret match ClientFields.systemSettings c' with
             | Some s => s
             | None => defaultSettings
             end)
  end.

Definition isMaintenanceMode : M bool :=
  c <- getClient ;;
  ret match ClientFields.systemSettings c with
      | Some s => SystemSettings.maintenanceMode s
      | None => false
      end.

Definition isCacheValid : M bool :=
  cacheStatus <- Cache.getStatus ;;
  match CacheStatus.lastSyncAt cacheStatus with
  | None => ret false
  | Some d =>
      c <- getClient ;;
      let retentionHours :=
        match ClientFields.systemSettings c with
        | Some s =>
            if SystemSettings.cacheRetentionHours s =? 0 then 168
            else SystemSettings.cacheRetentionHours s
        | None => 168
        end in
      let retentionMs := retentionHours * 60 * 60 * 1000 in
      let lastSyncTime := getTime d in
      now <- dateNow ;;
      ret match lastSyncTime with
          | Some t => now - t <? retentionMs
          | None => false
          end
  end.

Definition noCacheResponse : Response.t :=
  {| Response.reply := "I'm currently offline and don't have any cached information. Please check your connection and try again.";
     Response.confidence := none;
     Response.sources := [];
     Response.offline := true;
     Response.sessionId := None;
     Response.retryAfter := None;
     Response.degradedReason := Some "No cached documents available" |}.

Definition localFailureResponse : Response.t :=
  {| Response.reply := "I'm having trouble processing your request offline. Please try again when you're back online.";
     Response.confidence := none;
     Response.sources := [];
     Response.offline := true;
     Response.sessionId := None;
     Response.retryAfter := None;
     Response.degradedReason := Some "Local RAG processing failed" |}.

(** The confidence chosen from the engine's top score. *)
Definition confidenceOf (topScore : float) : ConfidenceLevel :=
  if PrimFloat.ltb topScore 0.3 then low
  else if PrimFloat.ltb 0.7 topScore then medium
  else medium.

Definition localResponse (result : LocalRAG.LocalRAGResult) (isStale : bool)
  : Response.t :=
  {| Response.reply := LocalRAG.answer result;
     Response.confidence := confidenceOf (LocalRAG.topScore result);
     Response.sources :=
       map (fun s => {| Source.title := LocalRAG.title s;
                        Source.snippet := LocalRAG.snippet s;
                        Source.relevance := LocalRAG.score s |})
           (LocalRAG.sources result);
     Response.offline := true;
     Response.sessionId := None;
     Response.retryAfter := None;
     Response.degradedReason :=
       Some (if isStale then "Using stale cached data"
             else "Processed locally without server") |}.

Definition fallbackAsk (message : string) : M Response.t :=
  setStatus offline ;;
  cacheStatus <- Cache.getStatus ;;
  if (CacheStatus.documentCount cacheStatus =? 0)%nat
  then ret noCacheResponse
  else
    tryCatch
      (docs <- Cache.retrieve ;;
       c <- getClient ;;
       (if negb (LocalRAG.isIndexed (ClientFields.localRAG c))
        then ragIndex docs else ret tt) ;;
       c' <- getClient ;;
       let result := LocalRAG.ask (ClientFields.localRAG c') message in
       ret (localResponse result (CacheStatus.isStale cacheStatus)))
      (fun _ => ret localFailureResponse).

Definition maintenanceResponse (settings : SystemSettings.t) : Response.t :=
  {| Response.reply :=
       JsString.orElse
         (match SystemSettings.maintenanceMessage settings with
          | Some m => m | None => "" end)
         "The service is currently under maintenance. Please try again later.";
     Response.confidence := none;
     Response.sources := [];
     Response.offline := true;
     Response.sessionId := None;
     Response.retryAfter := None;
     Response.degradedReason :=
       Some "Maintenance mode active, no valid cache available" |}.

Definition liveResponse (response : ChatResponse.t) : Response.t :=
  {| Response.reply := ChatResponse.reply response;
     Response.confidence := high;
     Response.sources :=
       match ChatResponse.sources response with Some l => l | None => [] end;
     Response.offline := false;
     Response.sessionId := ChatResponse.sessionId response;
     Response.retryAfter := None;
     Response.degradedReason := None |}.

Definition rateLimitResponse (omegaError : CyberneticError.t) : Response.t :=
  {| Response.reply := "I'm receiving too many requests right now. Please try again in a moment.";
     Response.confidence := none;
     Response.sources := [];
     Response.offline := false;
     Response.sessionId := None;
     Response.retryAfter := CyberneticError.retryAfter omegaError;
     Response.degradedReason := None |}.

(** The [catch] block of [ask], with an [onError] observer that returns
    ([Host.askFailed] is the block with any observer). *)
Definition askFailed (message : string) (options : option AskOptions.t)
           (error : Thrown) : M Response.t :=
  let omegaError := normalizeError error in
  modifyClient (ClientFields.setLastError (Some omegaError)) ;;
  emit (EvError omegaError) ;;
  if ErrorCode_eqb (CyberneticError.code omegaError) RATE_LIMIT
  then ret (rateLimitResponse omegaError)
  else
    c <- getClient ;;
    if Config.enabled (Config.fallback (ClientFields.config c))
       && negb (skipsFallback options)
    then fallbackAsk message
    else ret (createErrorResponse
                "Unable to connect to the chatbot service. Please try again later."
                none (CyberneticError.retryAfter omegaError)).

Definition ask (message : MessageArg) (options : option AskOptions.t)
  : M Response.t :=
  match message with
  | NotAString | Str EmptyString =>
      ret (createErrorResponse "Message is required" none None)
  | Str msg =>
      settings <- checkSystemStatus ;;
      if SystemSettings.maintenanceMode settings
         || SystemSettings.forceOfflineClients settings
      then
        valid <- isCacheValid ;;
        if negb valid
        then ret (maintenanceResponse settings)
        else fallbackAsk msg
      else
        tryCatch
          (response <- apiWithRetry msg options ;;
           setStatus online ;;
           ret (liveResponse response))
          (askFailed msg options)
  end.

(** [apiClient.chatStream] with the callbacks [askStream] passes: the
    text read so far, the last sources and the session identifier are
    accumulated while the events are delivered. *)
Fixpoint streamChunks (chunks : list StreamChunk) (fullText : string)
         (sources : list Source.t) (sessionId : option string)
  : M (string * list Source.t * option string) :=
  match chunks with
  | [] => ret (fullText, sources, sessionId)
  | ChunkText text :: rest =>
      emit (EvToken text) ;;
      streamChunks rest (fullText ++ text) sources sessionId
  | ChunkSources l :: rest =>
      emit (EvSources l) ;;
      streamChunks rest fullText l sessionId
  | ChunkSession id :: rest =>
      streamChunks rest fullText sources (Some id)
  end.

(** [chatStream] with stream callbacks that return
    ([Host.apiChatStream] is the method with any callbacks, where what
    [onComplete] throws reaches the [catch] that calls [onError]). *)
Definition apiChatStream (message : string) (sessionId : option string)
  : M unit :=
  env <- getEnv ;; w <- getWorld ;;
  modifyWorld World.tickStream ;;
  emit (EvChatStream message sessionId) ;;
  match api_chatStream env (World.streamCalls w) message sessionId with
  | StreamRejected e => throw e
  | StreamRead chunks failure =>
      data <- streamChunks chunks "" [] None ;;
      match failure with
      | Some readError =>
          (* options.onError *)
          let omegaError := normalizeError readError in
          emit (EvError omegaError) ;;
          emit (EvStreamError omegaError)
      | None =>
          (* options.onComplete *)
          let '(fullText, sources, sid) := data in
          setStatus online ;;
          emit (EvComplete
                  {| Response.reply := fullText;
                     Response.confidence := high;
                     Response.sources := sources;
                     Response.offline := false;
                     Response.sessionId := sid;
                     Response.retryAfter := None;
                     Response.degradedReason := None |})
      end
  end.

Definition askStream (message : MessageArg) (options : option AskOptions.t)
  : M unit :=
  match message with
  | NotAString | Str EmptyString =>
      emit (EvStreamError
              {| CyberneticError.code := LOCAL_RAG_ERROR;
                 CyberneticError.message := "Message is required";
                 CyberneticError.retryAfter := None;
                 CyberneticError.originalError := None |})
  | Str msg =>
      settings <- checkSystemStatus ;;
      if SystemSettings.maintenanceMode settings
         || SystemSettings.forceOfflineClients settings
      then
        response <- fallbackAsk msg ;;
        emit (EvComplete response)
      else
        tryCatch
          (apiChatStream msg (sessionIdOf options))
          (fun error =>
             let omegaError := normalizeError error in
             modifyClient (ClientFields.setLastError (Some omegaError)) ;;
             emit (EvError omegaError) ;;
             c <- getClient ;;
             if Config.enabled (Config.fallback (ClientFields.config c))
                && negb (skipsFallback options)
             then response <- fallbackAsk msg ;; emit (EvComplete response)
             else emit (EvStreamError omegaError))
  end.

Definition syncCache : M unit :=
  tryCatch
    (lastSync <- Cache.getLastSync ;;
     docs <- apiGetGeneralDocs lastSync ;;
     match docs with
     | None =>
         (* docs.length on undefined or null *)
         throw TypeError
     | Some NotIterable =>
         (* docs.length is not above 0 *)
         setStatus online
     | Some (DocArray l) =>
         (if (0 <? List.length l)%nat
          then Cache.store l ;; ragIndex (DocArray l)
          else ret tt) ;;
         setStatus online
     end)
    (fun _ => ret tt).

Definition clearCache : M unit :=
  Cache.clear ;;
  modifyClient (fun c =>
    ClientFields.setLocalRAG (LocalRAG.reset (ClientFields.localRAG c)) c).

(** [getStatus()]: the connection, the cache status, the last error and
    the settings. *)
Definition getStatus
  : M (ConnectionStatus * CacheStatus.t * option CyberneticError.t
       * option SystemSettings.t) :=
  c <- getClient ;;
  cacheStatus <- Cache.getStatus ;;
  ret (ClientFields.status c, cacheStatus, ClientFields.lastError c,
       ClientFields.systemSettings c).

Definition checkConnection : M bool :=
  tryCatch
    (apiGetStatus ;; setStatus online ;; ret true)
    (fun _ => setStatus offline ;; ret false).

(** The fields of a new client (before the background sync the constructor
    may start). *)
Definition create (config : Config.t) (dbHandle : DbHandle) (w : World.t)
  : ClientFields.t :=
  {| ClientFields.config := config;
     ClientFields.cache :=
       Cache.create (Config.cacheStorage (Config.fallback config))
                    (Config.cacheMaxAge (Config.fallback config)) dbHandle w;
     ClientFields.localRAG := LocalRAG.create;
     ClientFields.status := connecting;
     ClientFields.lastError := None;
     ClientFields.systemSettings := None;
     ClientFields.settingsLastChecked := 0 |}.

End Client.

(* ================================================================== *)
(** * Part II: the vocabulary of the properties *)
(* ================================================================== *)

Local Open Scope js_scope.

(** ** Computations *)

(** [m] returns normally from every state. *)
Definition returns {A : Type} (m : M A) : Prop :=
  forall env s, exists a s', m env s = (Ret a, s').

(** [m] leaves the part [view] of the machine as it was, whether it
    returns or throws. *)
Definition preserves {A X : Type} (view : Machine -> X) (m : M A) : Prop :=
  forall env s, view (snd (m env s)) = view s.

(** ** Views of the machine *)

(** The cache object's fields and the two backing stores. *)
Definition cacheView (s : Machine)
  : CacheFields.t * LocalStorage.t * IndexedDb.t :=
  (ClientFields.cache (client s), World.storage (world s),
   World.database (world s)).

(** What the maintenance branch must not touch: the number of chat calls
    made, the engine and the connection status. *)
Definition liveView (s : Machine) : nat * LocalRAG.t * ConnectionStatus :=
  (World.chatCalls (world s), ClientFields.localRAG (client s),
   ClientFields.status (client s)).

(** The machine after one chat call, and after one sleep. *)
Definition afterChat (message : string) (sid : option string) (s : Machine)
  : Machine :=
  {| client := client s;
     world := World.addEvent (EvChat message sid) (World.tickChat (world s)) |}.

Definition afterSleep (ms : Z) (s : Machine) : Machine :=
  {| client := client s; world := World.addEvent (EvSleep ms) (world s) |}.

(** The machine after the [catch] block of [ask] has recorded the error. *)
Definition afterError (e : Thrown) (s : Machine) : Machine :=
  {| client := ClientFields.setLastError (Some (Client.normalizeError e)) (client s);
     world := World.addEvent (EvError (Client.normalizeError e)) (world s) |}.

(** ** The retry-after hint in the text of an error *)

(** A natural number as it is written in decimal. *)
Definition decimal (n : nat) : string := NilEmpty.string_of_uint (Nat.to_uint n).

Fixpoint allDigits (s : string) : bool :=
  match s with
  | EmptyString => true
  | String c s' => isDigit c && allDigits s'
  end.

Definition startsWithDigit (s : string) : bool :=
  match s with
  | String c _ => isDigit c
  | EmptyString => false
  end.

(** The words 'retry after ' in any letter case. *)
Definition isRetryAfterPhrase (p : string) : bool :=
  (String.length p =? 12)%nat && prefixIgnoreCase "retry after " p.

(** The words start at some place of [before], in any letter case,
    possibly running into [following]. *)
Definition phraseStartsIn (before following : string) : bool :=
  existsb (fun k => prefixIgnoreCase "retry after " (drop k (before ++ following)))
          (seq 0 (String.length before)).

(** The words occur in the text, in any letter case. *)
Definition mentionsRetryAfter (text : string) : bool :=
  includes (smap foldAscii text) "retry after ".

(** ** Requests other than a sync *)

(** The operations of the client other than [syncCache] and
    [clearCache]. *)
Inductive Request : Type :=
| DoAsk (message : MessageArg) (options : option AskOptions.t)
| DoAskStream (message : MessageArg) (options : option AskOptions.t)
| DoGetStatus
| DoCheckConnection
| DoCheckSystemStatus
| DoIsMaintenanceMode
| DoIsCacheValid.

Definition perform (r : Request) : M unit :=
  match r with
  | DoAsk message options => Client.ask message options ;; ret tt
  | DoAskStream message options => Client.askStream message options
  | DoGetStatus => Client.getStatus ;; ret tt
  | DoCheckConnection => Client.checkConnection ;; ret tt
  | DoCheckSystemStatus => Client.checkSystemStatus ;; ret tt
  | DoIsMaintenanceMode => Client.isMaintenanceMode ;; ret tt
  | DoIsCacheValid => Client.isCacheValid ;; ret tt
  end.

(** The requests run one after the other; a request that throws does not
    stop the following ones (each is a call of its own). *)
Fixpoint performAll (rs : list Request) (env : Env) (s : Machine) : Machine :=
  match rs with
  | [] => s
  | r :: rs' => performAll rs' env (snd (perform r env s))
  end.

(** ** Tokenization, as specified and as a scan *)

Module TokenizeSpec.
Import LocalRAG.

(** The pipeline in the words of the specification: lower-case, every
    character that is not alphanumeric becomes white space, split on white
    space, drop the tokens of length at most 2 and the stop words.
    Alphanumeric is read as the ASCII letters and digits, the reading
    closest to the source. *)
Definition tokenize_as_specified (text : string) : list string :=
  filter keepToken
    (JsString.split isSpace
       (smap (fun c => if isAlnum c then c else " "%char) (toLowerCase text))).

(** The tokens read off directly by one scan: the maximal runs of the
    characters that satisfy [word], [cur] being the run under way. *)
Definition flush (cur : string) : list string :=
  if isEmpty cur then [] else [cur].

Fixpoint runsOf (word : ascii -> bool) (s : string) (cur : string)
  : list string :=
  match s with
  | EmptyString => flush cur
  | String c s' =>
      if word c then runsOf word s' (cur ++ String c "")
      else flush cur ++ runsOf word s' ""
  end.

(** The maximal runs of word characters. *)
Definition wordRuns (s : string) (cur : string) : list string :=
  runsOf isWordChar s cur.

Definition notUnderscore (c : ascii) : bool := negb (code c =? 95)%nat.

(** A character of a token: a lower-case ASCII letter, a digit or the
    underscore. *)
Definition isTokenChar (c : ascii) : bool :=
  isLower c || isDigit c || (code c =? 95)%nat.

Fixpoint allChars (p : ascii -> bool) (s : string) : bool :=
  match s with
  | EmptyString => true
  | String c s' => p c && allChars p s'
  end.

End TokenizeSpec.

(** ** Sample environments, clients and corpora *)

Module Samples.
Local Open Scope Z_scope.

(** A [Math.log] known at 1 only, where ECMAScript fixes the result
    ([+0]); it serves corpora in which every term occurs in every
    document, so that no other argument is ever passed. *)
Definition Math_log_at_one (x : float) : float :=
  if PrimFloat.eqb x 1 then 0%float else nan.

Definition chatOk : ChatResponse.t :=
  {| ChatResponse.reply := "Success!";
     ChatResponse.sessionId := Some "session-123";
     ChatResponse.sources := None |}.

(** An environment by its clock, chat and status behaviour; the stream
    endpoint answers as the chat endpoint does, the documents endpoint is
    empty and [setItem] fails as [quota] says. *)
Definition mkEnv (now : nat -> Z)
           (chat : nat -> Outcome ChatResponse.t)
           (status : nat -> Outcome StatusResponse.t)
           (quota : nat -> option Thrown) : Env :=
  {| Date_now := now;
     api_chat := fun n _ _ => chat n;
     api_chatStream := fun n _ _ =>
       match chat n with
       | Ret r => StreamRead [ChunkText (ChatResponse.reply r)] None
       | Throw e => StreamRejected e
       end;
     api_getStatus := status;
     api_getGeneralDocs := fun _ _ => Ret (Some (DocArray []));
     setItem_throws := fun n _ _ => quota n;
     idb_fails := fun _ => None;
     Math_log := Math_log_at_one |}.

Definition clockFrom (t0 : Z) (n : nat) : Z := t0 + Z.of_nat n.

Definition statusPlain : Outcome StatusResponse.t :=
  Ret {| StatusResponse.systemSettings := None |}.

Definition statusMaintenance : Outcome StatusResponse.t :=
  Ret {| StatusResponse.systemSettings :=
           Some {| ReportedSettings.cacheRetentionHours := Some 168;
                   ReportedSettings.maintenanceMode := Some true;
                   ReportedSettings.maintenanceMessage := Some "Back in 2 hours!";
                   ReportedSettings.forceOfflineClients := Some false |} |}.

Definition QuotaExceededError : Thrown := JsError "QuotaExceededError".

(** The configuration of the test suite: local storage, no sync at
    construction. *)
Definition configLocal : Config.t :=
  {| Config.fallback := {| Config.enabled := true; Config.cacheMaxAge := 86400000;
                           Config.cacheOnConnect := false;
                           Config.cacheStorage := localstorage |};
     Config.retry := {| Config.maxRetries := 2; Config.initialDelay := 1000;
                        Config.exponentialBackoff := true |} |}.

(** A new client over the given local storage. *)
Definition newClient (config : Config.t) (storage : LocalStorage.t) : Machine :=
  let w := World.initial storage IndexedDb.empty in
  {| client := Client.create config DbMissing w; world := w |}.

Definition faq : CachedDocument :=
  {| doc_id := "doc-1"; doc_title := "FAQ";
     doc_content := "Return policy allows 30 day returns.";
     doc_updatedAt := "2024-01-01" |}.

(** One document, synced at time 0. *)
Definition storageWithFaq : LocalStorage.t :=
  {| LocalStorage.docs := Some (TextDocs (DocArray [WellFormed faq]));
     LocalStorage.meta := Some (TextMeta 1 (Some (IsoDate 0))) |}.

(** No document, but metadata with a timestamp. *)
Definition storageEmptyButStamped : LocalStorage.t :=
  {| LocalStorage.docs := None;
     LocalStorage.meta := Some (TextMeta 0 (Some (IsoDate 0))) |}.

(** 429 on every chat call. *)
Definition envRateLimited : Env :=
  mkEnv (clockFrom 1000000)
        (fun _ => Throw (JsError "HTTP 429: Rate limit exceeded, retry after 30"))
        (fun _ => statusPlain) (fun _ => None).

(** 429 on every chat call, without a hint. *)
Definition envTooManyRequests : Env :=
  mkEnv (clockFrom 1000000)
        (fun _ => Throw (JsError "HTTP 429: Too Many Requests"))
        (fun _ => statusPlain) (fun _ => None).

(** The chat call fails twice, then succeeds. *)
Definition envFlaky : Env :=
  mkEnv (clockFrom 1000000)
        (fun n => match n with
                  | 0%nat | 1%nat => Throw (JsError "Network error")
                  | _ => Ret chatOk
                  end)
        (fun _ => statusPlain) (fun _ => None).

(** 401 on every chat call. *)
Definition envUnauthorized : Env :=
  mkEnv (clockFrom 1000000)
        (fun _ => Throw (JsError "HTTP 401: Unauthorized"))
        (fun _ => statusPlain) (fun _ => None).

(** Maintenance mode, a bit more than two days after time 0. *)
Definition envMaintenance : Env :=
  mkEnv (clockFrom 200000000) (fun _ => Ret chatOk)
        (fun _ => statusMaintenance) (fun _ => None).

(** Nothing is reachable. *)
Definition envOffline : Env :=
  mkEnv (clockFrom 1000000) (fun _ => Throw (JsError "Network error"))
        (fun _ => Throw (JsError "Network error")) (fun _ => None).

(** [setItem] is rejected on its first call only, and on every call. *)
Definition envQuotaOnce : Env :=
  mkEnv (clockFrom 1000000) (fun _ => Ret chatOk) (fun _ => statusPlain)
        (fun n => match n with 0%nat => Some QuotaExceededError | _ => None end).

Definition envQuotaAlways : Env :=
  mkEnv (clockFrom 1000000) (fun _ => Ret chatOk) (fun _ => statusPlain)
        (fun _ => Some QuotaExceededError).

(** Fifty documents of 2024 followed by one of 2025, the most recent. *)
Definition oldDoc (i : nat) : CachedDocument :=
  {| doc_id := "old-" ++ NilEmpty.string_of_uint (Nat.to_uint i);
     doc_title := "Old"; doc_content := "An old document.";
     doc_updatedAt := "2024-01-01T00:00:00.000Z" |}.

Definition newestDoc : CachedDocument :=
  {| doc_id := "newest"; doc_title := "New"; doc_content := "The newest document.";
     doc_updatedAt := "2025-01-01T00:00:00.000Z" |}.

Definition fiftyOld : list JsDoc := map (fun i => WellFormed (oldDoc i)) (seq 0 50).

Definition fiftyOneDocs : list JsDoc := fiftyOld ++ [WellFormed newestDoc].

Definition hundredDocs : list JsDoc :=
  map (fun i => WellFormed (oldDoc i)) (seq 0 100).

Definition isNewest (d : JsDoc) : bool :=
  match d with
  | WellFormed doc => String.eqb (doc_id doc) "newest"
  | Malformed _ => false
  end.

(** Two small corpora for the ranking. *)
Definition catDoc : CachedDocument :=
  {| doc_id := "cat"; doc_title := "Cat";
     doc_content := "The cat sat on the mat."; doc_updatedAt := "2024-01-01" |}.

Definition docA : CachedDocument :=
  {| doc_id := "A"; doc_title := "A";
     doc_content := "Apple! banana banana"; doc_updatedAt := "2024-01-01" |}.

Definition docB : CachedDocument :=
  {| doc_id := "B"; doc_title := "B";
     doc_content := "apple banana"; doc_updatedAt := "2024-01-01" |}.

(** A client that has answered one question from its cache. *)
Definition afterOfflineAnswer : Machine :=
  snd (Client.ask (Str "What is the return policy?") None envOffline
                  (newClient configLocal storageWithFaq)).

End Samples.

(* ================================================================== *)
(** * The embedding, continued: the transport, the configuration file, the agent *)
(* ================================================================== *)

(** ** ApiClient.ts: errors and the reading of a stream *)

Module ApiClient.

(** A status code as a template literal renders it. *)
Definition statusCode (status : nat) : string :=
  NilEmpty.string_of_uint (Nat.to_uint status).

(** The body of a response that is not ok, as the rejection reads it:
    [const error = await response.json().catch(() => ({}))], then
    [error.message || ...].  The body is the JSON value [null], on which
    the read of [message] throws; or a value with a truthy [message],
    [text] being that message as [new Error] turns it into a string
    (the empty string for an empty array); or anything else: a body
    that is no JSON, a number, a string, a boolean, or an object or array
    without truthy [message]. *)
Inductive ErrorBody : Type :=
| NullBody
| TruthyMessage (text : string)
| NoMessage.

(** The rejection of [chat] on a response that is not ok: the message of
    the body when it has a truthy one, the status line otherwise; the
    [TypeError] of the read of [message] on [null]. *)
Definition chatError (status : nat) (statusText : string) (body : ErrorBody)
  : Thrown :=
  match body with
  | NullBody => TypeError
  | TruthyMessage text => JsError text
  | NoMessage => JsError ("HTTP " ++ statusCode status ++ ": " ++ statusText)
  end.

(** The same for [chatStream], whose status line has no status text. *)
Definition streamError (status : nat) (body : ErrorBody) : Thrown :=
  match body with
  | NullBody => TypeError
  | TruthyMessage text => JsError text
  | NoMessage => JsError ("HTTP " ++ statusCode status)
  end.

(** [s.split(sep)] for a separator of one character: the pieces between
    the separators, [cur] being the piece under way. *)
Fixpoint splitOn (sep : ascii) (s : string) (cur : string) : list string :=
  match s with
  | EmptyString => [cur]
  | String c s' =>
      if Ascii.eqb c sep then cur :: splitOn sep s' ""
      else splitOn sep s' (cur ++ String c "")
  end.

Definition lineFeed : ascii := ascii_of_nat 10.

Definition lines (buffer : string) : list string := splitOn lineFeed buffer "".

(** The payload of a data line as the loop reads it: the three fields,
    each of which may be undefined. *)
Record StreamData : Type := {
  text : option string;
  sources : option (list Source.t);
  sessionId : option string
}.

Section Reading.
(** [JSON.parse] on the payload of a data line; [None] when it throws, or
    yields a value whose fields cannot be read. *)
Variable JSON_parse : string -> option StreamData.

(** One line of the stream: the event it gives rise to, if any. *)
Definition handleLine (line : string) : option StreamChunk :=
  if String.prefix "event: " line then None
  else if String.prefix "data: " line then
    match JSON_parse (JsString.drop 6 line) with
    | Some data =>
        match text data with
        | Some t => Some (ChunkText t)
        | None =>
            match sources data with
            | Some l => Some (ChunkSources l)
            | None =>
                match sessionId data with
                | Some id => Some (ChunkSession id)
                | None => None
                end
            end
        end
    | None => None
    end
  else None.

Definition handleLines (ls : list string) : list StreamChunk :=
  flat_map (fun line => match handleLine line with
                        | Some chunk => [chunk]
                        | None => []
                        end) ls.

(** The [while] loop of [chatStream] over the decoded values the reader
    yields: each value is appended to the buffer, the complete lines are
    handled and the rest is kept for the next round. *)
Fixpoint readLoop (reads : list string) (buffer : string) : list StreamChunk :=
  match reads with
  | [] => []
  | value :: rest =>
      let ls := lines (buffer ++ value) in
      handleLines (removelast ls) ++ readLoop rest (last ls "")
  end.

(** The body of a response to the stream request. *)
Inductive Body : Type :=
| NoReader
| Reader (reads : list string) (failure : option Thrown).

Record StreamResponse : Type := {
  ok : bool;
  status : nat;
  errorBody : ErrorBody;
  body : Body
}.

(** [chatStream] by what [fetch] gives. *)
Definition chatStream (fetched : Outcome StreamResponse) : StreamRun :=
  match fetched with
  | Throw e => StreamRejected e
  | Ret response =>
      if negb (ok response)
      then StreamRejected (streamError (status response) (errorBody response))
      else
        match body response with
        | NoReader => StreamRejected (JsError "Streaming not supported")
        | Reader reads failure => StreamRead (readLoop reads "") failure
        end
  end.

End Reading.

End ApiClient.

(** ** config.ts *)

Module ConfigFile.

(** A value where a configuration is expected: not an object (or a falsy
    value), or an object with whatever it has as [apiUrl] and [apiKey]. *)
Inductive Field : Type :=
| FString (s : string)
| FOther.

Inductive Value : Type :=
| NotAnObject
| Object (apiUrl apiKey : Field).

Definition isNonEmptyString (f : Field) : bool :=
  match f with
  | FString s => negb (isEmpty s)
  | FOther => false
  end.

(** A text between double quotes. *)
Definition quoted (s : string) : string :=
  String (ascii_of_nat 34) s ++ String (ascii_of_nat 34) "".

Definition validateConfig (config : Value) : Outcome bool :=
  match config with
  | NotAnObject => Throw (JsError "Config must be an object")
  | Object apiUrl apiKey =>
      if negb (isNonEmptyString apiUrl)
      then Throw (JsError "apiUrl is required and must be a string")
      else
        match apiKey with
        | FString key =>
            if isEmpty key
            then Throw (JsError "apiKey is required and must be a string")
            else if negb (String.prefix "am_" key)
            then Throw (JsError ("apiKey must start with " ++ quoted "am_"))
            else Ret true
        | FOther => Throw (JsError "apiKey is required and must be a string")
        end
  end.

(** Where [loadConfig] looks: no [window]; or the global
    [astermindConfig] (when truthy) and the script tag with the key
    attribute, with its two attributes. *)
Inductive Page : Type :=
| NoWindow
| Window (astermindConfig : option Value)
         (script : option (option string * option string)).

Definition attributeOr (attribute : option string) (d : string) : string :=
  match attribute with
  | Some v => JsString.orElse v d
  | None => d
  end.

Definition loadConfig (page : Page) : Outcome (option Value) :=
  match page with
  | NoWindow => Ret None
  | Window (Some config) _ =>
      match validateConfig config with
      | Throw e => Throw e
      | Ret _ => Ret (Some config)
      end
  | Window None (Some (url, key)) =>
      Ret (Some (Object (FString (attributeOr url "https://api.astermind.ai"))
                        (FString (attributeOr key ""))))
  | Window None None => Ret None
  end.

End ConfigFile.

(** ** agentic/CyberneticAgent.ts: the gate of [executeAction] *)

Module Agent.
Local Open Scope Z_scope.

(** The entries of [allowedActions]. *)
Inductive Allowed : Type :=
| allowClick | allowFill | allowScroll | allowNavigate | allowSelect.

Definition Allowed_eqb (a b : Allowed) : bool :=
  match a, b with
  | allowClick, allowClick | allowFill, allowFill | allowScroll, allowScroll
  | allowNavigate, allowNavigate | allowSelect, allowSelect => true
  | _, _ => false
  end.

(** An action; [type] is the text found at run time, one of the seven
    names of [ActionType] or any other. *)
Record AgentAction : Type := {
  id : string;
  type : string;
  target : string;
  confidence : float
}.

Record ActionResult : Type := {
  success : bool;
  message : string;
  error : option string
}.

Record IntentClassification : Type := {
  action : option AgentAction;
  shouldEscalate : bool
}.

(** The part of [AgenticConfig] that the client, the classifier and the
    gate read. *)
Record Config : Type := {
  enabled : bool;
  confidenceThreshold : option float;
  confirmActions : option bool;
  requireConfirmation : option bool;
  allowedActions : option (list Allowed);
  maxActionsPerTurn : option Z
}.

(** [this.config.confidenceThreshold ?? 0.8]. *)
Definition threshold (cfg : Config) : float :=
  match confidenceThreshold cfg with Some x => x | None => 0.8%float end.

(** What the patterns of the classifier, the site map, the forms and the
    page propose for a message: the type, the target and the confidence
    of an action. *)
Record Proposal : Type := {
  proposedType : string;
  proposedTarget : string;
  proposedConfidence : float
}.

(** [actionTypeMap]: the permission an action type falls under. *)
Definition actionTypeMap (t : string) : option Allowed :=
  if String.eqb t "navigate" then Some allowNavigate
  else if String.eqb t "fillForm" then Some allowFill
  else if String.eqb t "clickElement" then Some allowClick
  else if String.eqb t "scroll" then Some allowScroll
  else if String.eqb t "highlight" then Some allowClick
  else if String.eqb t "triggerModal" then Some allowClick
  else if String.eqb t "custom" then Some allowClick
  else None.

Definition isActionAllowed (cfg : Config) (a : AgentAction) : bool :=
  match allowedActions cfg with
  | None => true
  | Some allowed =>
      match actionTypeMap (type a) with
      | Some mapped => existsb (Allowed_eqb mapped) allowed
      | None => false
      end
  end.

(** The counter of the agent object. *)
Record State : Type := {
  actionCount : Z;
  lastActionReset : Z
}.

(** A new agent, made at time [now]. *)
Definition create (now : Z) : State :=
  {| actionCount := 0; lastActionReset := now |}.

Definition maxActions (cfg : Config) : Z :=
  match maxActionsPerTurn cfg with Some n => n | None => 5 end.

Definition number (n : Z) : string := NilZero.string_of_int (Z.to_int n).

Definition rateLimited (cfg : Config) : ActionResult :=
  {| success := false;
     message := "Rate limit exceeded. Maximum " ++ number (maxActions cfg)
                ++ " actions per minute.";
     error := None |}.

Definition notAllowed (a : AgentAction) : ActionResult :=
  {| success := false;
     message := "Action type " ++ ConfigFile.quoted (type a)
                ++ " is not allowed";
     error := None |}.

Definition unknownType (a : AgentAction) : ActionResult :=
  {| success := false;
     message := "Unknown action type: " ++ type a;
     error := None |}.

Section Gate.
(** What the page does with an action of a known type: the seven action
    implementations ([navigate], [fillForm], ...), which work on the
    document. *)
Variable perform : AgentAction -> Outcome ActionResult.

(** The [switch] on the action type. *)
Definition dispatch (a : AgentAction) : Outcome ActionResult :=
  if existsb (String.eqb (type a))
       ["navigate"; "fillForm"; "clickElement"; "triggerModal"; "scroll";
        "highlight"; "custom"]
  then perform a
  else Ret (unknownType a).

(** [executeAction] at time [now]. *)
Definition executeAction (cfg : Config) (now : Z) (a : AgentAction)
           (st : State) : Outcome ActionResult * State :=
  let st1 :=
    if 60000 <? now - lastActionReset st
    then {| actionCount := 0; lastActionReset := now |}
    else st in
  if maxActions cfg <=? actionCount st1
  then (Ret (rateLimited cfg), st1)
  else if negb (isActionAllowed cfg a)
  then (Ret (notAllowed a), st1)
  else
    (dispatch a,
     {| actionCount := actionCount st1 + 1;
        lastActionReset := lastActionReset st1 |}).

(** Calls of [executeAction] on one agent, each with its time. *)
Fixpoint executeAll (cfg : Config) (calls : list (Z * AgentAction)) (st : State)
  : list (Outcome ActionResult) * State :=
  match calls with
  | [] => ([], st)
  | (now, a) :: rest =>
      let '(o, st1) := executeAction cfg now a st in
      let '(os, st2) := executeAll cfg rest st1 in
      (o :: os, st2)
  end.

End Gate.

End Agent.

(** ** CyberneticClient.ts: the agentic methods *)

Module Agentic.

(** What the client holds of the agentic part and what the registered
    agent meets during a call: whether capabilities are registered, the
    [agentic] configuration (taken to be well typed, so that making an
    agent from it does not throw), what the classifier finds for a
    message text ([propose]: the match of the patterns against the
    configuration and the page, [None] when nothing matches) and the
    action implementations. *)
Record t : Type := {
  registered : bool;
  config : option Agent.Config;
  propose : string -> Outcome (option Agent.Proposal);
  perform : Agent.AgentAction -> Outcome Agent.ActionResult
}.

Definition escalate : Agent.IntentClassification :=
  {| Agent.action := None; Agent.shouldEscalate := true |}.

(** [agent.interpretIntent(message)], that is, [classifier.classify]: a
    classifier that is not enabled escalates; otherwise the message is
    trimmed, which throws a [TypeError] on a value that is not a string;
    every result with an action reads the clock for the identifier of
    the action and escalates when the confidence is below the threshold;
    without a match the classifier escalates. *)
Definition interpretIntent (a : t) (cfg : Agent.Config) (message : MessageArg)
  : M Agent.IntentClassification :=
  if negb (Agent.enabled cfg) then ret escalate
  else
    match message with
    | NotAString => throw TypeError
    | Str text =>
        proposal <- Client.liftOutcome (propose a text) ;;
        match proposal with
        | None => ret escalate
        | Some p =>
            now <- dateNow ;;
            ret {| Agent.action :=
                     Some {| Agent.id := "action-" ++ Agent.number now;
                             Agent.type := Agent.proposedType p;
                             Agent.target := Agent.proposedTarget p;
                             Agent.confidence := Agent.proposedConfidence p |};
                   Agent.shouldEscalate :=
                     PrimFloat.ltb (Agent.proposedConfidence p) (Agent.threshold cfg) |}
        end
    end.

Definition isAgenticEnabled (a : t) : bool :=
  registered a
  && match config a with
     | Some cfg => Agent.enabled cfg
     | None => false
     end.

(** The result of [smartAsk]. *)
Record SmartAnswer : Type := {
  response : option Response.t;
  action : option Agent.AgentAction;
  actionResult : option Agent.ActionResult
}.

Definition classifyIntent (a : t) (message : MessageArg)
  : M (option Agent.IntentClassification) :=
  if negb (isAgenticEnabled a) then ret None
  else
    match config a with
    | Some cfg =>
        (* new AgentClass(agentConfig): the field initialiser reads the clock *)
        dateNow ;;
        c <- interpretIntent a cfg message ;;
        ret (Some c)
    | None => ret None
    end.

Definition notEnabled : Agent.ActionResult :=
  {| Agent.success := false;
     Agent.message := "Agentic capabilities not enabled";
     Agent.error := None |}.

(** [executeAction]: a new agent is made for the call. *)
Definition executeAction (a : t) (action : Agent.AgentAction)
  : M Agent.ActionResult :=
  match config a with
  | Some cfg =>
      if negb (isAgenticEnabled a) then ret notEnabled
      else
        created <- dateNow ;;
        now <- dateNow ;;
        Client.liftOutcome
          (fst (Agent.executeAction (perform a) cfg now action (Agent.create created)))
  | None => ret notEnabled
  end.

Definition smartAsk (a : t) (message : MessageArg) (options : option AskOptions.t)
  : M SmartAnswer :=
  classification <- classifyIntent a message ;;
  let confirmed :=
    match classification with
    | Some c =>
        match Agent.action c with
        | Some act => if negb (Agent.shouldEscalate c) then Some act else None
        | None => None
        end
    | None => None
    end in
  match confirmed with
  | Some act =>
      let required :=
        match config a with
        | Some cfg =>
            match Agent.requireConfirmation cfg with
            | Some false => false
            | _ => true
            end
        | None => true
        end in
      if required
      then ret {| response := None; action := Some act; actionResult := None |}
      else
        result <- executeAction a act ;;
        ret {| response := None; action := Some act; actionResult := Some result |}
  | None =>
      r <- Client.ask message options ;;
      ret {| response := Some r; action := None; actionResult := None |}
  end.

End Agentic.

(** ** CyberneticClient.ts with a host whose callbacks may throw

    The observers of the configuration ([onStatusChange], [onError]) and
    the callbacks of a stream are functions of the host page.  [Client]
    records what is handed to them and takes them to return.  Here they
    may throw: [callbacks history e] is what the callback does when it is
    handed [e] after the events [history], [Some x] when it throws [x].  A
    callback that is absent never throws (the constructor puts a function
    that does nothing in the place of an absent observer, and the stream
    callbacks are called with [?.]).  The methods that reach a callback
    are embedded again, callback by callback; the others are those of
    [Client]. *)

Module Host.

Definition Callbacks : Type := list Event -> Event -> option Thrown.

Section Hosted.
Variable callbacks : Callbacks.

(** The call of a callback: it is called, and may throw. *)
Definition notify (e : Event) : M unit :=
  w <- getWorld ;;
  emit e ;;
  match callbacks (World.events w) e with
  | Some x => throw x
  | None => ret tt
  end.

Definition setStatus (s : ConnectionStatus) : M unit :=
  c <- getClient ;;
  if negb (ConnectionStatus_eqb (ClientFields.status c) s)
  then modifyClient (ClientFields.setStatusField s) ;; notify (EvStatusChange s)
  else ret tt.

Definition fallbackAsk (message : string) : M Response.t :=
  setStatus offline ;;
  cacheStatus <- Cache.getStatus ;;
  if (CacheStatus.documentCount cacheStatus =? 0)%nat
  then ret Client.noCacheResponse
  else
    tryCatch
      (docs <- Cache.retrieve ;;
       c <- getClient ;;
       (if negb (LocalRAG.isIndexed (ClientFields.localRAG c))
        then Client.ragIndex docs else ret tt) ;;
       c' <- getClient ;;
       let result := LocalRAG.ask (ClientFields.localRAG c') message in
       ret (Client.localResponse result (CacheStatus.isStale cacheStatus)))
      (fun _ => ret Client.localFailureResponse).

(** The [catch] block of [ask]. *)
Definition askFailed (message : string) (options : option AskOptions.t)
           (error : Thrown) : M Response.t :=
  let omegaError := Client.normalizeError error in
  modifyClient (ClientFields.setLastError (Some omegaError)) ;;
  notify (EvError omegaError) ;;
  if ErrorCode_eqb (CyberneticError.code omegaError) RATE_LIMIT
  then ret (Client.rateLimitResponse omegaError)
  else
    c <- getClient ;;
    if Config.enabled (Config.fallback (ClientFields.config c))
       && negb (Client.skipsFallback options)
    then fallbackAsk message
    else ret (Client.createErrorResponse
                "Unable to connect to the chatbot service. Please try again later."
                none (CyberneticError.retryAfter omegaError)).

Definition ask (message : MessageArg) (options : option AskOptions.t)
  : M Response.t :=
  match message with
  | NotAString | Str EmptyString =>
      ret (Client.createErrorResponse "Message is required" none None)
  | Str msg =>
      settings <- Client.checkSystemStatus ;;
      if SystemSettings.maintenanceMode settings
         || SystemSettings.forceOfflineClients settings
      then
        valid <- Client.isCacheValid ;;
        if negb valid
        then ret (Client.maintenanceResponse settings)
        else fallbackAsk msg
      else
        tryCatch
          (response <- Client.apiWithRetry msg options ;;
           setStatus online ;;
           ret (Client.liveResponse response))
          (askFailed msg options)
  end.

(** The read loop of [chatStream] with the callbacks [askStream] passes.
    [onToken] and [onSources] are called inside the [try] that guards
    [JSON.parse]: what they throw is dropped with the line, after the text
    or the sources have been taken. *)
Fixpoint streamChunks (chunks : list StreamChunk) (fullText : string)
         (sources : list Source.t) (sessionId : option string)
  : M (string * list Source.t * option string) :=
  match chunks with
  | [] => ret (fullText, sources, sessionId)
  | ChunkText text :: rest =>
      tryCatch (notify (EvToken text)) (fun _ => ret tt) ;;
      streamChunks rest (fullText ++ text) sources sessionId
  | ChunkSources l :: rest =>
      tryCatch (notify (EvSources l)) (fun _ => ret tt) ;;
      streamChunks rest fullText l sessionId
  | ChunkSession id :: rest =>
      streamChunks rest fullText sources (Some id)
  end.

(** [chatStream]: the reads and [options.onComplete] are inside one [try],
    whose [catch] calls [options.onError]; what that one throws leaves
    [chatStream]. *)
Definition apiChatStream (message : string) (sessionId : option string)
  : M unit :=
  env <- getEnv ;; w <- getWorld ;;
  modifyWorld World.tickStream ;;
  emit (EvChatStream message sessionId) ;;
  match api_chatStream env (World.streamCalls w) message sessionId with
  | StreamRejected e => throw e
  | StreamRead chunks failure =>
      data <- streamChunks chunks "" [] None ;;
      tryCatch
        match failure with
        | Some readError => throw readError
        | None =>
            (* options.onComplete *)
            let '(fullText, sources, sid) := data in
            setStatus online ;;
            notify (EvComplete
                      {| Response.reply := fullText;
                         Response.confidence := high;
                         Response.sources := sources;
                         Response.offline := false;
                         Response.sessionId := sid;
                         Response.retryAfter := None;
                         Response.degradedReason := None |})
        end
        (fun error =>
           (* options.onError *)
           let omegaError := Client.normalizeError error in
           notify (EvError omegaError) ;;
           notify (EvStreamError omegaError))
  end.

Definition askStream (message : MessageArg) (options : option AskOptions.t)
  : M unit :=
  match message with
  | NotAString | Str EmptyString =>
      notify (EvStreamError
                {| CyberneticError.code := LOCAL_RAG_ERROR;
                   CyberneticError.message := "Message is required";
                   CyberneticError.retryAfter := None;
                   CyberneticError.originalError := None |})
  | Str msg =>
      settings <- Client.checkSystemStatus ;;
      if SystemSettings.maintenanceMode settings
         || SystemSettings.forceOfflineClients settings
      then
        response <- fallbackAsk msg ;;
        notify (EvComplete response)
      else
        tryCatch
          (apiChatStream msg (Client.sessionIdOf options))
          (fun error =>
             let omegaError := Client.normalizeError error in
             modifyClient (ClientFields.setLastError (Some omegaError)) ;;
             notify (EvError omegaError) ;;
             c <- getClient ;;
             if Config.enabled (Config.fallback (ClientFields.config c))
                && negb (Client.skipsFallback options)
             then response <- fallbackAsk msg ;; notify (EvComplete response)
             else notify (EvStreamError omegaError))
  end.

Definition syncCache : M unit :=
  tryCatch
    (lastSync <- Cache.getLastSync ;;
     docs <- Client.apiGetGeneralDocs lastSync ;;
     match docs with
     | None => throw TypeError
     | Some NotIterable => setStatus online
     | Some (DocArray l) =>
         (if (0 <? List.length l)%nat
          then Cache.store l ;; Client.ragIndex (DocArray l)
          else ret tt) ;;
         setStatus online
     end)
    (fun _ => ret tt).

End Hosted.

End Host.

(* ================================================================== *)
(** * The vocabulary of the further properties *)
(* ================================================================== *)

(** ** The trace of a retry loop that runs out *)

(** The delay before the retry that follows attempt [attempt]. *)
Definition retryDelay (cfg : Config.Retry) (attempt : Z) : Z :=
  if Config.exponentialBackoff cfg
  then (Config.initialDelay cfg * 2 ^ attempt)%Z
  else Config.initialDelay cfg.

(** What a loop of [remaining] failing attempts does to the outside,
    starting with attempt number [attempt]: a chat call each time, and a
    sleep after each attempt but the last one allowed. *)
Fixpoint failingAttempts (message : string) (sid : option string)
         (cfg : Config.Retry) (remaining : nat) (attempt : Z) : list Event :=
  match remaining with
  | O => []
  | S remaining' =>
      EvChat message sid
        :: (if (attempt <? Config.maxRetries cfg)%Z
            then [EvSleep (retryDelay cfg attempt)] else [])
        ++ failingAttempts message sid cfg remaining' (attempt + 1)
  end.

Definition countChats (events : list Event) : nat :=
  List.length (filter (fun e => match e with EvChat _ _ => true | _ => false end) events).

Definition sleepsOf (events : list Event) : list Z :=
  flat_map (fun e => match e with EvSleep ms => [ms] | _ => [] end) events.

(** ** The settings check *)

(** The world after the status request of a settings check: the clock has
    been read when there were settings to judge, and the request is on the
    trace. *)
Definition afterStatusRequest (s : Machine) : World.t :=
  World.addEvent EvGetStatus
    (World.tickStatus
       (match ClientFields.systemSettings (client s) with
        | Some _ => World.tickClock (world s)
        | None => world s
        end)).


(** ** Further views of the machine *)

(** The calls made to the transport so far, per endpoint. *)
Definition networkView (s : Machine) : nat * nat * nat * nat :=
  (World.chatCalls (world s), World.streamCalls (world s),
   World.statusCalls (world s), World.docsCalls (world s)).

(** The errors handed to the error observer so far. *)
Definition errorsNotified (events : list Event) : list CyberneticError.t :=
  flat_map (fun e => match e with EvError x => [x] | _ => [] end) events.

(** The last error as the client holds it and as the observer saw it. *)
Definition errorView (s : Machine)
  : option CyberneticError.t * list CyberneticError.t :=
  (ClientFields.lastError (client s), errorsNotified (World.events (world s))).

(** The statuses handed to the status observer so far. *)
Definition statusTrail (events : list Event) : list ConnectionStatus :=
  flat_map (fun e => match e with EvStatusChange x => [x] | _ => [] end) events.

Definition statusView (s : Machine) : ConnectionStatus * list ConnectionStatus :=
  (ClientFields.status (client s), statusTrail (World.events (world s))).

Definition engineView (s : Machine) : LocalRAG.t := ClientFields.localRAG (client s).

(** The settings the client holds and when it fetched them. *)
Definition settingsView (s : Machine) : option SystemSettings.t * Z :=
  (ClientFields.systemSettings (client s),
   ClientFields.settingsLastChecked (client s)).

(** ** Every operation of the client *)

(** The requests, [syncCache] (also run by the browser's 'online' event),
    [clearCache], and the handler of the browser's 'offline' event, which
    sets the status. *)
Inductive Operation : Type :=
| OpRequest (r : Request)
| OpSyncCache
| OpClearCache
| OpWentOffline.

Definition operate (o : Operation) : M unit :=
  match o with
  | OpRequest r => perform r
  | OpSyncCache => Client.syncCache
  | OpClearCache => Client.clearCache
  | OpWentOffline => Client.setStatus offline
  end.

(** The operations run one after the other, each a call of its own. *)
Fixpoint operateAll (os : list Operation) (env : Env) (s : Machine) : Machine :=
  match os with
  | [] => s
  | o :: os' => operateAll os' env (snd (operate o env s))
  end.

(** [m] keeps the invariant [I], whether it returns or throws. *)
Definition maintains {A : Type} (I : Machine -> Prop) (m : M A) : Prop :=
  forall env s, I s -> I (snd (m env s)).

(** No status is notified twice in a row, [prev] being the status before
    the first notification. *)
Fixpoint noRepeat (prev : ConnectionStatus) (trail : list ConnectionStatus)
  : bool :=
  match trail with
  | [] => true
  | x :: trail' => negb (ConnectionStatus_eqb prev x) && noRepeat x trail'
  end.

(** The status observer is in step with the client that started in status
    [init]: the last status it was told is the current one, and it was
    never told the status it knew already. *)
Definition statusInStep (init : ConnectionStatus) (s : Machine) : Prop :=
  last (statusTrail (World.events (world s))) init = ClientFields.status (client s)
  /\ noRepeat init (statusTrail (World.events (world s))) = true.

(** ** The local search of the fallback path *)

(** The machine on which [fallbackAsk] starts its local search: the
    status is offline and the status of the cache has been read. *)
Definition searchStart (env : Env) (s : Machine) : Machine :=
  snd (Cache.getStatus env (snd (Client.setStatus offline env s))).

(** The local search fails: the retrieval throws, or the engine is not
    indexed and indexing what was retrieved throws. *)
Definition localSearchFails (env : Env) (s : Machine) : bool :=
  match Cache.retrieve env (searchStart env s) with
  | (Throw _, _) => true
  | (Ret docs, s') =>
      negb (LocalRAG.isIndexed (ClientFields.localRAG (client s')))
      && match Client.ragIndex docs env s' with
         | (Throw _, _) => true
         | (Ret _, _) => false
         end
  end.

(** ** Hosts *)

(** A host whose callbacks all return. *)
Definition quiet (callbacks : Host.Callbacks) : Prop :=
  forall history e, callbacks history e = None.

(** ** The sync *)

(** The machine once [syncCache] has asked for the documents changed since
    the last sync the cache knows of. *)
Definition afterDocsRequest (s : Machine) : Machine :=
  {| client := client s;
     world :=
       World.addEvent
         (EvGetGeneralDocs (CacheFields.lastSyncAt (ClientFields.cache (client s))))
         (World.tickDocs (world s)) |}.

(** The answer of the documents endpoint to that request. *)
Definition docsAnswer (env : Env) (s : Machine) : Outcome (option JsDocs) :=
  api_getGeneralDocs env (World.docsCalls (world s))
    (CacheFields.lastSyncAt (ClientFields.cache (client s))).

(** ** The IndexedDB cache *)

(** The object store after the [put] of each document in turn. *)
Definition putDocuments (stored : list (string * JsDoc)) (docs : list CachedDocument)
  : list (string * JsDoc) :=
  fold_left (fun acc d => IndexedDb.put acc (doc_id d) (WellFormed d)) docs stored.

(** All of the machine but the database and the count of its requests. *)
Definition besideDatabase (s : Machine)
  : ClientFields.t * (nat * nat * nat * nat * nat * nat)
    * LocalStorage.t * list Event :=
  (client s,
   (World.clockReads (world s), World.chatCalls (world s),
    World.streamCalls (world s), World.statusCalls (world s),
    World.docsCalls (world s), World.setItemCalls (world s)),
   World.storage (world s), World.events (world s)).

(** ** The two fixed results of the engine *)

Definition noInformation : LocalRAG.LocalRAGResult :=
  {| LocalRAG.answer := "I don't have any information available offline.";
     LocalRAG.sources := [];
     LocalRAG.topScore := 0%float |}.

Definition nothingRelevant : LocalRAG.LocalRAGResult :=
  {| LocalRAG.answer := "I couldn't find relevant information for your question in my offline data.";
     LocalRAG.sources := [];
     LocalRAG.topScore := 0%float |}.

(** ** The end of a stream *)

(** The terminal callbacks of the streams so far: [onComplete] and the
    stream's [onError]. *)
Definition terminalsOf (events : list Event) : list Event :=
  filter (fun e => match e with
                   | EvComplete _ | EvStreamError _ => true
                   | _ => false
                   end) events.

Definition terminalView (s : Machine) : list Event :=
  terminalsOf (World.events (world s)).

Definition isTerminalShape (terminal : Event) : Prop :=
  (exists response, terminal = EvComplete response)
  \/ exists e, terminal = EvStreamError e.

(** ** Vocabulary for the stream of lines *)

(** Everything the reader has yielded, as one text. *)
Definition received (reads : list string) : string :=
  fold_right String.append "" reads.

Fixpoint noLineFeed (s : string) : bool :=
  match s with
  | EmptyString => true
  | String c s' => negb (Ascii.eqb c ApiClient.lineFeed) && noLineFeed s'
  end.

(** ** Vocabulary for the failures of a stream *)

(** The machine once the stream request has been sent. *)
Definition afterStreamRequest (message : string) (sid : option string)
           (s : Machine) : Machine :=
  {| client := client s;
     world := World.addEvent (EvChatStream message sid)
                (World.tickStream (world s)) |}.

(** What the callbacks of the caller see of the data events: the session
    event is kept for [onComplete]. *)
Definition deliveries (chunks : list StreamChunk) : list Event :=
  flat_map (fun chunk => match chunk with
                         | ChunkText text => [EvToken text]
                         | ChunkSources l => [EvSources l]
                         | ChunkSession _ => []
                         end) chunks.

(** ** Counting what the gate of the agent lets through *)

(** The calls whose action type the allow-list admits. *)
Definition allowedCalls (cfg : Agent.Config) (calls : list (Z * Agent.AgentAction))
  : list (Z * Agent.AgentAction) :=
  filter (fun call => Agent.isActionAllowed cfg (snd call)) calls.

(** Their number. *)
Definition admitted (cfg : Agent.Config) (calls : list (Z * Agent.AgentAction)) : Z :=
  Z.of_nat (List.length (allowedCalls cfg calls)).

(** ** More sample environments and machines *)

Module Scenarios.
Import Samples.
Local Open Scope Z_scope.

(** The documents endpoint answers with [docs]; nothing else is
    reachable; [setItem] fails as [quota] says. *)
Definition envWithDocs (docs : JsDocs) (quota : nat -> option Thrown) : Env :=
  {| Date_now := clockFrom 1000000;
     api_chat := fun _ _ _ => Throw (JsError "Network error");
     api_chatStream := fun _ _ _ => StreamRejected (JsError "Network error");
     api_getStatus := fun _ => Throw (JsError "Network error");
     api_getGeneralDocs := fun _ _ => Ret (Some docs);
     setItem_throws := fun n _ _ => quota n;
     idb_fails := fun _ => None;
     Math_log := Math_log_at_one |}.

(** No retry at all: the loop bound is below zero. *)
Definition configNegativeRetries : Config.t :=
  {| Config.fallback := Config.fallback configLocal;
     Config.retry := {| Config.maxRetries := -1; Config.initialDelay := 1000;
                        Config.exponentialBackoff := true |} |}.

(** A client whose database is open. *)
Definition newClientWithDatabase (config : Config.t) (database : IndexedDb.t)
  : Machine :=
  let w := World.initial LocalStorage.empty database in
  {| client := Client.create config DbOpen w; world := w |}.

Definition databaseWithCat : IndexedDb.t :=
  {| IndexedDb.documents := [("cat", WellFormed catDoc)];
     IndexedDb.metaCount := Some 1%nat;
     IndexedDb.metaLastSync := Some (IsoDate 0) |}.

(** A client that holds settings fetched at time 0. *)
Definition clientWithOldSettings : Machine :=
  let s := newClient configLocal LocalStorage.empty in
  {| client := ClientFields.setSettingsLastChecked 0
                 (ClientFields.setSystemSettings (Some Client.defaultSettings)
                                                 (client s));
     world := world s |}.

(** Metadata whose sync time is no date. *)
Definition storageWithBadDate : LocalStorage.t :=
  {| LocalStorage.docs := Some (TextDocs (DocArray [WellFormed faq]));
     LocalStorage.meta := Some (TextMeta 1 (Some InvalidDate)) |}.

(** An agent host: capabilities registered, enabled, nothing else
    configured; the classifier finds a click in every message, and every
    action succeeds. *)
Definition clickAction : Agent.AgentAction :=
  {| Agent.id := "action-1"; Agent.type := "clickElement";
     Agent.target := "#submit"; Agent.confidence := 0.9%float |}.

Definition done : Agent.ActionResult :=
  {| Agent.success := true; Agent.message := "Done"; Agent.error := None |}.

Definition agentConfig (requireConfirmation : option bool) : Agent.Config :=
  {| Agent.enabled := true;
     Agent.confidenceThreshold := None;
     Agent.confirmActions := Some false;
     Agent.requireConfirmation := requireConfirmation;
     Agent.allowedActions := None;
     Agent.maxActionsPerTurn := None |}.

(** The click pattern, weight 0.9, on a button that the page has. *)
Definition clickProposal : Agent.Proposal :=
  {| Agent.proposedType := "clickElement";
     Agent.proposedTarget := "#submit";
     Agent.proposedConfidence := (0.9 * 0.95)%float |}.

Definition agentHost (requireConfirmation : option bool) : Agentic.t :=
  {| Agentic.registered := true;
     Agentic.config := Some (agentConfig requireConfirmation);
     Agentic.propose := fun _ => Ret (Some clickProposal);
     Agentic.perform := fun _ => Ret done |}.

(** An agent that may only click, and seven calls within seven
    milliseconds of its creation: a click, a navigation, five more
    clicks. *)
Definition clicksOnly : Agent.Config :=
  {| Agent.enabled := true;
     Agent.confidenceThreshold := None;
     Agent.confirmActions := None;
     Agent.requireConfirmation := None;
     Agent.allowedActions := Some [Agent.allowClick];
     Agent.maxActionsPerTurn := None |}.

Definition navigateAction : Agent.AgentAction :=
  {| Agent.id := "action-2"; Agent.type := "navigate";
     Agent.target := "/pricing"; Agent.confidence := 0.9%float |}.

Definition sevenCalls : list (Z * Agent.AgentAction) :=
  [(1, clickAction); (2, navigateAction); (3, clickAction); (4, clickAction);
   (5, clickAction); (6, clickAction); (7, clickAction)].

(** The stream endpoint is [chatStream] over what [fetch] gives, the
    payload of a data line being read as a token; nothing else is
    reachable. *)
Definition payloadAsToken (payload : string) : option ApiClient.StreamData :=
  Some {| ApiClient.text := Some payload; ApiClient.sources := None;
          ApiClient.sessionId := None |}.

Definition envStreaming (fetched : Outcome ApiClient.StreamResponse) : Env :=
  {| Date_now := clockFrom 1000000;
     api_chat := fun _ _ _ => Throw (JsError "Network error");
     api_chatStream := fun _ _ _ => ApiClient.chatStream payloadAsToken fetched;
     api_getStatus := fun _ => Throw (JsError "Network error");
     api_getGeneralDocs := fun _ _ => Throw (JsError "Network error");
     setItem_throws := fun _ _ _ => None;
     idb_fails := fun _ => None;
     Math_log := Math_log_at_one |}.

(** A host whose [onError] observer throws, whose [onStatusChange]
    observer throws, and whose [onComplete] callback throws; the other
    callbacks return. *)
Definition errorObserverThrows : Host.Callbacks :=
  fun _ e => match e with
             | EvError _ => Some (JsError "onError failed")
             | _ => None
             end.

Definition statusObserverThrows : Host.Callbacks :=
  fun _ e => match e with
             | EvStatusChange _ => Some (JsError "onStatusChange failed")
             | _ => None
             end.

Definition completeCallbackThrows : Host.Callbacks :=
  fun _ e => match e with
             | EvComplete _ => Some (JsError "onComplete failed")
             | _ => None
             end.

(** A response with status 429 and no message in its body. *)
Definition tooManyRequests : ApiClient.StreamResponse :=
  {| ApiClient.ok := false; ApiClient.status := 429;
     ApiClient.errorBody := ApiClient.NoMessage; ApiClient.body := ApiClient.NoReader |}.

(** A body that gives one event, then fails. *)
Definition brokenStream : ApiClient.StreamResponse :=
  {| ApiClient.ok := true; ApiClient.status := 200;
     ApiClient.errorBody := ApiClient.NoMessage;
     ApiClient.body :=
       ApiClient.Reader ["data: Hello" ++ String ApiClient.lineFeed ""]%string
                        (Some (JsError "network connection lost")) |}.

End Scenarios.

(* ================================================================== *)
(** * Part III: properties *)
(* ================================================================== *)

(** ** Reasoning about computations *)

Section Combinators.
Context {A B X : Type}.
Variable view : Machine -> X.

Lemma returns_ret (a : A) : returns (ret a).
Proof. intros env s. now exists a, s. Qed.

Lemma returns_bind (m : M A) (k : A -> M B) :
  returns m -> (forall a, returns (k a)) -> returns (bind m k).
Proof.
  intros Hm Hk env s. unfold bind.
  destruct (Hm env s) as (a & s' & ->). apply Hk.
Qed.

Lemma returns_tryCatch (m : M A) (h : Thrown -> M A) :
  (forall e, returns (h e)) -> returns (tryCatch m h).
Proof.
  intros Hh env s. unfold tryCatch.
  destruct (m env s) as [[a | e] s'].
  - now exists a, s'.
  - apply Hh.
Qed.

Lemma preserves_ret (a : A) : preserves view (ret a).
Proof. now intros env s. Qed.

Lemma preserves_throw (e : Thrown) : preserves view (@throw A e).
Proof. now intros env s. Qed.

Lemma preserves_bind (m : M A) (k : A -> M B) :
  preserves view m -> (forall a, preserves view (k a)) ->
  preserves view (bind m k).
Proof.
  intros Hm Hk env s. unfold bind.
  specialize (Hm env s). destruct (m env s) as [[a | e] s']; simpl in *.
  - now rewrite Hk.
  - exact Hm.
Qed.

Lemma preserves_tryCatch (m : M A) (h : Thrown -> M A) :
  preserves view m -> (forall e, preserves view (h e)) ->
  preserves view (tryCatch m h).
Proof.
  intros Hm Hh env s. unfold tryCatch.
  specialize (Hm env s). destruct (m env s) as [[a | e] s']; simpl in *.
  - exact Hm.
  - now rewrite Hh.
Qed.

End Combinators.

(** The primitive steps return. *)
Lemma returns_getEnv : returns getEnv.
Proof. intros env s. now exists env, s. Qed.

Lemma returns_getClient : returns getClient.
Proof. intros env s. now exists (client s), s. Qed.

Lemma returns_getWorld : returns getWorld.
Proof. intros env s. now exists (world s), s. Qed.

Lemma returns_modifyClient f : returns (modifyClient f).
Proof. intros env s. unfold modifyClient. eauto. Qed.

Lemma returns_modifyWorld f : returns (modifyWorld f).
Proof. intros env s. unfold modifyWorld. eauto. Qed.

Lemma returns_dateNow : returns dateNow.
Proof. intros env s. unfold dateNow, bind, getEnv, getWorld, modifyWorld, ret. eauto. Qed.

Lemma returns_emit e : returns (emit e).
Proof. apply returns_modifyWorld. Qed.

Lemma returns_setStatus st : returns (Client.setStatus st).
Proof.
  intros env s. unfold Client.setStatus, bind, getClient.
  destruct (negb _); unfold modifyClient, emit, modifyWorld, ret; eauto.
Qed.

Lemma returns_Cache_getStatus : returns Cache.getStatus.
Proof.
  unfold Cache.getStatus, Cache.fields.
  apply returns_bind; [apply returns_dateNow | intros now].
  apply returns_bind; [| intros c; apply returns_ret].
  apply returns_bind; [apply returns_getClient | intros; apply returns_ret].
Qed.

Create HintDb total discriminated.
#[local] Hint Resolve returns_ret returns_getEnv returns_getClient returns_getWorld
  returns_modifyClient returns_modifyWorld returns_dateNow returns_emit
  returns_setStatus returns_Cache_getStatus : total.

(** Unfolds a composite computation into its steps. *)
Ltac total_step :=
  match goal with
  | |- returns (bind _ _) => apply returns_bind; [| intros ?]
  | |- returns (tryCatch _ _) => apply returns_tryCatch; intros ?
  | |- returns (if ?b then _ else _) => destruct b
  | |- returns (match ?x with _ => _ end) => destruct x
  | |- returns _ => solve [auto with total]
  end.

Lemma returns_checkSystemStatus : returns Client.checkSystemStatus.
Proof. unfold Client.checkSystemStatus. repeat total_step. Qed.

Lemma returns_isCacheValid : returns Client.isCacheValid.
Proof. unfold Client.isCacheValid. repeat total_step. Qed.

Lemma returns_fallbackAsk message : returns (Client.fallbackAsk message).
Proof. unfold Client.fallbackAsk. repeat total_step. Qed.

#[local] Hint Resolve returns_checkSystemStatus returns_isCacheValid
  returns_fallbackAsk : total.

Lemma returns_askFailed message options error :
  returns (Client.askFailed message options error).
Proof. unfold Client.askFailed. repeat total_step. Qed.

#[local] Hint Resolve returns_askFailed : total.

(** With observers that return, [ask] returns an answer for every
    message value (a string or not), every options value, every behaviour
    of the transport, the storage and the clock, and every client
    state. *)
Lemma returns_ask message options : returns (Client.ask message options).
Proof.
  unfold Client.ask.
  destruct message as [msg |]; [destruct msg |]; repeat total_step.
Qed.

(** The streaming variant does not throw either: a failure goes to the
    error callback or into the completion payload of the fallback. *)
Lemma askStream_never_throws message options :
  returns (Client.askStream message options).
Proof.
  unfold Client.askStream.
  destruct message as [msg |]; [destruct msg |]; repeat total_step.
Qed.

(** ** The host's callbacks *)

Lemma terminals_emit (e : Event) env s :
  emit e env s
  = (Ret tt, {| client := client s; world := World.addEvent e (world s) |}).
Proof. reflexivity. Qed.

Lemma notify_returning callbacks e env s :
  callbacks (World.events (world s)) e = None ->
  Host.notify callbacks e env s = emit e env s.
Proof.
  intros H. unfold Host.notify, bind, getWorld, emit, modifyWorld.
  cbn [fst snd world]. now rewrite H.
Qed.

Lemma notify_throwing callbacks e x env s :
  callbacks (World.events (world s)) e = Some x ->
  Host.notify callbacks e env s
  = (Throw x, {| client := client s; world := World.addEvent e (world s) |}).
Proof.
  intros H. unfold Host.notify, bind, getWorld, emit, modifyWorld.
  cbn [fst snd world]. now rewrite H.
Qed.

(** [setStatus] with a host: nothing is called when the status is the
    one asked for; otherwise the status is set before the observer is
    called, and stays set when the observer throws. *)
Lemma host_setStatus_run callbacks st env s :
  Host.setStatus callbacks st env s
  = if ConnectionStatus_eqb (ClientFields.status (client s)) st
    then (Ret tt, s)
    else
      let s' := {| client := ClientFields.setStatusField st (client s);
                   world := World.addEvent (EvStatusChange st) (world s) |} in
      match callbacks (World.events (world s)) (EvStatusChange st) with
      | Some x => (Throw x, s')
      | None => (Ret tt, s')
      end.
Proof.
  unfold Host.setStatus, bind, getClient. cbn [fst snd].
  destruct (ConnectionStatus_eqb _ _); cbn [negb]; [reflexivity |].
  unfold modifyClient. cbn [fst snd].
  destruct (callbacks (World.events (world s)) (EvStatusChange st)) as [x |] eqn:E.
  - rewrite (@notify_throwing callbacks _ x); [reflexivity | exact E].
  - rewrite notify_returning; [reflexivity | exact E].
Qed.

(** When the status observer returns, [setStatus] is the one of
    [Client]. *)
Lemma host_setStatus_returning callbacks st env s :
  ConnectionStatus_eqb (ClientFields.status (client s)) st = true
  \/ callbacks (World.events (world s)) (EvStatusChange st) = None ->
  Host.setStatus callbacks st env s = Client.setStatus st env s.
Proof.
  intros H. rewrite host_setStatus_run.
  unfold Client.setStatus, bind, getClient, modifyClient, emit, modifyWorld, ret.
  cbn [fst snd].
  destruct (ConnectionStatus_eqb _ _); cbn [negb]; [reflexivity |].
  destruct H as [H | H]; [discriminate |]. now rewrite H.
Qed.

Lemma host_fallbackAsk_returning callbacks message env s :
  ConnectionStatus_eqb (ClientFields.status (client s)) offline = true
  \/ callbacks (World.events (world s)) (EvStatusChange offline) = None ->
  Host.fallbackAsk callbacks message env s = Client.fallbackAsk message env s.
Proof.
  intros H. unfold Host.fallbackAsk, Client.fallbackAsk.
  unfold bind at 1. symmetry. unfold bind at 1. symmetry.
  now rewrite host_setStatus_returning.
Qed.

(** When the status observer throws, [fallbackAsk] throws what it threw,
    with the status set and nothing else done. *)
Lemma host_fallbackAsk_throwing callbacks message x env s :
  ConnectionStatus_eqb (ClientFields.status (client s)) offline = false ->
  callbacks (World.events (world s)) (EvStatusChange offline) = Some x ->
  Host.fallbackAsk callbacks message env s
  = (Throw x,
     {| client := ClientFields.setStatusField offline (client s);
        world := World.addEvent (EvStatusChange offline) (world s) |}).
Proof.
  intros Hst Hx. unfold Host.fallbackAsk. unfold bind at 1.
  now rewrite host_setStatus_run, Hst, Hx.
Qed.

Section QuietHost.
Variable callbacks : Host.Callbacks.
Hypothesis Hquiet : quiet callbacks.

Lemma notify_quiet e env s : Host.notify callbacks e env s = emit e env s.
Proof. apply notify_returning, Hquiet. Qed.

Lemma setStatus_quiet st env s :
  Host.setStatus callbacks st env s = Client.setStatus st env s.
Proof. apply host_setStatus_returning. right. apply Hquiet. Qed.

Lemma fallbackAsk_quiet message env s :
  Host.fallbackAsk callbacks message env s = Client.fallbackAsk message env s.
Proof. apply host_fallbackAsk_returning. right. apply Hquiet. Qed.

Lemma askFailed_quiet message options error env s :
  Host.askFailed callbacks message options error env s
  = Client.askFailed message options error env s.
Proof.
  unfold Host.askFailed, Client.askFailed, bind, modifyClient.
  cbn [fst snd]. rewrite notify_quiet.
  destruct (emit _ env _) as [[[] | e] s1]; [| reflexivity].
  destruct (ErrorCode_eqb _ _); [reflexivity |].
  unfold getClient. cbn [fst snd].
  destruct (_ && _); [apply fallbackAsk_quiet | reflexivity].
Qed.

Lemma ask_quiet message options env s :
  Host.ask callbacks message options env s = Client.ask message options env s.
Proof.
  destruct message as [[| c rest] |]; cbn [Host.ask Client.ask]; try reflexivity.
  unfold bind at 1. symmetry. unfold bind at 1. symmetry.
  destruct (Client.checkSystemStatus env s) as [[settings | e] s1]; [| reflexivity].
  destruct (_ || _).
  - unfold bind.
    destruct (Client.isCacheValid env s1) as [[valid | e] s2]; [| reflexivity].
    destruct (negb valid); [reflexivity | apply fallbackAsk_quiet].
  - unfold tryCatch, bind.
    destruct (Client.apiWithRetry _ _ env s1) as [[r | e] s2].
    + rewrite setStatus_quiet.
      destruct (Client.setStatus online env s2) as [[[] | e] s3];
        [reflexivity | apply askFailed_quiet].
    + apply askFailed_quiet.
Qed.

End QuietHost.

(** C1. [ask] can leave by an exception.  When the live call has failed,
    the [catch] block hands the classified error to the [onError] observer
    of the configuration first, outside any guard: what the observer
    throws leaves [ask], with the error recorded as last error and no
    answer returned, whatever the error and the fallback configuration
    are.  (With observers that return, [ask] returns an answer on every
    path: [returns_ask] and [ask_quiet].) *)
Theorem ask_rejects_when_observer_throws :
  forall (callbacks : Host.Callbacks) (msg : string)
         (options : option AskOptions.t) (env : Env) (s s1 s2 : Machine)
         (settings : SystemSettings.t) (e x : Thrown),
    isEmpty msg = false ->
    Client.checkSystemStatus env s = (Ret settings, s1) ->
    SystemSettings.maintenanceMode settings
      || SystemSettings.forceOfflineClients settings = false ->
    Client.apiWithRetry msg options env s1 = (Throw e, s2) ->
    callbacks (World.events (world s2)) (EvError (Client.normalizeError e)) = Some x ->
    Host.ask callbacks (Str msg) options env s = (Throw x, afterError e s2).
Proof.
  intros callbacks msg options env s s1 s2 settings e x Hmsg Hset Hflags Hlive Hx.
  destruct msg as [| c rest]; [discriminate |].
  unfold Host.ask, bind. rewrite Hset, Hflags.
  unfold tryCatch, bind. rewrite Hlive.
  unfold Host.askFailed. unfold bind at 1. unfold modifyClient at 1.
  unfold bind at 1.
  rewrite (@notify_throwing callbacks _ x); [reflexivity | exact Hx].
Qed.

(** With a host whose callbacks return, [ask] returns an answer. *)
Lemma ask_returns_with_quiet_host callbacks message options env s :
  quiet callbacks ->
  exists answer s', Host.ask callbacks message options env s = (Ret answer, s').
Proof.
  intros Hquiet. rewrite (ask_quiet Hquiet). apply returns_ask.
Qed.

(** ** The document cache as the caller can observe it *)

Lemma keeps_getEnv : preserves cacheView getEnv.
Proof. now intros env s. Qed.

Lemma keeps_getClient : preserves cacheView getClient.
Proof. now intros env s. Qed.

Lemma keeps_getWorld : preserves cacheView getWorld.
Proof. now intros env s. Qed.

Lemma keeps_dateNow : preserves cacheView dateNow.
Proof. now intros env s. Qed.

Lemma keeps_emit e : preserves cacheView (emit e).
Proof. now intros env s. Qed.

Lemma keeps_sleep ms : preserves cacheView (sleep ms).
Proof. now intros env s. Qed.

Lemma keeps_setStatus st : preserves cacheView (Client.setStatus st).
Proof.
  intros env s. unfold Client.setStatus, bind, getClient.
  now destruct (negb _).
Qed.

Lemma keeps_setLastError e :
  preserves cacheView (modifyClient (ClientFields.setLastError e)).
Proof. now intros env s. Qed.

Lemma keeps_setSystemSettings x :
  preserves cacheView (modifyClient (ClientFields.setSystemSettings x)).
Proof. now intros env s. Qed.

Lemma keeps_setSettingsLastChecked x :
  preserves cacheView (modifyClient (ClientFields.setSettingsLastChecked x)).
Proof. now intros env s. Qed.

Lemma keeps_liftOutcome {A : Type} (o : Outcome A) : preserves cacheView (Client.liftOutcome o).
Proof. intros env s. now destruct o. Qed.

Lemma keeps_apiChat message sid : preserves cacheView (Client.apiChat message sid).
Proof.
  intros env s. unfold Client.apiChat, bind, getEnv, getWorld, modifyWorld, emit.
  cbn. now destruct (api_chat _ _ _ _).
Qed.

Lemma keeps_apiGetStatus : preserves cacheView Client.apiGetStatus.
Proof.
  intros env s. unfold Client.apiGetStatus, bind, getEnv, getWorld, modifyWorld, emit.
  cbn. now destruct (api_getStatus _ _).
Qed.

Lemma keeps_ragIndex docs : preserves cacheView (Client.ragIndex docs).
Proof.
  intros env s. unfold Client.ragIndex, bind, getEnv, getClient. cbn.
  destruct (LocalRAG.index _ _ _) as [[[] | e] rag]; reflexivity.
Qed.

Lemma keeps_Cache_fields : preserves cacheView Cache.fields.
Proof. now intros env s. Qed.

Lemma keeps_Cache_getStatus : preserves cacheView Cache.getStatus.
Proof. now intros env s. Qed.

Lemma keeps_Cache_getDB : preserves cacheView Cache.getDB.
Proof.
  intros env s. unfold Cache.getDB, Cache.fields, bind, getClient. cbn.
  now destruct (CacheFields.db _).
Qed.

(** Reading the documents back writes nothing: a failed read request
    aborts a transaction that has changed nothing. *)
Lemma keeps_Cache_retrieve : preserves cacheView Cache.retrieve.
Proof.
  intros env s.
  unfold Cache.retrieve, Cache.retrieveLocalStorage, Cache.getDB, Cache.fields,
    idbRequest, bind, getClient, getWorld, getEnv, modifyWorld. cbn.
  destruct (CacheFields.storage _); [| reflexivity].
  destruct (CacheFields.db _); cbn; try reflexivity.
  destruct (idb_fails _ _); cbn; reflexivity.
Qed.

Create HintDb frame discriminated.
#[local] Hint Resolve preserves_ret preserves_throw keeps_getEnv keeps_getClient
  keeps_getWorld keeps_dateNow keeps_emit keeps_sleep keeps_setStatus
  keeps_setLastError keeps_setSystemSettings keeps_setSettingsLastChecked
  keeps_liftOutcome keeps_apiChat keeps_apiGetStatus keeps_ragIndex
  keeps_Cache_fields keeps_Cache_getStatus keeps_Cache_getDB
  keeps_Cache_retrieve : frame.

Ltac frame_step :=
  match goal with
  | |- preserves _ (bind _ _) => apply preserves_bind; [| intros ?]
  | |- preserves _ (tryCatch _ _) => apply preserves_tryCatch; [| intros ?]
  | |- preserves _ (if ?b then _ else _) => destruct b
  | |- preserves _ (match ?x with _ => _ end) => destruct x
  | |- preserves _ _ => solve [auto with frame]
  end.

Lemma keeps_retryLoop message options cfg remaining :
  forall attempt lastError,
    preserves cacheView
      (Client.retryLoop message options cfg remaining attempt lastError).
Proof.
  induction remaining as [| r IH]; intros attempt lastError; cbn [Client.retryLoop].
  - auto with frame.
  - repeat frame_step; apply IH.
Qed.

Lemma keeps_apiWithRetry message options :
  preserves cacheView (Client.apiWithRetry message options).
Proof.
  unfold Client.apiWithRetry. repeat frame_step. apply keeps_retryLoop.
Qed.

Lemma keeps_checkSystemStatus : preserves cacheView Client.checkSystemStatus.
Proof. unfold Client.checkSystemStatus. repeat frame_step. Qed.

Lemma keeps_isCacheValid : preserves cacheView Client.isCacheValid.
Proof. unfold Client.isCacheValid. repeat frame_step. Qed.

Lemma keeps_fallbackAsk message : preserves cacheView (Client.fallbackAsk message).
Proof. unfold Client.fallbackAsk. repeat frame_step. Qed.

#[local] Hint Resolve keeps_apiWithRetry keeps_checkSystemStatus
  keeps_isCacheValid keeps_fallbackAsk : frame.

Lemma keeps_askFailed message options error :
  preserves cacheView (Client.askFailed message options error).
Proof. unfold Client.askFailed. repeat frame_step. Qed.

#[local] Hint Resolve keeps_askFailed : frame.

Lemma keeps_ask message options :
  preserves cacheView (Client.ask message options).
Proof.
  unfold Client.ask.
  destruct message as [msg |]; [destruct msg |]; repeat frame_step.
Qed.

Lemma keeps_checkConnection : preserves cacheView Client.checkConnection.
Proof. unfold Client.checkConnection. repeat frame_step. Qed.

Lemma keeps_isMaintenanceMode : preserves cacheView Client.isMaintenanceMode.
Proof. unfold Client.isMaintenanceMode. repeat frame_step. Qed.

Lemma keeps_getStatus : preserves cacheView Client.getStatus.
Proof. unfold Client.getStatus. repeat frame_step. Qed.

Lemma keeps_streamChunks chunks :
  forall fullText sources sessionId,
    preserves cacheView (Client.streamChunks chunks fullText sources sessionId).
Proof.
  induction chunks as [| chunk rest IH]; intros fullText sources sessionId;
    cbn [Client.streamChunks].
  - auto with frame.
  - destruct chunk; repeat frame_step; apply IH.
Qed.

Lemma keeps_apiChatStream message sid :
  preserves cacheView (Client.apiChatStream message sid).
Proof.
  unfold Client.apiChatStream.
  repeat (frame_step || apply keeps_streamChunks).
Qed.

#[local] Hint Resolve keeps_ask keeps_checkConnection keeps_isMaintenanceMode
  keeps_getStatus keeps_apiChatStream : frame.

Lemma keeps_askStream message options :
  preserves cacheView (Client.askStream message options).
Proof.
  unfold Client.askStream.
  destruct message as [msg |]; [destruct msg |]; repeat frame_step.
Qed.

#[local] Hint Resolve keeps_askStream : frame.

(** C10. No call to [ask] writes to the document cache: whatever the
    message, the options and the behaviour of the transport, the storage
    and the clock, the cache's [documentCount] and [lastSyncAt], the stored
    documents in local storage and those in the database are after the
    call what they were before it, whether the call went through the live
    path, the maintenance branch or [fallbackAsk].  The same holds for
    [fallbackAsk] itself and for the other operations that are neither
    [syncCache] nor [clearCache]: [askStream], [getStatus],
    [checkSystemStatus], [checkConnection], [isMaintenanceMode] and
    [isCacheValid]. *)
Theorem ask_leaves_cache_unchanged :
  forall (message : MessageArg) (options : option AskOptions.t)
         (env : Env) (s : Machine),
    let s' := snd (Client.ask message options env s) in
    CacheFields.documentCount (ClientFields.cache (client s'))
      = CacheFields.documentCount (ClientFields.cache (client s))
    /\ CacheFields.lastSyncAt (ClientFields.cache (client s'))
      = CacheFields.lastSyncAt (ClientFields.cache (client s))
    /\ ClientFields.cache (client s') = ClientFields.cache (client s)
    /\ World.storage (world s') = World.storage (world s)
    /\ World.database (world s') = World.database (world s)
    /\ (forall msg, preserves cacheView (Client.fallbackAsk msg))
    /\ (forall msg opts, preserves cacheView (Client.askStream msg opts))
    /\ preserves cacheView Client.getStatus
    /\ preserves cacheView Client.checkSystemStatus
    /\ preserves cacheView Client.checkConnection
    /\ preserves cacheView Client.isMaintenanceMode
    /\ preserves cacheView Client.isCacheValid.
Proof.
  intros message options env s s'.
  pose proof (keeps_ask message options env s) as H.
  fold s' in H. unfold cacheView in H.
  injection H as Hc Hs Hd.
  repeat split; auto with frame; now rewrite Hc.
Qed.

Lemma keeps_perform r : preserves cacheView (perform r).
Proof. destruct r; cbn [perform]; repeat frame_step. Qed.

Lemma keeps_performAll rs env :
  forall s, cacheView (performAll rs env s) = cacheView s.
Proof.
  induction rs as [| r rs IH]; intros s; cbn [performAll].
  - reflexivity.
  - rewrite IH. apply keeps_perform.
Qed.

(** With no document counted, the fallback path gives the fixed answer. *)
Lemma fallbackAsk_empty_cache message env s :
  CacheFields.documentCount (ClientFields.cache (client s)) = 0%nat ->
  fst (Client.fallbackAsk message env s) = Ret Client.noCacheResponse.
Proof.
  intros H.
  unfold Client.fallbackAsk, Client.setStatus, Cache.getStatus, Cache.fields,
    dateNow, bind, getClient, getEnv, getWorld, modifyWorld, modifyClient, emit, ret.
  destruct (negb _); cbn; rewrite H; reflexivity.
Qed.

Lemma clear_completes env s s1 :
  Cache.clear env s = (Ret tt, s1) ->
  CacheFields.documentCount (ClientFields.cache (client s1)) = 0%nat
  /\ CacheFields.lastSyncAt (ClientFields.cache (client s1)) = None
  /\ ClientFields.localRAG (client s1) = ClientFields.localRAG (client s).
Proof.
  unfold Cache.clear, Cache.getDB, Cache.fields, idbRequest, removeItem,
    modifyCache, modifyDatabase, bind, getClient, getEnv, getWorld,
    modifyWorld, modifyClient, throw, ret.
  cbn.
  destruct (CacheFields.storage _).
  - destruct (CacheFields.db _); cbn; try discriminate.
    repeat (match goal with
            | |- context [idb_fails ?e ?n] => destruct (idb_fails e n); cbn
            end; try discriminate).
    intros H; injection H as <-. now cbn.
  - intros H; injection H as <-. now cbn.
Qed.

(** C9. After [clearCache] has completed, the cache reports a document
    count of 0 and no last sync, and the engine is not indexed; from then
    on, whatever requests other than a sync are served in between, a
    fallback request yields the fixed 'no cached information' answer. *)
Theorem clearCache_then_fallback :
  forall (env : Env) (s s1 : Machine),
    Client.clearCache env s = (Ret tt, s1) ->
    (forall env' st s2,
        Cache.getStatus env' s1 = (Ret st, s2) ->
        CacheStatus.documentCount st = 0%nat /\ CacheStatus.lastSyncAt st = None)
    /\ LocalRAG.isIndexed (ClientFields.localRAG (client s1)) = false
    /\ (forall (between : list Request) (message : string),
          fst (Client.fallbackAsk message env (performAll between env s1))
          = Ret Client.noCacheResponse).
Proof.
  intros env s s1 H.
  unfold Client.clearCache, bind in H.
  destruct (Cache.clear env s) as [[[] | e] s0] eqn:Hclear; [| discriminate].
  apply clear_completes in Hclear. destruct Hclear as (Hn & Hl & _).
  unfold modifyClient in H. injection H as <-.
  split; [| split].
  - intros env' st s2 Hst.
    unfold Cache.getStatus, Cache.fields, dateNow, bind, getClient, getEnv,
      getWorld, modifyWorld, ret in Hst.
    cbn in Hst. injection Hst as <- _. cbn. auto.
  - reflexivity.
  - intros between message. apply fallbackAsk_empty_cache.
    pose proof (keeps_performAll between env
                  {| client := ClientFields.setLocalRAG
                                 (LocalRAG.reset (ClientFields.localRAG (client s0)))
                                 (client s0);
                     world := world s0 |}) as K.
    unfold cacheView in K. injection K as -> _ _. exact Hn.
Qed.

(** ** Comparisons of binary64 values *)

Lemma SFcompare_antisym (a b : SpecFloat.spec_float) :
  SpecFloat.SFcompare b a = option_map CompOpp (SpecFloat.SFcompare a b).
Proof.
  destruct a as [sa | sa | | sa ma ea], b as [sb | sb | | sb mb eb]; cbn;
    try reflexivity;
    try (destruct sa; reflexivity); try (destruct sb; reflexivity);
    try (destruct sa, sb; reflexivity).
  destruct sa, sb; cbn; try reflexivity;
    rewrite (Z.compare_antisym ea eb);
    destruct (ea ?= eb)%Z; cbn; try reflexivity;
    do 2 f_equal; exact (eq_sym (Pos.compare_cont_antisym ma mb Eq)).
Qed.

(** [y <= x] excludes [x < y]. *)
Lemma leb_excludes_ltb (x y : float) :
  PrimFloat.leb y x = true -> PrimFloat.ltb x y = false.
Proof.
  rewrite FloatAxioms.leb_spec, FloatAxioms.ltb_spec.
  unfold SpecFloat.SFleb, SpecFloat.SFltb.
  rewrite (SFcompare_antisym (Prim2SF y) (Prim2SF x)).
  destruct (SpecFloat.SFcompare (Prim2SF y) (Prim2SF x)) as [[| |] |];
    cbn; congruence.
Qed.

(** ** The fallback path *)

Lemma confidenceOf_cases (topScore : float) :
  Client.confidenceOf topScore
  = if PrimFloat.ltb topScore 0.3 then low else medium.
Proof.
  unfold Client.confidenceOf.
  destruct (PrimFloat.ltb topScore 0.3); [reflexivity |].
  now destruct (PrimFloat.ltb 0.7 topScore).
Qed.

(** What [fallbackAsk] can answer: one of the two fixed answers, or the
    engine's result for the message on the engine as it is afterwards. *)
Lemma fallbackAsk_answers message env s :
  exists answer s',
    Client.fallbackAsk message env s = (Ret answer, s')
    /\ (answer = Client.noCacheResponse
        \/ answer = Client.localFailureResponse
        \/ exists isStale,
             answer = Client.localResponse
                        (LocalRAG.ask (ClientFields.localRAG (client s')) message)
                        isStale).
Proof.
  unfold Client.fallbackAsk, bind.
  destruct (returns_setStatus offline env s) as ([] & s1 & ->).
  destruct (returns_Cache_getStatus env s1) as (st & s2 & ->).
  destruct (_ =? 0)%nat.
  - exists Client.noCacheResponse, s2. split; auto.
  - unfold tryCatch, bind.
    destruct (Cache.retrieve env s2) as [[docs | e] s3].
    + cbn [getClient].
      destruct (negb _).
      * destruct (Client.ragIndex docs env s3) as [[[] | e] s4]; cbn.
        -- eexists _, _. split; [reflexivity |]. right; right. now eexists.
        -- eexists _, _. split; [reflexivity |]. auto.
      * cbn. eexists _, _. split; [reflexivity |]. right; right. now eexists.
    + cbn. eexists _, _. split; [reflexivity |]. auto.
Qed.

(** [getStatus] of the cache reads the clock and nothing else: the count
    it reports is the one of the cache object. *)
Lemma Cache_getStatus_run env s :
  exists st,
    Cache.getStatus env s
    = (Ret st, {| client := client s; world := World.tickClock (world s) |})
    /\ CacheStatus.documentCount st
       = CacheFields.documentCount (ClientFields.cache (client s)).
Proof.
  unfold Cache.getStatus, Cache.fields, dateNow, bind, getEnv, getWorld, getClient,
    modifyWorld, ret. cbn [fst snd client world].
  eexists. split; reflexivity.
Qed.

Lemma setStatus_cache st env s :
  ClientFields.cache (client (snd (Client.setStatus st env s)))
  = ClientFields.cache (client s).
Proof.
  unfold Client.setStatus, bind, getClient, modifyClient, emit, modifyWorld, ret.
  cbn [fst snd]. now destruct (negb _).
Qed.

(** What [fallbackAsk] answers, with a status observer that returns:
    the answer by where it comes from, and its confidence. *)
Lemma fallbackAsk_confidence :
  forall (message : string) (env : Env) (s : Machine),
  exists (answer : Response.t) (s' : Machine),
    Client.fallbackAsk message env s = (Ret answer, s')
    /\ (Response.confidence answer = medium
        \/ Response.confidence answer = low
        \/ Response.confidence answer = none)
    /\ (Response.confidence answer = none ->
        answer = Client.noCacheResponse \/ answer = Client.localFailureResponse)
    /\ let count := CacheFields.documentCount (ClientFields.cache (client s)) in
       let result := LocalRAG.ask (ClientFields.localRAG (client s')) message in
       (count = 0%nat -> answer = Client.noCacheResponse)
       /\ (count <> 0%nat -> localSearchFails env s = true ->
           answer = Client.localFailureResponse)
       /\ (count <> 0%nat -> localSearchFails env s = false ->
           (exists isStale, answer = Client.localResponse result isStale)
           /\ Response.reply answer = LocalRAG.answer result
           /\ Response.confidence answer
              = (if PrimFloat.ltb (LocalRAG.topScore result) 0.3 then low else medium)
           /\ (PrimFloat.ltb (LocalRAG.topScore result) 0.3 = true ->
               Response.confidence answer = low)
           /\ (PrimFloat.leb 0.3 (LocalRAG.topScore result) = true ->
               Response.confidence answer = medium)).
Proof.
  intros message env s.
  assert (Hengine : forall result isStale,
    let answer := Client.localResponse result isStale in
    (Response.confidence answer = medium \/ Response.confidence answer = low
     \/ Response.confidence answer = none)
    /\ (Response.confidence answer = none ->
        answer = Client.noCacheResponse \/ answer = Client.localFailureResponse)
    /\ Response.reply answer = LocalRAG.answer result
    /\ Response.confidence answer
       = (if PrimFloat.ltb (LocalRAG.topScore result) 0.3 then low else medium)
    /\ (PrimFloat.ltb (LocalRAG.topScore result) 0.3 = true ->
        Response.confidence answer = low)
    /\ (PrimFloat.leb 0.3 (LocalRAG.topScore result) = true ->
        Response.confidence answer = medium)).
  { intros result isStale answer. subst answer.
    cbn [Client.localResponse Response.confidence Response.reply].
    rewrite confidenceOf_cases.
    split; [destruct (PrimFloat.ltb _ _); auto |].
    split; [destruct (PrimFloat.ltb _ _); discriminate |].
    split; [reflexivity |]. split; [reflexivity |]. split.
    - now intros ->.
    - intros H. now rewrite (leb_excludes_ltb H). }
  unfold localSearchFails, searchStart.
  unfold Client.fallbackAsk. unfold bind at 1.
  pose proof (setStatus_cache offline env s) as Hcache.
  destruct (returns_setStatus offline env s) as ([] & s1 & E1).
  rewrite E1 in *. cbn [snd] in *.
  unfold bind at 1.
  destruct (Cache_getStatus_run env s1) as (st & E2 & Hcount).
  rewrite E2. cbn [snd]. rewrite Hcount, Hcache.
  set (s2 := {| client := client s1; world := World.tickClock (world s1) |}).
  destruct (CacheFields.documentCount (ClientFields.cache (client s)) =? 0)%nat
    eqn:Ecount.
  - apply Nat.eqb_eq in Ecount.
    exists Client.noCacheResponse, s2. split; [reflexivity |].
    split; [cbn; auto |]. split; [auto |]. cbn zeta.
    split; [reflexivity |]. split; intros; congruence.
  - apply Nat.eqb_neq in Ecount.
    unfold tryCatch, bind.
    destruct (Cache.retrieve env s2) as [[docs | e] s3].
    + cbn [getClient fst snd].
      destruct (negb (LocalRAG.isIndexed (ClientFields.localRAG (client s3)))).
      * destruct (Client.ragIndex docs env s3) as [[[] | e] s4]; cbn [fst snd andb].
        -- eexists _, _. split; [reflexivity |].
           destruct (Hengine (LocalRAG.ask (ClientFields.localRAG (client s4)) message)
                             (CacheStatus.isStale st)) as (H1 & H2 & H3).
           split; [exact H1 |]. split; [exact H2 |]. cbn zeta.
           split; [congruence |]. split; [discriminate |].
           intros _ _. split; [now eexists | exact H3].
        -- eexists _, _. split; [reflexivity |].
           split; [cbn; auto |]. split; [auto |]. cbn zeta.
           split; [congruence |]. split; [reflexivity | discriminate].
      * cbn [fst snd andb ret].
        eexists _, _. split; [reflexivity |].
        destruct (Hengine (LocalRAG.ask (ClientFields.localRAG (client s3)) message)
                          (CacheStatus.isStale st)) as (H1 & H2 & H3).
        split; [exact H1 |]. split; [exact H2 |]. cbn zeta.
        split; [congruence |]. split; [discriminate |].
        intros _ _. split; [now eexists | exact H3].
    + eexists _, _. split; [reflexivity |].
      split; [cbn; auto |]. split; [auto |]. cbn zeta.
      split; [congruence |]. split; [reflexivity | discriminate].
Qed.

(** C2. Every answer produced by [fallbackAsk] has confidence medium, low
    or none, never high, and the level is tied to where the answer comes
    from.  With no cached document the answer is the fixed 'no cached
    information' one; when the local search fails it is the fixed
    'trouble processing' one; these two are the only answers with
    confidence none.  Otherwise the answer is the engine's, and its
    confidence is low if the engine's top score is below 0.3 and medium
    if the top score is at least 0.3 (a top score that is [NaN] gives
    medium as well).  This holds with every host; and an answer is
    produced whenever the client is offline already or the status
    observer returns. *)
Theorem fallbackAsk_confidence_ceiling :
  forall (callbacks : Host.Callbacks) (message : string) (env : Env) (s : Machine),
    (forall (answer : Response.t) (s' : Machine),
        Host.fallbackAsk callbacks message env s = (Ret answer, s') ->
        (Response.confidence answer = medium
         \/ Response.confidence answer = low
         \/ Response.confidence answer = none)
        /\ (Response.confidence answer = none ->
            answer = Client.noCacheResponse \/ answer = Client.localFailureResponse)
        /\ let count := CacheFields.documentCount (ClientFields.cache (client s)) in
           let result := LocalRAG.ask (ClientFields.localRAG (client s')) message in
           (count = 0%nat -> answer = Client.noCacheResponse)
           /\ (count <> 0%nat -> localSearchFails env s = true ->
               answer = Client.localFailureResponse)
           /\ (count <> 0%nat -> localSearchFails env s = false ->
               (exists isStale, answer = Client.localResponse result isStale)
               /\ Response.reply answer = LocalRAG.answer result
               /\ Response.confidence answer
                  = (if PrimFloat.ltb (LocalRAG.topScore result) 0.3
                     then low else medium)
               /\ (PrimFloat.ltb (LocalRAG.topScore result) 0.3 = true ->
                   Response.confidence answer = low)
               /\ (PrimFloat.leb 0.3 (LocalRAG.topScore result) = true ->
                   Response.confidence answer = medium)))
    /\ (ConnectionStatus_eqb (ClientFields.status (client s)) offline = true
        \/ callbacks (World.events (world s)) (EvStatusChange offline) = None ->
        exists (answer : Response.t) (s' : Machine),
          Host.fallbackAsk callbacks message env s = (Ret answer, s')).
Proof.
  intros callbacks message env s.
  destruct (fallbackAsk_confidence message env s) as (answer0 & s0 & Hrun & Hprops).
  split.
  - intros answer s' Hhost.
    destruct (ConnectionStatus_eqb (ClientFields.status (client s)) offline) eqn:Est;
      [| destruct (callbacks (World.events (world s)) (EvStatusChange offline))
           as [x |] eqn:Ecb].
    + rewrite (@host_fallbackAsk_returning callbacks message env s (or_introl Est)),
        Hrun in Hhost.
      injection Hhost as <- <-. exact Hprops.
    + rewrite (@host_fallbackAsk_throwing callbacks message x env s Est Ecb) in Hhost.
      discriminate Hhost.
    + rewrite (@host_fallbackAsk_returning callbacks message env s (or_intror Ecb)),
        Hrun in Hhost.
      injection Hhost as <- <-. exact Hprops.
  - intros Hreturns.
    rewrite (@host_fallbackAsk_returning callbacks message env s Hreturns).
    eauto.
Qed.

(** ** The retry policy *)

Lemma apiChat_run message sid env s :
  Client.apiChat message sid env s
  = (api_chat env (World.chatCalls (world s)) message sid, afterChat message sid s).
Proof.
  unfold Client.apiChat, bind, getEnv, getWorld, modifyWorld, emit. cbn.
  unfold afterChat. now destruct (api_chat _ _ _ _).
Qed.

(** One iteration of the loop, by the outcome of its chat call. *)
Lemma retryLoop_success message options cfg remaining attempt lastError env s r :
  api_chat env (World.chatCalls (world s)) message (Client.sessionIdOf options) = Ret r ->
  Client.retryLoop message options cfg (S remaining) attempt lastError env s
  = (Ret r, afterChat message (Client.sessionIdOf options) s).
Proof.
  intros H. cbn [Client.retryLoop]. unfold tryCatch.
  now rewrite apiChat_run, H.
Qed.

Lemma retryLoop_no_retry message options cfg remaining attempt lastError env s e :
  api_chat env (World.chatCalls (world s)) message (Client.sessionIdOf options) = Throw e ->
  Client.noRetry (CyberneticError.code (Client.normalizeError e)) = true ->
  Client.retryLoop message options cfg (S remaining) attempt lastError env s
  = (Throw e, afterChat message (Client.sessionIdOf options) s).
Proof.
  intros H Hc. cbn [Client.retryLoop]. unfold tryCatch.
  now rewrite apiChat_run, H, Hc.
Qed.

Lemma retryLoop_retry message options cfg remaining attempt lastError env s e :
  api_chat env (World.chatCalls (world s)) message (Client.sessionIdOf options) = Throw e ->
  Client.noRetry (CyberneticError.code (Client.normalizeError e)) = false ->
  (attempt <? Config.maxRetries cfg)%Z = true ->
  Client.retryLoop message options cfg (S remaining) attempt lastError env s
  = Client.retryLoop message options cfg remaining (attempt + 1) e env
      (afterSleep (if Config.exponentialBackoff cfg
                   then Config.initialDelay cfg * 2 ^ attempt
                   else Config.initialDelay cfg)%Z
                  (afterChat message (Client.sessionIdOf options) s)).
Proof.
  intros H Hc Ha. cbn [Client.retryLoop]. unfold tryCatch.
  rewrite apiChat_run, H, Hc, Ha. reflexivity.
Qed.

(** C5. With [maxRetries = 2] and a transport whose chat call fails twice
    (with failures outside the two classes that are never retried) and
    then succeeds, [apiWithRetry] makes exactly three chat calls, one after
    the other with a sleep between them, and returns the result of the
    third.  When the first failure is classified AUTH_ERROR or RATE_LIMIT,
    exactly one chat call is made and that error is thrown again, with no
    sleep and no retry. *)
Theorem apiWithRetry_attempts :
  forall (message : string) (options : option AskOptions.t)
         (env : Env) (s : Machine),
    let n := World.chatCalls (world s) in
    let sid := Client.sessionIdOf options in
    let cfg := Config.retry (ClientFields.config (client s)) in
    let delay k := (if Config.exponentialBackoff cfg
                    then Config.initialDelay cfg * 2 ^ k
                    else Config.initialDelay cfg)%Z in
    (Config.maxRetries cfg = 2%Z ->
     forall e1 e2 r,
       api_chat env n message sid = Throw e1 ->
       Client.noRetry (CyberneticError.code (Client.normalizeError e1)) = false ->
       api_chat env (S n) message sid = Throw e2 ->
       Client.noRetry (CyberneticError.code (Client.normalizeError e2)) = false ->
       api_chat env (S (S n)) message sid = Ret r ->
       exists s',
         Client.apiWithRetry message options env s = (Ret r, s')
         /\ World.chatCalls (world s') = (n + 3)%nat
         /\ World.events (world s')
            = World.events (world s)
                ++ [EvChat message sid; EvSleep (delay 0%Z);
                    EvChat message sid; EvSleep (delay 1%Z);
                    EvChat message sid]
         /\ client s' = client s)
    /\
    ((0 <= Config.maxRetries cfg)%Z ->
     forall e,
       api_chat env n message sid = Throw e ->
       Client.noRetry (CyberneticError.code (Client.normalizeError e)) = true ->
       exists s',
         Client.apiWithRetry message options env s = (Throw e, s')
         /\ World.chatCalls (world s') = (n + 1)%nat
         /\ World.events (world s')
            = World.events (world s) ++ [EvChat message sid]
         /\ client s' = client s).
Proof.
  intros message options env s n sid cfg delay. split.
  - intros Hmax e1 e2 r H1 Hc1 H2 Hc2 H3.
    unfold Client.apiWithRetry, bind, getClient. fold cfg. rewrite Hmax.
    change (Z.to_nat (2 + 1)) with 3%nat.
    erewrite retryLoop_retry; [| exact H1 | exact Hc1 | now rewrite Hmax].
    erewrite retryLoop_retry; [| exact H2 | exact Hc2 | now rewrite Hmax].
    erewrite retryLoop_success; [| exact H3].
    eexists. split; [reflexivity |]. cbn.
    repeat split.
    + fold n. lia.
    + repeat rewrite <- app_assoc. reflexivity.
  - intros Hmax e H Hc.
    unfold Client.apiWithRetry, bind, getClient. fold cfg.
    destruct (Z.to_nat (Config.maxRetries cfg + 1)) as [| k] eqn:Hk; [lia |].
    erewrite retryLoop_no_retry; [| exact H | exact Hc].
    eexists. split; [reflexivity |]. cbn.
    repeat split. fold n. lia.
Qed.

(** ** Rate limiting *)

(** An error classified as RATE_LIMIT is an [Error] instance, and the
    classification carries the retry-after hint: the number after 'retry
    after' in the message, 60 when there is none. *)
Lemma normalizeError_rate_limit (e : Thrown) :
  CyberneticError.code (Client.normalizeError e) = RATE_LIMIT ->
  exists text,
    e = JsError text
    /\ CyberneticError.retryAfter (Client.normalizeError e)
       = Some (Client.retryAfterOf text).
Proof.
  destruct e as [text |]; cbn; [| discriminate].
  destruct (includes text "401" || includes text "Unauthorized"); cbn;
    [discriminate |].
  destruct (includes text "429" || includes text "Rate limit"); cbn.
  - intros _. now exists text.
  - destruct (includes text "5" || includes text "Server"); cbn; discriminate.
Qed.

(** *** The hint in the text *)

Lemma append_assoc (a b c : string) : ((a ++ b) ++ c)%string = (a ++ (b ++ c))%string.
Proof. induction a as [| x a IH]; cbn; [reflexivity | now rewrite IH]. Qed.

Lemma append_empty (a : string) : (a ++ "")%string = a.
Proof. induction a as [| x a IH]; cbn; [reflexivity | now rewrite IH]. Qed.

Lemma length_append (a b : string) :
  String.length (a ++ b) = (String.length a + String.length b)%nat.
Proof. induction a as [| x a IH]; cbn; [reflexivity | now rewrite IH]. Qed.

(** A pattern is matched at the start of a text by what the text has up
    to the length of the pattern. *)
Lemma prefixIgnoreCase_app (p x tail : string) :
  (String.length p <= String.length x)%nat ->
  prefixIgnoreCase p (x ++ tail) = prefixIgnoreCase p x.
Proof.
  revert x. induction p as [| a p IH]; intros x Hlen; [now destruct x |].
  destruct x as [| c x]; cbn in Hlen; [lia |].
  cbn [append prefixIgnoreCase]. rewrite IH by lia. reflexivity.
Qed.

Lemma drop_all (p x : string) :
  drop (String.length p) (p ++ x) = x.
Proof. induction p as [| a p IH]; cbn; [reflexivity | exact IH]. Qed.

Lemma takeWhile_digits (ds rest : string) :
  allDigits ds = true -> startsWithDigit rest = false ->
  takeWhile isDigit (ds ++ rest) = ds.
Proof.
  intros Hds Hrest. induction ds as [| c ds IH]; cbn [append].
  - destruct rest as [| c rest]; [reflexivity |]. cbn in *. now rewrite Hrest.
  - cbn in Hds. apply andb_true_iff in Hds. destruct Hds as [Hc Hds].
    cbn. rewrite Hc, IH by exact Hds. reflexivity.
Qed.

Lemma matchRetryAfter_here (phrase ds rest : string) :
  isRetryAfterPhrase phrase = true ->
  ds <> "" -> allDigits ds = true -> startsWithDigit rest = false ->
  matchRetryAfter (phrase ++ ds ++ rest) = Some ds.
Proof.
  intros Hp Hne Hds Hrest.
  apply andb_true_iff in Hp. destruct Hp as [Hlen Hp]. apply Nat.eqb_eq in Hlen.
  assert (Hhere : prefixIgnoreCase "retry after " (phrase ++ ds ++ rest) = true).
  { rewrite prefixIgnoreCase_app; [exact Hp |]. rewrite Hlen. cbn. lia. }
  assert (Hdrop : drop 12 (phrase ++ ds ++ rest) = (ds ++ rest)%string).
  { rewrite <- Hlen. apply drop_all. }
  destruct (phrase ++ ds ++ rest)%string as [| c s] eqn:E.
  - cbn in Hhere. discriminate.
  - cbn [matchRetryAfter]. rewrite Hhere, Hdrop, takeWhile_digits by assumption.
    destruct ds; [congruence | reflexivity].
Qed.

Lemma matchRetryAfter_skip (c : ascii) (s : string) :
  prefixIgnoreCase "retry after " (String c s) = false ->
  matchRetryAfter (String c s) = matchRetryAfter s.
Proof. intros H. cbn [matchRetryAfter]. now rewrite H. Qed.

Lemma matchRetryAfter_later (before following tail : string) :
  (12 <= String.length following)%nat ->
  phraseStartsIn before following = false ->
  matchRetryAfter (before ++ following ++ tail) = matchRetryAfter (following ++ tail).
Proof.
  intros Hlen. unfold phraseStartsIn.
  induction before as [| c before IH]; intros H; [reflexivity |].
  cbn [String.length seq existsb] in H. apply orb_false_iff in H.
  destruct H as [H0 Hrest]. cbn [drop] in H0.
  cbn [append]. rewrite matchRetryAfter_skip.
  - apply IH. rewrite <- seq_shift in Hrest.
    clear - Hrest. induction (seq 0 (String.length before)) as [| k ks IHk];
      [reflexivity |].
    cbn [map existsb drop append] in *. apply orb_false_iff in Hrest.
    destruct Hrest as [H1 H2]. now rewrite H1, IHk.
  - replace (String c (before ++ following ++ tail))%string
      with ((String c before ++ following) ++ tail)%string
      by (cbn; now rewrite append_assoc).
    rewrite prefixIgnoreCase_app; [exact H0 |].
    cbn [append String.length]. rewrite length_append. cbn. lia.
Qed.

Lemma digits_of_uint (d : Decimal.uint) : allDigits (NilEmpty.string_of_uint d) = true.
Proof. induction d; cbn; try reflexivity; exact IHd. Qed.

Lemma parseDigits_of_uint (d : Decimal.uint) :
  forall acc : nat,
    parseDigits (NilEmpty.string_of_uint d) (Z.of_nat acc)
    = Z.of_nat (Nat.of_uint_acc d acc).
Proof.
  induction d; intros acc; cbn [NilEmpty.string_of_uint parseDigits Nat.of_uint_acc];
    try reflexivity;
    rewrite <- IHd; f_equal; rewrite Nat.tail_mul_spec; unfold digitValue, code;
    cbn [nat_of_ascii]; 
    match goal with |- context [Z.of_nat (?a - 48)] =>
      let v := eval vm_compute in (a - 48)%nat in change (a - 48)%nat with v end;
    lia.
Qed.

Lemma decimal_value (n : nat) : parseDigits (decimal n) 0 = Z.of_nat n.
Proof.
  unfold decimal. change 0%Z with (Z.of_nat 0).
  rewrite parseDigits_of_uint. f_equal. apply Unsigned.of_to.
Qed.

Lemma decimal_digits (n : nat) : allDigits (decimal n) = true.
Proof. apply digits_of_uint. Qed.

Lemma decimal_nonempty (n : nat) : decimal n <> "".
Proof.
  unfold decimal. intros H.
  assert (E : Nat.to_uint n = Decimal.Nil).
  { destruct (Nat.to_uint n); cbn in H; (reflexivity || discriminate). }
  pose proof (Unsigned.to_of (Nat.to_uint n)) as K.
  rewrite Unsigned.of_to, E in K. discriminate K.
Qed.

Lemma prefixIgnoreCase_folded (p s : string) :
  prefixIgnoreCase p s = true -> String.prefix p (smap foldAscii s) = true.
Proof.
  revert s. induction p as [| a p IH]; intros s H.
  - now destruct s.
  - destruct s as [| c s]; [discriminate |].
    cbn [prefixIgnoreCase] in H. apply andb_true_iff in H. destruct H as [Hc Hp].
    apply Ascii.eqb_eq in Hc. cbn [smap String.prefix].
    destruct (ascii_dec a (foldAscii c)); [now apply IH | congruence].
Qed.

Lemma matchRetryAfter_mentions (text : string) :
  mentionsRetryAfter text = false -> matchRetryAfter text = None.
Proof.
  unfold mentionsRetryAfter.
  induction text as [| c text IH]; intros H.
  - reflexivity.
  - cbn [smap includes] in H. apply orb_false_iff in H. destruct H as [H0 Hrest].
    assert (Hhere : prefixIgnoreCase "retry after " (String c text) = false).
    { destruct (prefixIgnoreCase "retry after " (String c text)) eqn:E;
        [| reflexivity].
      apply prefixIgnoreCase_folded in E. cbn [smap] in E. congruence. }
    rewrite matchRetryAfter_skip by exact Hhere. now apply IH.
Qed.

(** The hint when the text does not mention it, and when it does. *)
Lemma retryAfterOf_default (text : string) :
  mentionsRetryAfter text = false -> Client.retryAfterOf text = Finite 60.
Proof.
  intros H. unfold Client.retryAfterOf. now rewrite matchRetryAfter_mentions.
Qed.

Lemma retryAfterOf_written (before phrase rest : string) (n : nat) :
  isRetryAfterPhrase phrase = true ->
  phraseStartsIn before phrase = false ->
  startsWithDigit rest = false ->
  Client.retryAfterOf (before ++ phrase ++ decimal n ++ rest)
  = toNumber (Z.of_nat n).
Proof.
  intros Hp Hbefore Hrest. unfold Client.retryAfterOf.
  assert (Hlen : (12 <= String.length phrase)%nat).
  { apply andb_true_iff in Hp. destruct Hp as [Hlen _].
    apply Nat.eqb_eq in Hlen. lia. }
  rewrite matchRetryAfter_later by assumption.
  rewrite matchRetryAfter_here;
    auto using decimal_nonempty, decimal_digits.
  unfold parseInt. now rewrite decimal_value.
Qed.


(** ** Maintenance mode *)

Lemma checkSystemStatus_liveView : preserves liveView Client.checkSystemStatus.
Proof.
  intros env s.
  unfold Client.checkSystemStatus, Client.apiGetStatus, Client.liftOutcome,
    dateNow, tryCatch, bind, getClient, getEnv, getWorld, modifyWorld,
    modifyClient, emit, ret, throw.
  destruct (ClientFields.systemSettings (client s)); cbn.
  - destruct (_ <? _)%Z; cbn; [reflexivity |].
    destruct (api_getStatus _ _); reflexivity.
  - destruct (api_getStatus _ _); reflexivity.
Qed.

Lemma isCacheValid_liveView : preserves liveView Client.isCacheValid.
Proof.
  intros env s.
  unfold Client.isCacheValid, Cache.getStatus, Cache.fields, dateNow, bind,
    getClient, getEnv, getWorld, modifyWorld, ret.
  cbn. destruct (CacheFields.lastSyncAt _); reflexivity.
Qed.

(** [isCacheValid] by the state it runs in: it reads the clock twice when
    there is a last-sync timestamp; the document count and the cache's
    own staleness flag play no part. *)
Lemma isCacheValid_reads env s :
  fst (Client.isCacheValid env s)
  = Ret match CacheFields.lastSyncAt (ClientFields.cache (client s)) with
        | None => false
        | Some d =>
            match getTime d with
            | None => false
            | Some t =>
                let hours :=
                  match ClientFields.systemSettings (client s) with
                  | Some st =>
                      if (SystemSettings.cacheRetentionHours st =? 0)%Z then 168%Z
                      else SystemSettings.cacheRetentionHours st
                  | None => 168%Z
                  end in
                (Date_now env (S (World.clockReads (world s))) - t
                 <? hours * 60 * 60 * 1000)%Z
            end
        end.
Proof.
  unfold Client.isCacheValid, Cache.getStatus, Cache.fields, dateNow, bind,
    getClient, getEnv, getWorld, modifyWorld, ret.
  cbn. destruct (CacheFields.lastSyncAt _) as [d |]; [| reflexivity].
  cbn. destruct (getTime d); reflexivity.
Qed.

(** C4 (as amended). When the current settings have [maintenanceMode] or
    [forceOfflineClients] set and [isCacheValid] answers false (no
    last-sync timestamp, or one that is no date, or one at least the
    retention period old), [ask] returns the fixed maintenance answer:
    offline true, confidence none, and as reply the server's
    [maintenanceMessage] when it is present and not empty, the generic
    notice otherwise.  No chat call is made, the engine is not touched and
    the connection status is not changed: neither the live call nor the
    fallback search is attempted. *)
Theorem ask_maintenance_without_valid_cache :
  forall (msg : string) (options : option AskOptions.t) (env : Env)
         (s s1 s2 : Machine) (settings : SystemSettings.t),
    isEmpty msg = false ->
    Client.checkSystemStatus env s = (Ret settings, s1) ->
    SystemSettings.maintenanceMode settings
      || SystemSettings.forceOfflineClients settings = true ->
    Client.isCacheValid env s1 = (Ret false, s2) ->
    Client.ask (Str msg) options env s
    = (Ret {| Response.reply :=
                match SystemSettings.maintenanceMessage settings with
                | Some (String c m) => String c m
                | _ => "The service is currently under maintenance. Please try again later."
                end;
              Response.confidence := none;
              Response.sources := [];
              Response.offline := true;
              Response.sessionId := None;
              Response.retryAfter := None;
              Response.degradedReason :=
                Some "Maintenance mode active, no valid cache available" |},
       s2)
    /\ World.chatCalls (world s2) = World.chatCalls (world s)
    /\ ClientFields.localRAG (client s2) = ClientFields.localRAG (client s)
    /\ ClientFields.status (client s2) = ClientFields.status (client s).
Proof.
  intros msg options env s s1 s2 settings Hmsg Hset Hflags Hvalid.
  split.
  - destruct msg as [| c rest]; [discriminate |].
    unfold Client.ask, bind. rewrite Hset, Hflags, Hvalid. cbn [negb].
    unfold ret, Client.maintenanceResponse. do 2 f_equal.
    now destruct (SystemSettings.maintenanceMessage settings) as [[| c' m] |].
  - pose proof (checkSystemStatus_liveView env s) as K1.
    pose proof (isCacheValid_liveView env s1) as K2.
    rewrite Hset in K1. rewrite Hvalid in K2. cbn [snd] in K1, K2.
    rewrite K1 in K2. unfold liveView in K2.
    injection K2 as -> -> ->. auto.
Qed.

(** ** Tokenization *)

Section TokenizeFacts.
Import LocalRAG TokenizeSpec.

Ltac by_cases_on_char c :=
  destruct c as [b0 b1 b2 b3 b4 b5 b6 b7];
  destruct b0, b1, b2, b3, b4, b5, b6, b7; vm_compute; (reflexivity || congruence || auto).

Lemma wordChar_kept (c : ascii) :
  isWordChar c = true -> replaceNonWord c = c /\ isSpace c = false.
Proof. by_cases_on_char c; intros; try discriminate; auto. Qed.

Lemma nonWordChar_separates (c : ascii) :
  isWordChar c = false -> isSpace (replaceNonWord c) = true.
Proof. by_cases_on_char c. Qed.

Lemma alnum_kept (c : ascii) :
  isAlnum c = true -> isSpace c = false.
Proof. by_cases_on_char c; intros; try discriminate; auto. Qed.

Lemma lowered_wordChar (c : ascii) :
  isWordChar (lowerChar c) = true -> isTokenChar (lowerChar c) = true.
Proof. by_cases_on_char c. Qed.

Lemma lowered_notUnderscore (c : ascii) :
  notUnderscore c = true -> notUnderscore (lowerChar c) = true.
Proof. by_cases_on_char c. Qed.

Lemma wordChar_alnum (c : ascii) :
  notUnderscore c = true -> isWordChar c = isAlnum c.
Proof. by_cases_on_char c. Qed.

Lemma filter_flush cur :
  filter keepToken (flush cur) = filter keepToken [cur].
Proof. now destruct cur. Qed.

(** Replacing the characters outside a class by separators and splitting
    yields, up to the empty pieces, the runs of the class. *)
Lemma split_is_runsOf (word : ascii -> bool) (replace : ascii -> ascii) :
  (forall c, word c = true -> replace c = c /\ isSpace c = false) ->
  (forall c, word c = false -> isSpace (replace c) = true) ->
  forall (s cur : string) (inSep : bool),
    (inSep = true -> cur = "") ->
    filter keepToken (splitRuns isSpace (smap replace s) cur inSep)
    = filter keepToken (runsOf word s cur).
Proof.
  intros Hword Hother s.
  induction s as [| c s IH]; intros cur inSep Hsep; cbn [smap splitRuns runsOf].
  - now rewrite filter_flush.
  - destruct (word c) eqn:Hw.
    + destruct (Hword c Hw) as [-> ->]. now apply IH.
    + rewrite (Hother c Hw).
      rewrite filter_app, filter_flush.
      destruct inSep.
      * rewrite (Hsep eq_refl). cbn [filter keepToken String.length Nat.ltb Nat.leb andb app].
        now apply IH.
      * cbn [filter]. destruct (keepToken cur); cbn [app]; [f_equal |]; now apply IH.
Qed.

Lemma split_is_wordRuns (s : string) :
  forall cur inSep,
    (inSep = true -> cur = "") ->
    filter keepToken (splitRuns isSpace (smap replaceNonWord s) cur inSep)
    = filter keepToken (wordRuns s cur).
Proof.
  apply split_is_runsOf; [apply wordChar_kept | apply nonWordChar_separates].
Qed.

Lemma runsOf_ext (word word' : ascii -> bool) (s : string) :
  (forall c, notUnderscore c = true -> word c = word' c) ->
  allChars notUnderscore s = true ->
  forall cur, runsOf word s cur = runsOf word' s cur.
Proof.
  intros Hext. induction s as [| c s IH]; intros Hs cur; cbn [runsOf];
    [reflexivity |].
  cbn [allChars] in Hs. apply andb_true_iff in Hs. destruct Hs as [Hc Hs].
  rewrite (Hext c Hc). destruct (word' c); now rewrite !IH.
Qed.

Lemma toLowerCase_notUnderscore (s : string) :
  allChars notUnderscore s = true ->
  allChars notUnderscore (toLowerCase s) = true.
Proof.
  unfold toLowerCase. induction s as [| c s IH]; cbn [smap allChars]; [reflexivity |].
  intros H. apply andb_true_iff in H. destruct H as [Hc Hs].
  now rewrite (lowered_notUnderscore c Hc), IH.
Qed.

(** On a text without underscore the source and the pipeline of the
    specification agree: the underscore is all that separates them (for
    code units below 256). *)
Lemma tokenize_agrees_without_underscore (text : string) :
  allChars notUnderscore text = true ->
  tokenize text = tokenize_as_specified text.
Proof.
  intros H.
  unfold tokenize, tokenize_as_specified, JsString.split.
  rewrite split_is_wordRuns by discriminate.
  assert (Hkept : forall c, isAlnum c = true ->
                    (if isAlnum c then c else " "%char) = c /\ isSpace c = false).
  { intros c Hc. rewrite Hc. split; [reflexivity | now apply alnum_kept]. }
  assert (Hother : forall c, isAlnum c = false ->
                     isSpace (if isAlnum c then c else " "%char) = true).
  { intros c Hc. now rewrite Hc. }
  rewrite (split_is_runsOf isAlnum _ Hkept Hother) by discriminate.
  unfold wordRuns. f_equal.
  apply runsOf_ext; [apply wordChar_alnum | now apply toLowerCase_notUnderscore].
Qed.

Lemma allChars_app p a b :
  allChars p (a ++ b) = allChars p a && allChars p b.
Proof.
  induction a as [| c a IH]; cbn; [reflexivity |].
  now rewrite IH, andb_assoc.
Qed.

Lemma wordRuns_lowered (s : string) :
  forall cur,
    allChars isTokenChar cur = true ->
    Forall (fun t => allChars isTokenChar t = true)
           (wordRuns (toLowerCase s) cur).
Proof.
  unfold toLowerCase, wordRuns.
  induction s as [| c s IH]; intros cur Hcur; cbn [smap runsOf].
  - unfold flush. destruct (isEmpty cur); auto.
  - destruct (isWordChar (lowerChar c)) eqn:Hw.
    + apply IH. rewrite allChars_app, Hcur. cbn.
      now rewrite (lowered_wordChar c Hw).
    + apply Forall_app. split.
      * unfold flush. destruct (isEmpty cur); auto.
      * now apply IH.
Qed.

Lemma Forall_filter {A : Type} (P : A -> Prop) (f : A -> bool) (l : list A) :
  Forall P l -> Forall (fun x => P x /\ f x = true) (filter f l).
Proof.
  induction 1 as [| x l Hx Hl IH]; cbn; [constructor |].
  destruct (f x) eqn:Hf; auto.
Qed.

(** C7 (as amended). For every input string, [tokenize] lower-cases the
    text and returns, in order, the maximal runs of word characters
    (ASCII letters, digits and the underscore: every other character,
    white space included, only separates) that are longer than 2
    characters and are not stop words.  Each token so returned consists
    of lower-case ASCII letters, digits and underscores.  The result is a
    function of the input string alone. *)
Theorem tokenize_characterised :
  forall text : string,
    tokenize text = filter keepToken (wordRuns (toLowerCase text) "")
    /\ Forall (fun token =>
                 (2 < String.length token)%nat
                 /\ isStopWord token = false
                 /\ allChars isTokenChar token = true)
              (tokenize text).
Proof.
  intros text.
  assert (E : tokenize text = filter keepToken (wordRuns (toLowerCase text) "")).
  { unfold tokenize, JsString.split. apply split_is_wordRuns. discriminate. }
  split; [exact E |].
  rewrite E.
  pose proof (Forall_filter keepToken (wordRuns_lowered text "" eq_refl)) as H.
  eapply Forall_impl; [| exact H].
  cbn beta. intros token [Hc Hk]. unfold keepToken in Hk.
  apply andb_true_iff in Hk. destruct Hk as [Hlen Hstop].
  apply Nat.ltb_lt in Hlen. apply negb_true_iff in Hstop. auto.
Qed.

(** C7, counterexample: an underscore is not alphanumeric, yet it is not
    replaced.  The source keeps 'snake_case' as one token where the
    pipeline as specified yields two. *)
Lemma tokenize_underscore_counterexample :
  tokenize "Use snake_case names" = ["use"; "snake_case"; "names"]
  /\ tokenize_as_specified "Use snake_case names" = ["use"; "snake"; "case"; "names"].
Proof. split; vm_compute; reflexivity. Qed.

End TokenizeFacts.

(** ** Ranking *)

Section SortFacts.
Variable A : Type.
Variable after : A -> A -> bool.

Lemma insertSorted_In (x y : A) (l : list A) :
  In y (insertSorted after x l) -> y = x \/ In y l.
Proof.
  induction l as [| z l IH]; cbn.
  - intros [<- | []]. now left.
  - destruct (after x z); cbn.
    + intros [<- | H]; [right; now left |].
      destruct (IH H) as [-> | H']; [now left | right; now right].
    + intros [<- | H]; [now left | now right].
Qed.

Lemma sortBy_In (y : A) (l : list A) : In y (sortBy after l) -> In y l.
Proof.
  revert y. induction l as [| x l IH]; cbn; intros y H; [exact H |].
  destruct (insertSorted_In _ _ _ H) as [-> | H']; [now left | right; now apply IH].
Qed.

(** An element that every earlier element has to follow and that no later
    element precedes comes first. *)
Lemma sortBy_head (before rest : list A) (x : A) :
  (forall y, In y before -> after y x = true) ->
  (forall y, In y rest -> after x y = false) ->
  exists tl, sortBy after (before ++ x :: rest) = x :: tl.
Proof.
  intros Hb Hr. induction before as [| y before IH]; cbn [app sortBy].
  - destruct (sortBy after rest) as [| z tl] eqn:E; cbn.
    + now exists [].
    + rewrite (Hr z); [now exists (z :: tl) |].
      apply sortBy_In. rewrite E. now left.
  - destruct IH as [tl ->]; [intros z Hz; apply Hb; now right |].
    cbn. rewrite (Hb y) by now left. eauto.
Qed.

End SortFacts.

Section RankingFacts.
Import LocalRAG.
Variable Math_log : float -> float.

Lemma indexLoop_wellFormed (docs : list CachedDocument) :
  forall docFreq acc,
  exists docFreq',
    indexLoop (map WellFormed docs) docFreq acc
    = (Ret docFreq', acc ++ map pushed docs).
Proof.
  induction docs as [| d docs IH]; intros docFreq acc; cbn [map indexLoop].
  - exists docFreq. now rewrite app_nil_r.
  - destruct (IH (fold_left increment (uniq [] (tokenize (doc_content d))) docFreq)
                 (acc ++ [pushed d])) as [df' ->].
    exists df'. now rewrite <- app_assoc.
Qed.

(** Indexing well-formed documents succeeds and keeps one indexed
    document per document, in order. *)
Lemma index_wellFormed (docs : list CachedDocument) (rag0 : t) :
  let rag := snd (index Math_log (DocArray (map WellFormed docs)) rag0) in
  fst (index Math_log (DocArray (map WellFormed docs)) rag0) = Ret tt
  /\ indexed rag = true
  /\ documents rag = map (fun d => withTfidf (idf rag) (pushed d)) docs.
Proof.
  unfold index.
  destruct (indexLoop_wellFormed docs [] []) as [df ->]. cbn.
  repeat split. now rewrite map_map.
Qed.

(** C6 (as amended). For every non-empty corpus of documents, after
    [index(docs)], [ask(query)] returns as its top-ranked source the
    document [d] whose cosine score against the query is above 0.1, is
    ranked by the comparator before every document that precedes it in
    the corpus, and is not outranked by any document that follows it
    (a tie goes to the earlier document); the source carries the title of
    [d], the first 200 characters of its content and that score, which is
    also the top score.  That the query was drawn verbatim from the
    content of [d] plays no part. *)
Theorem ask_top_source_is_best_scoring :
  forall (before rest : list CachedDocument) (d : CachedDocument)
         (query : string) (rag0 : t),
    let docs := before ++ d :: rest in
    let rag := snd (index Math_log (DocArray (map WellFormed docs)) rag0) in
    let scoreOf x := snd (scored rag query (withTfidf (idf rag) (pushed x))) in
    (forall y, In y before -> PrimFloat.ltb 0 (scoreOf d - scoreOf y) = true) ->
    (forall y, In y rest -> PrimFloat.ltb 0 (scoreOf y - scoreOf d) = false) ->
    PrimFloat.ltb 0.1 (scoreOf d) = true ->
    hd_error (sources (ask rag query))
    = Some {| title := doc_title d;
              snippet := substring0 200 (doc_content d) ++ "...";
              score := scoreOf d |}
    /\ topScore (ask rag query) = scoreOf d.
Proof.
  intros before rest d query rag0 docs rag scoreOf Hbefore Hrest Hmin.
  destruct (index_wellFormed docs rag0) as (_ & Hindexed & Hdocs).
  fold rag in Hindexed, Hdocs.
  set (g := fun x => scored rag query (withTfidf (idf rag) (pushed x))).
  assert (Hranked : exists tl, rankedScores rag query = g d :: tl).
  { unfold rankedScores. rewrite Hdocs, map_map.
    change (fun x => scored rag query (withTfidf (idf rag) (pushed x))) with g.
    unfold docs. rewrite map_app. cbn [map].
    apply sortBy_head.
    - intros y Hy. apply in_map_iff in Hy. destruct Hy as (y0 & <- & Hy0).
      apply (Hbefore y0 Hy0).
    - intros y Hy. apply in_map_iff in Hy. destruct Hy as (y0 & <- & Hy0).
      apply (Hrest y0 Hy0). }
  destruct Hranked as [tl Hranked].
  unfold ask. rewrite Hindexed, Hdocs, Hranked. cbn [negb orb].
  unfold docs. rewrite length_map, length_app. cbn [List.length].
  replace (List.length before + S (List.length rest) =? 0)%nat with false
    by (symmetry; apply Nat.eqb_neq; lia).
  cbn [firstn filter].
  change (snd (g d)) with (scoreOf d). rewrite Hmin.
  cbn [sources topScore map hd_error]. split; reflexivity.
Qed.

End RankingFacts.

(** ** The local-storage cache under a quota failure *)

(** What [retrieve] returns from a local-storage cache, by the stored
    item. *)
Lemma retrieve_localStorage env s :
  CacheFields.storage (ClientFields.cache (client s)) = localstorage ->
  Cache.retrieve env s
  = (Ret match LocalStorage.docs (World.storage (world s)) with
         | Some (TextDocs d) => d
         | Some (TextMeta _ _) => NotIterable
         | _ => DocArray []
         end, s).
Proof.
  intros H.
  unfold Cache.retrieve, Cache.retrieveLocalStorage, Cache.fields, bind,
    getClient, getWorld, ret.
  cbn. rewrite H. cbn.
  now destruct (LocalStorage.docs _) as [[] |].
Qed.

(** What [store] does after a rejected write, in the local-storage
    configuration.  Be it the write of the document list or the write of
    the metadata after it, [store] removes the stored list, truncates the
    given list to its first 50 documents, in the order given, and writes
    that list once more.  If this write is accepted, [store] returns
    normally, the stored list is those documents and the document count is
    their number.  The retry is not guarded: if it is rejected too, its
    error leaves [store] and no document list is stored.  In both cases a
    following [retrieve] returns at most 50 documents, a prefix of the
    given list. *)
Lemma store_quota_retry :
  forall (env : Env) (s : Machine) (documents : list JsDoc) (e : Thrown),
    CacheFields.storage (ClientFields.cache (client s)) = localstorage ->
    let n := World.setItemCalls (world s) in
    let listWrite :=
      setItem_throws env n DocsKey (TextDocs (DocArray documents)) in
    let metaWrite :=
      setItem_throws env (S n) MetaKey
        (TextMeta (List.length documents)
                  (Some (IsoDate (Date_now env (World.clockReads (world s)))))) in
    listWrite = Some e \/ (listWrite = None /\ metaWrite = Some e) ->
    let limited := firstn 50 documents in
    let second :=
      setItem_throws env (match listWrite with Some _ => S n | None => S (S n) end)
                     DocsKey (TextDocs (DocArray limited)) in
    let outcome := fst (Cache.store documents env s) in
    let s' := snd (Cache.store documents env s) in
    (second = None ->
       outcome = Ret tt
       /\ LocalStorage.docs (World.storage (world s'))
          = Some (TextDocs (DocArray limited))
       /\ CacheFields.documentCount (ClientFields.cache (client s'))
          = List.length limited)
    /\ (forall e2, second = Some e2 ->
          outcome = Throw e2
          /\ LocalStorage.docs (World.storage (world s')) = None)
    /\ exists kept,
         fst (Cache.retrieve env s') = Ret (DocArray kept)
         /\ (List.length kept <= 50)%nat
         /\ exists k, kept = firstn k documents.
Proof.
  intros env s documents e Hkind n listWrite metaWrite Hrejected limited second
         outcome s'.
  assert (Hrun :
    CacheFields.storage (ClientFields.cache (client s')) = localstorage
    /\ match second with
       | None =>
           outcome = Ret tt
           /\ LocalStorage.docs (World.storage (world s'))
              = Some (TextDocs (DocArray limited))
           /\ CacheFields.documentCount (ClientFields.cache (client s'))
              = List.length limited
       | Some e2 =>
           outcome = Throw e2
           /\ LocalStorage.docs (World.storage (world s')) = None
       end).
  { subst outcome s' second metaWrite listWrite n.
    unfold Cache.store, Cache.storeLocalStorage, Cache.fields, setItem, removeItem,
      modifyCache, dateNow, tryCatch, bind, getClient, getEnv, getWorld,
      modifyWorld, modifyClient, throw, ret.
    cbn -[firstn]. rewrite Hkind. cbn -[firstn].
    destruct Hrejected as [H1 | [H1 H2]]; rewrite H1; cbn -[firstn].
    - fold limited.
      destruct (setItem_throws env (S (World.setItemCalls (world s))) DocsKey
                               (TextDocs (DocArray limited)));
        cbn -[firstn]; auto.
    - rewrite H2. cbn -[firstn]. fold limited.
      destruct (setItem_throws env (S (S (World.setItemCalls (world s)))) DocsKey
                               (TextDocs (DocArray limited)));
        cbn -[firstn]; auto. }
  destruct Hrun as [Hkind' Hrun].
  split; [| split].
  - intros H2. now rewrite H2 in Hrun.
  - intros e2 H2. now rewrite H2 in Hrun.
  - rewrite (retrieve_localStorage env s' Hkind'). cbn [fst].
    destruct second.
    + destruct Hrun as [_ ->].
      exists []. split; [reflexivity |]. split; [cbn; lia | now exists 0%nat].
    + destruct Hrun as (_ & -> & _).
      exists limited. split; [reflexivity |]. split.
      * unfold limited. apply firstn_le_length.
      * now exists 50%nat.
Qed.

(** ** Concrete runs *)

Section ConcreteRuns.
Import Samples.

(** C1: nothing is reachable, one document is cached, and the error
    observer of the host throws.  [ask] throws what the observer threw,
    although the fallback is enabled and could answer. *)
Lemma ask_rejects_witness :
  let s := newClient configLocal storageWithFaq in
  let s1 := snd (Client.checkSystemStatus envOffline s) in
  let s2 := snd (Client.apiWithRetry "What is the return policy?" None envOffline s1) in
  Host.ask Scenarios.errorObserverThrows (Str "What is the return policy?") None
           envOffline s
  = (Throw (JsError "onError failed"), afterError (JsError "Network error") s2).
Proof.
  intros s s1 s2.
  assert (Hcheck : Client.checkSystemStatus envOffline s
                   = (Ret Client.defaultSettings, s1))
    by (vm_compute; reflexivity).
  assert (Hlive : Client.apiWithRetry "What is the return policy?" None envOffline s1
                  = (Throw (JsError "Network error"), s2))
    by (vm_compute; reflexivity).
  exact (@ask_rejects_when_observer_throws Scenarios.errorObserverThrows
           "What is the return policy?" None envOffline s s1 s2
           Client.defaultSettings (JsError "Network error")
           (JsError "onError failed") eq_refl Hcheck eq_refl Hlive eq_refl).
Defined.

(** The same call with a status observer that throws: the error observer
    returns, the fallback path is entered and its [setStatus('offline')],
    which no [try] guards, lets the observer's exception leave [ask]. *)
Example ask_status_observer_throws :
  fst (Host.ask Scenarios.statusObserverThrows (Str "What is the return policy?") None
                envOffline (newClient configLocal storageWithFaq))
  = Throw (JsError "onStatusChange failed").
Proof. vm_compute. reflexivity. Qed.


(** C4, witness: maintenance mode with a server message, and a cache that
    was never synced. *)
Lemma ask_maintenance_witness :
  fst (Client.ask (Str "Hello") None envMaintenance
                  (newClient configLocal LocalStorage.empty))
  = Ret {| Response.reply := "Back in 2 hours!";
           Response.confidence := none;
           Response.sources := [];
           Response.offline := true;
           Response.sessionId := None;
           Response.retryAfter := None;
           Response.degradedReason :=
             Some "Maintenance mode active, no valid cache available" |}.
Proof.
  pose proof
    (@ask_maintenance_without_valid_cache "Hello" None envMaintenance
       (newClient configLocal LocalStorage.empty)
       (snd (Client.checkSystemStatus envMaintenance
               (newClient configLocal LocalStorage.empty)))
       (snd (Client.isCacheValid envMaintenance
               (snd (Client.checkSystemStatus envMaintenance
                       (newClient configLocal LocalStorage.empty)))))
       (Client.settingsOf
          {| StatusResponse.systemSettings :=
               Some {| ReportedSettings.cacheRetentionHours := Some 168%Z;
                       ReportedSettings.maintenanceMode := Some true;
                       ReportedSettings.maintenanceMessage := Some "Back in 2 hours!";
                       ReportedSettings.forceOfflineClients := Some false |} |})
       eq_refl eq_refl eq_refl eq_refl) as [H _].
  rewrite H. reflexivity.
Defined.

(** C4, counterexample: maintenance mode is on and the server gives the
    message 'Back in 2 hours!'.  First, a cache of one document synced a
    bit more than two days ago: it is stale by the cache's own flag, yet
    [ask] runs the fallback search and answers from the document.  Second,
    a cache with a timestamp and no document: [ask] answers with the
    'no cached information' text, not with the server's message. *)
Lemma maintenance_cache_counterexample :
  (exists status answer,
      fst (Cache.getStatus envMaintenance (newClient configLocal storageWithFaq))
      = Ret status
      /\ CacheStatus.isStale status = true
      /\ fst (Client.ask (Str "What is the return policy?") None envMaintenance
                         (newClient configLocal storageWithFaq))
         = Ret answer
      /\ Response.reply answer = "Return policy allows 30 day returns."
      /\ Response.degradedReason answer = Some "Using stale cached data"
      /\ List.length (Response.sources answer) = 1%nat)
  /\ (CacheFields.documentCount
        (ClientFields.cache (client (newClient configLocal storageEmptyButStamped)))
      = 0%nat
      /\ fst (Client.ask (Str "What is the return policy?") None envMaintenance
                         (newClient configLocal storageEmptyButStamped))
         = Ret Client.noCacheResponse
      /\ String.eqb (Response.reply Client.noCacheResponse) "Back in 2 hours!" = false).
Proof.
  split.
  - eexists _, _. repeat split; vm_compute; reflexivity.
  - repeat split; vm_compute; reflexivity.
Qed.

(** C5, witness: the chat call fails twice with a network error and then
    succeeds; and the chat call is answered by 401. *)
Lemma apiWithRetry_attempts_witness :
  (exists s',
      Client.apiWithRetry "Hello" None envFlaky (newClient configLocal LocalStorage.empty)
      = (Ret chatOk, s')
      /\ World.chatCalls (world s') = 3%nat
      /\ World.events (world s')
         = [EvChat "Hello" None; EvSleep 1000; EvChat "Hello" None;
            EvSleep 2000; EvChat "Hello" None])
  /\ (exists s',
         Client.apiWithRetry "Hello" None envUnauthorized
                             (newClient configLocal LocalStorage.empty)
         = (Throw (JsError "HTTP 401: Unauthorized"), s')
         /\ World.chatCalls (world s') = 1%nat
         /\ World.events (world s') = [EvChat "Hello" None]).
Proof.
  split.
  - destruct (apiWithRetry_attempts "Hello" None envFlaky
                (newClient configLocal LocalStorage.empty)) as [H _].
    destruct (H eq_refl (JsError "Network error") (JsError "Network error") chatOk
                eq_refl eq_refl eq_refl eq_refl eq_refl) as (s' & H1 & H2 & H3 & _).
    exists s'. auto.
  - destruct (apiWithRetry_attempts "Hello" None envUnauthorized
                (newClient configLocal LocalStorage.empty)) as [_ H].
    destruct (H ltac:(vm_compute; discriminate) (JsError "HTTP 401: Unauthorized")
                eq_refl eq_refl) as (s' & H1 & H2 & H3 & _).
    exists s'. auto.
Defined.

(** C6, witness: in the corpus [A; B] the document B outscores A for the
    query 'Apple!' and is the top-ranked source. *)
Lemma ask_top_source_witness :
  let rag := snd (LocalRAG.index Math_log_at_one
                    (DocArray [WellFormed docA; WellFormed docB]) LocalRAG.create) in
  hd_error (LocalRAG.sources (LocalRAG.ask rag "Apple!"))
  = Some {| LocalRAG.title := "B";
            LocalRAG.snippet := "apple banana...";
            LocalRAG.score :=
              snd (LocalRAG.scored rag "Apple!"
                     (LocalRAG.withTfidf (LocalRAG.idf rag) (LocalRAG.pushed docB))) |}
  /\ LocalRAG.topScore (LocalRAG.ask rag "Apple!")
     = snd (LocalRAG.scored rag "Apple!"
              (LocalRAG.withTfidf (LocalRAG.idf rag) (LocalRAG.pushed docB))).
Proof.
  apply (@ask_top_source_is_best_scoring Math_log_at_one [docA] [] docB "Apple!"
           LocalRAG.create).
  - intros y [<- | []]. vm_compute. reflexivity.
  - intros y [].
  - vm_compute. reflexivity.
Defined.

(** C6, counterexample.  The query 'on the' is drawn verbatim from the
    content of the only document, yet whatever [Math.log] is, no source is
    returned: every token of the query is a stop word.  The query 'Apple!'
    is drawn verbatim from the content of A and occurs nowhere in B, yet
    for every [Math.log] with [Math.log(1) = 0] the top-ranked source is
    B. *)
Lemma verbatim_query_counterexample :
  (includes (doc_content catDoc) "on the" = true
   /\ forall Math_log,
        LocalRAG.sources
          (LocalRAG.ask
             (snd (LocalRAG.index Math_log (DocArray [WellFormed catDoc])
                                  LocalRAG.create))
             "on the")
        = [])
  /\ (includes (doc_content docA) "Apple!" = true
      /\ includes (doc_content docB) "Apple!" = false
      /\ forall Math_log,
           Math_log 1%float = 0%float ->
           map LocalRAG.title
             (LocalRAG.sources
                (LocalRAG.ask
                   (snd (LocalRAG.index Math_log
                           (DocArray [WellFormed docA; WellFormed docB])
                           LocalRAG.create))
                   "Apple!"))
           = ["B"; "A"]).
Proof.
  split; [split | split; [| split]].
  - vm_compute. reflexivity.
  - intros Math_log. vm_compute. reflexivity.
  - vm_compute. reflexivity.
  - vm_compute. reflexivity.
  - intros Math_log H1.
    assert (E : snd (LocalRAG.index Math_log
                       (DocArray [WellFormed docA; WellFormed docB]) LocalRAG.create)
                = snd (LocalRAG.index Math_log_at_one
                         (DocArray [WellFormed docA; WellFormed docB]) LocalRAG.create)).
    { vm_compute. rewrite H1. vm_compute. reflexivity. }
    rewrite E. vm_compute. reflexivity.
Qed.

(** The first write is rejected, the second is accepted: the first
    fifty documents given are kept, and the most recent document, given
    last, is dropped. *)
Example store_keeps_first_fifty :
  let s' := snd (Cache.store fiftyOneDocs envQuotaOnce
                   (newClient configLocal LocalStorage.empty)) in
  fst (Cache.store fiftyOneDocs envQuotaOnce (newClient configLocal LocalStorage.empty))
  = Ret tt
  /\ LocalStorage.docs (World.storage (world s'))
     = Some (TextDocs (DocArray (firstn 50 fiftyOneDocs)))
  /\ CacheFields.documentCount (ClientFields.cache (client s'))
     = List.length (firstn 50 fiftyOneDocs)
  /\ fst (Cache.retrieve envQuotaOnce s') = Ret (DocArray fiftyOld)
  /\ existsb isNewest fiftyOneDocs = true
  /\ existsb isNewest fiftyOld = false.
Proof.
  intros s'.
  destruct (@store_quota_retry envQuotaOnce
              (newClient configLocal LocalStorage.empty) fiftyOneDocs
              QuotaExceededError eq_refl (or_introl eq_refl)) as [H _].
  destruct (H eq_refl) as (H1 & H2 & H3).
  split; [exact H1 |]. split; [exact H2 |]. split; [exact H3 |].
  repeat split; vm_compute; reflexivity.
Qed.

(** C8. [store] does let a storage error through.  The hundred documents
    of the repository's test are stored in a local storage that is full:
    the first write is rejected, the retry with the first fifty documents
    inside the [catch] block is rejected as well, and since nothing guards
    it the error of the retry leaves [store].  No document list is stored
    and the count and the sync time of the cache are as before. *)
Theorem store_throws_when_storage_is_full :
  let s := newClient configLocal LocalStorage.empty in
  let s' := snd (Cache.store hundredDocs envQuotaAlways s) in
  fst (Cache.store hundredDocs envQuotaAlways s) = Throw QuotaExceededError
  /\ LocalStorage.docs (World.storage (world s')) = None
  /\ ClientFields.cache (client s') = ClientFields.cache (client s)
  /\ World.setItemCalls (world s') = 2%nat.
Proof. repeat split; vm_compute; reflexivity. Qed.

(** C9, witness: a client with one cached document and an indexed engine
    clears its cache. *)
Lemma clearCache_then_fallback_witness :
  LocalRAG.isIndexed (ClientFields.localRAG (client afterOfflineAnswer)) = true
  /\ LocalRAG.isIndexed
       (ClientFields.localRAG
          (client (snd (Client.clearCache envOffline afterOfflineAnswer))))
     = false
  /\ (forall (between : list Request) (message : string),
         fst (Client.fallbackAsk message envOffline
                (performAll between envOffline
                   (snd (Client.clearCache envOffline afterOfflineAnswer))))
         = Ret Client.noCacheResponse).
Proof.
  split; [vm_compute; reflexivity |].
  destruct (@clearCache_then_fallback envOffline afterOfflineAnswer
              (snd (Client.clearCache envOffline afterOfflineAnswer)) eq_refl)
    as (_ & H1 & H2).
  exact (conj H1 H2).
Defined.

(** The failure paths of [ask], one run each. *)

Example ask_invalid_input :
  fst (Client.ask NotAString None envOffline (newClient configLocal LocalStorage.empty))
  = Ret (Client.createErrorResponse "Message is required" none None).
Proof. reflexivity. Qed.

Example ask_offline_without_cache :
  fst (Client.ask (Str "Hello") None envOffline (newClient configLocal LocalStorage.empty))
  = Ret Client.noCacheResponse.
Proof. vm_compute. reflexivity. Qed.

(** The database is not available: the retrieval fails. *)
Example ask_retrieval_failure :
  let s := newClient Config.default LocalStorage.empty in
  fst (Client.ask (Str "Hello") None envOffline
         {| client := ClientFields.setCache
                        (CacheFields.setDocumentCount 3
                           (ClientFields.cache (client s))) (client s);
            world := world s |})
  = Ret Client.localFailureResponse.
Proof. vm_compute. reflexivity. Qed.

(** A stored element without content: the indexing fails. *)
Example ask_local_search_failure :
  fst (Client.ask (Str "Hello") None envOffline
         (newClient configLocal
            {| LocalStorage.docs := Some (TextDocs (DocArray [Malformed (Some "1")]));
               LocalStorage.meta := Some (TextMeta 1 (Some (IsoDate 0))) |}))
  = Ret Client.localFailureResponse.
Proof. vm_compute. reflexivity. Qed.

Example ask_without_fallback :
  option_map Response.reply
    (match fst (Client.ask (Str "Hello")
                  (Some {| AskOptions.sessionId := None; AskOptions.context := None;
                           AskOptions.skipFallback := Some true |})
                  envOffline (newClient configLocal storageWithFaq)) with
     | Ret a => Some a
     | Throw _ => None
     end)
  = Some "Unable to connect to the chatbot service. Please try again later.".
Proof. vm_compute. reflexivity. Qed.

(** The three confidence levels of the fallback path: a good match, a weak
    match (top score 0.2) and no document at all. *)
Example fallback_confidence_levels :
  option_map Response.confidence
    (match fst (Client.fallbackAsk "What is the return policy?" envOffline
                  (newClient configLocal storageWithFaq)) with
     | Ret a => Some a | Throw _ => None end) = Some medium
  /\ option_map Response.confidence
       (match fst (Client.fallbackAsk "policy yesterday tomorrow afternoon evening"
                     envOffline (newClient configLocal storageWithFaq)) with
        | Ret a => Some a | Throw _ => None end) = Some low
  /\ option_map Response.confidence
       (match fst (Client.fallbackAsk "What is the return policy?" envOffline
                     (newClient configLocal LocalStorage.empty)) with
        | Ret a => Some a | Throw _ => None end) = Some none.
Proof. repeat split; vm_compute; reflexivity. Qed.

(** The scenario of the specification: one document, 'Return Policy'. *)
Example return_policy_scenario :
  LocalRAG.answer
    (LocalRAG.ask
       (snd (LocalRAG.index Math_log_at_one
               (DocArray [WellFormed
                            {| doc_id := "1"; doc_title := "Return Policy";
                               doc_content := "Our return policy allows returns within 30 days of purchase.";
                               doc_updatedAt := "2024-01-01" |}])
               LocalRAG.create))
       "How many days for returns?")
  = "Our return policy allows returns within 30 days of purchase.".
Proof. vm_compute. reflexivity. Qed.

End ConcreteRuns.

(* ================================================================== *)
(** * Part IV: further properties *)
(* ================================================================== *)

(** ** The settings check *)

(** X1. Settings fetched less than five minutes ago are returned as they are:
    the clock is read once, no status request is made and the client is
    not changed. *)
Theorem checkSystemStatus_uses_fresh_settings :
  forall (env : Env) (s : Machine) (cached : SystemSettings.t),
    ClientFields.systemSettings (client s) = Some cached ->
    (Date_now env (World.clockReads (world s))
     - ClientFields.settingsLastChecked (client s)
     < Client.SETTINGS_CHECK_INTERVAL)%Z ->
    Client.checkSystemStatus env s
    = (Ret cached, {| client := client s; world := World.tickClock (world s) |}).
Proof.
  intros env s cached Hset Hfresh.
  apply Z.ltb_lt in Hfresh.
  unfold Client.checkSystemStatus, dateNow, bind, getClient, getEnv, getWorld,
    modifyWorld, ret.
  rewrite Hset. cbn. now rewrite Hfresh.
Qed.

(** X2. When there are no settings yet, or the last successful check is five
    minutes old or more, the status endpoint is asked once.  If it
    answers, the settings of the answer (with the defaults for the absent
    fields) are stored, stamped with the time and returned.  If the
    request fails, the settings held so far are returned, or the defaults
    (no maintenance) when there are none, and the client is unchanged: the
    failure is not remembered, so the next check asks again. *)
Theorem checkSystemStatus_fetch :
  forall (env : Env) (s : Machine),
    (forall cached,
        ClientFields.systemSettings (client s) = Some cached ->
        (Client.SETTINGS_CHECK_INTERVAL
         <= Date_now env (World.clockReads (world s))
            - ClientFields.settingsLastChecked (client s))%Z) ->
    let w := afterStatusRequest s in
    match api_getStatus env (World.statusCalls (world s)) with
    | Throw _ =>
        Client.checkSystemStatus env s
        = (Ret match ClientFields.systemSettings (client s) with
               | Some cached => cached
               | None => Client.defaultSettings
               end,
           {| client := client s; world := w |})
    | Ret status =>
        Client.checkSystemStatus env s
        = (Ret (Client.settingsOf status),
           {| client :=
                ClientFields.setSettingsLastChecked
                  (Date_now env (World.clockReads w))
                  (ClientFields.setSystemSettings
                     (Some (Client.settingsOf status)) (client s));
              world := World.tickClock w |})
    end.
Proof.
  intros env s Hold w. subst w. unfold afterStatusRequest.
  unfold Client.checkSystemStatus, Client.apiGetStatus, Client.liftOutcome,
    dateNow, tryCatch, bind, getClient, getEnv, getWorld, modifyWorld,
    modifyClient, emit, ret, throw.
  destruct (ClientFields.systemSettings (client s)) as [cached |] eqn:Hset; cbn.
  - specialize (Hold cached eq_refl).
    replace (_ <? _)%Z with false by (symmetry; apply Z.ltb_ge; exact Hold).
    cbn. destruct (api_getStatus _ _); cbn; [reflexivity |].
    now rewrite Hset.
  - destruct (api_getStatus _ _); cbn; [reflexivity |].
    now rewrite Hset.
Qed.

(** ** The retry loop *)

Lemma events_afterChat message sid s :
  World.events (world (afterChat message sid s))
  = World.events (world s) ++ [EvChat message sid].
Proof. reflexivity. Qed.

(** A loop whose attempts all fail with retryable errors. *)
Lemma retryLoop_exhausts message options cfg env :
  forall (remaining : nat) (errors : nat -> Thrown) (attempt : Z)
         (lastError : Thrown) (s : Machine),
    (forall k, (k < remaining)%nat ->
       api_chat env (World.chatCalls (world s) + k) message
                (Client.sessionIdOf options) = Throw (errors k)
       /\ Client.noRetry (CyberneticError.code (Client.normalizeError (errors k)))
          = false) ->
    exists s',
      Client.retryLoop message options cfg remaining attempt lastError env s
      = (Throw (match remaining with
                | O => lastError
                | S n => errors n
                end), s')
      /\ client s' = client s
      /\ World.chatCalls (world s') = (World.chatCalls (world s) + remaining)%nat
      /\ World.events (world s')
         = World.events (world s)
           ++ failingAttempts message (Client.sessionIdOf options) cfg
                              remaining attempt.
Proof.
  induction remaining as [| n IH]; intros errors attempt lastError s Hfail.
  - exists s. cbn. rewrite app_nil_r. repeat split. lia.
  - destruct (Hfail 0%nat ltac:(lia)) as [H0 Hc0]. rewrite Nat.add_0_r in H0.
    set (s1 := afterChat message (Client.sessionIdOf options) s).
    set (s2 := if (attempt <? Config.maxRetries cfg)%Z
               then afterSleep (retryDelay cfg attempt) s1 else s1).
    assert (Hstep :
      Client.retryLoop message options cfg (S n) attempt lastError env s
      = Client.retryLoop message options cfg n (attempt + 1) (errors 0%nat) env s2).
    { cbn [Client.retryLoop]. unfold tryCatch.
      rewrite apiChat_run, H0, Hc0. unfold bind, s2, s1.
      destruct (attempt <? Config.maxRetries cfg)%Z; reflexivity. }
    assert (Hcalls : World.chatCalls (world s2) = S (World.chatCalls (world s))).
    { unfold s2, s1. now destruct (_ <? _)%Z. }
    assert (Hclient : client s2 = client s).
    { unfold s2, s1. now destruct (_ <? _)%Z. }
    assert (Hevents :
      World.events (world s2)
      = World.events (world s)
        ++ EvChat message (Client.sessionIdOf options)
           :: (if (attempt <? Config.maxRetries cfg)%Z
               then [EvSleep (retryDelay cfg attempt)] else [])).
    { unfold s2, s1. destruct (_ <? _)%Z; cbn; [| reflexivity].
      now rewrite <- app_assoc. }
    destruct (IH (fun k => errors (S k)) (attempt + 1)%Z (errors 0%nat) s2)
      as (s' & Hrun & Hcl & Hn & Hev).
    { intros k Hk. rewrite Hcalls.
      replace (S (World.chatCalls (world s)) + k)%nat
        with (World.chatCalls (world s) + S k)%nat by lia.
      apply Hfail. lia. }
    exists s'. rewrite Hstep, Hrun. split; [| split; [| split]].
    + now destruct n.
    + congruence.
    + lia.
    + rewrite Hev, Hevents. cbn [failingAttempts].
      rewrite <- app_assoc. reflexivity.
Qed.

(** The trace of a loop that runs out, counted. *)
Lemma failingAttempts_shape message sid cfg :
  forall (remaining : nat) (attempt : Z),
    (attempt + Z.of_nat remaining = Config.maxRetries cfg + 1)%Z ->
    countChats (failingAttempts message sid cfg remaining attempt) = remaining
    /\ sleepsOf (failingAttempts message sid cfg remaining attempt)
       = map (fun k => retryDelay cfg (attempt + Z.of_nat k))
             (seq 0 (pred remaining)).
Proof.
  unfold countChats, sleepsOf.
  induction remaining as [| r IH]; intros attempt Hsum; cbn [failingAttempts].
  - split; reflexivity.
  - destruct (IH (attempt + 1)%Z ltac:(lia)) as [Hc Hs].
    cbn [filter List.length flat_map pred].
    rewrite filter_app, length_app, flat_map_app, Hc, Hs.
    destruct r as [| r'].
    + replace (attempt <? Config.maxRetries cfg)%Z with false
        by (symmetry; apply Z.ltb_ge; lia).
      split; reflexivity.
    + replace (attempt <? Config.maxRetries cfg)%Z with true
        by (symmetry; apply Z.ltb_lt; lia).
      cbn [filter List.length flat_map app pred seq map]. split; [reflexivity |].
      rewrite Z.add_0_r. f_equal.
      rewrite <- seq_shift, map_map.
      apply map_ext. intros k. f_equal. lia.
Qed.

(** X3. When every attempt fails with an error that is neither AUTH_ERROR nor
    RATE_LIMIT, [apiWithRetry] makes [maxRetries + 1] chat calls, sleeps
    between two attempts for [initialDelay] times 2 to the number of the
    failed attempt (for [initialDelay] without exponential backoff), does
    not sleep after the last attempt, and throws the error of the last
    attempt; the client object is unchanged. *)
Theorem apiWithRetry_exhausts :
  forall (message : string) (options : option AskOptions.t) (env : Env)
         (s : Machine) (errors : nat -> Thrown),
    let cfg := Config.retry (ClientFields.config (client s)) in
    let sid := Client.sessionIdOf options in
    let retries := Z.to_nat (Config.maxRetries cfg) in
    (0 <= Config.maxRetries cfg)%Z ->
    (forall k, (k <= retries)%nat ->
       api_chat env (World.chatCalls (world s) + k) message sid = Throw (errors k)
       /\ Client.noRetry (CyberneticError.code (Client.normalizeError (errors k)))
          = false) ->
    exists s',
      Client.apiWithRetry message options env s = (Throw (errors retries), s')
      /\ client s' = client s
      /\ World.chatCalls (world s') = (World.chatCalls (world s) + retries + 1)%nat
      /\ World.events (world s')
         = World.events (world s) ++ failingAttempts message sid cfg (S retries) 0
      /\ countChats (failingAttempts message sid cfg (S retries) 0) = S retries
      /\ sleepsOf (failingAttempts message sid cfg (S retries) 0)
         = map (fun k => retryDelay cfg (Z.of_nat k)) (seq 0 retries).
Proof.
  intros message options env s errors cfg sid retries Hmax Hfail.
  destruct (@retryLoop_exhausts message options cfg env (S retries) errors 0%Z
              NotAnError s) as (s' & Hrun & Hcl & Hn & Hev).
  { intros k Hk. apply Hfail. lia. }
  exists s'.
  destruct (failingAttempts_shape message sid cfg (S retries) 0%Z) as [Hc Hs].
  { unfold retries. lia. }
  repeat split; try assumption.
  - unfold Client.apiWithRetry, bind, getClient. fold cfg.
    replace (Z.to_nat (Config.maxRetries cfg + 1)) with (S retries)
      by (unfold retries; lia).
    exact Hrun.
  - rewrite Hn. lia.
Qed.

(** X4. With [maxRetries] below zero the loop body never runs: no chat call
    is made and the initial [lastError], [null], is thrown. *)
Theorem apiWithRetry_no_attempt :
  forall (message : string) (options : option AskOptions.t) (env : Env)
         (s : Machine),
    (Config.maxRetries (Config.retry (ClientFields.config (client s))) < 0)%Z ->
    Client.apiWithRetry message options env s = (Throw NotAnError, s)
    /\ CyberneticError.code (Client.normalizeError NotAnError) = NETWORK_ERROR.
Proof.
  intros message options env s Hneg.
  unfold Client.apiWithRetry, bind, getClient.
  replace (Z.to_nat _) with 0%nat by lia.
  split; reflexivity.
Qed.

(** ** Frames by unfolding *)

(** Runs the primitive steps of a computation on a symbolic machine. *)
Ltac run_steps :=
  unfold Client.fallbackAsk, Client.checkSystemStatus, Client.isCacheValid,
    Client.isMaintenanceMode, Client.getStatus, Client.checkConnection,
    Client.setStatus, Client.ragIndex, Client.apiChat, Client.apiGetStatus,
    Client.apiGetGeneralDocs, Client.liftOutcome,
    Cache.store, Cache.storeLocalStorage, Cache.retrieve,
    Cache.retrieveLocalStorage, Cache.clear, Cache.getStatus, Cache.getLastSync,
    Cache.getDB, Cache.fields,
    setItem, removeItem, idbRequest, modifyDatabase, modifyCache, sleep, emit,
    dateNow, tryCatch, bind, getEnv, getClient, getWorld, modifyClient,
    modifyWorld, throw, ret;
  cbn -[firstn LocalRAG.index LocalRAG.ask LocalRAG.isIndexed].

Ltac split_cases :=
  repeat (match goal with
          | |- context [match ?x with _ => _ end] =>
              lazymatch x with
              | context [match _ with _ => _ end] => fail
              | _ => destruct x eqn:?; cbn -[firstn LocalRAG.index LocalRAG.ask LocalRAG.isIndexed] in *
              end
          end).

Ltac same_view :=
  first
    [ reflexivity
    | unfold errorView, statusView, errorsNotified, statusTrail; cbn;
      rewrite ?flat_map_app; cbn; rewrite ?app_nil_r; reflexivity ].

Ltac by_running := intros ? ?; run_steps; split_cases; same_view.

Lemma fallbackAsk_networkView message :
  preserves networkView (Client.fallbackAsk message).
Proof. by_running. Qed.

Lemma fallbackAsk_errorView message :
  preserves errorView (Client.fallbackAsk message).
Proof. by_running. Qed.

Ltac view_step :=
  match goal with
  | |- preserves _ (bind _ _) => apply preserves_bind; [| intros ?]
  | |- preserves _ (tryCatch _ _) => apply preserves_tryCatch; [| intros ?]
  | |- preserves _ (if ?b then _ else _) => destruct b
  | |- preserves _ (match ?x with _ => _ end) => destruct x
  | |- preserves _ _ => solve [by_running]
  end.

(** The retry loop keeps what a chat call and a sleep keep. *)
Lemma retryLoop_preserves {X : Type} (view : Machine -> X)
      message options cfg remaining :
  (forall sid, preserves view (Client.apiChat message sid)) ->
  (forall ms, preserves view (sleep ms)) ->
  forall attempt lastError,
    preserves view
      (Client.retryLoop message options cfg remaining attempt lastError).
Proof.
  intros Hchat Hsleep.
  induction remaining as [| r IH]; intros attempt lastError; cbn [Client.retryLoop].
  - apply preserves_throw.
  - apply preserves_tryCatch; [apply Hchat | intros e].
    destruct (Client.noRetry _); [apply preserves_throw |].
    apply preserves_bind; [| intros _; apply IH].
    destruct (_ <? _)%Z; [apply Hsleep | apply preserves_ret].
Qed.

Lemma apiWithRetry_preserves {X : Type} (view : Machine -> X) message options :
  (forall sid, preserves view (Client.apiChat message sid)) ->
  (forall ms, preserves view (sleep ms)) ->
  preserves view (Client.apiWithRetry message options).
Proof.
  intros Hchat Hsleep. unfold Client.apiWithRetry.
  apply preserves_bind; [now intros env s | intros c].
  now apply retryLoop_preserves.
Qed.

(** The retry loop works on the world only. *)
Lemma apiWithRetry_client message options :
  preserves client (Client.apiWithRetry message options).
Proof. apply apiWithRetry_preserves; intros; by_running. Qed.

Lemma checkSystemStatus_errorView : preserves errorView Client.checkSystemStatus.
Proof. by_running. Qed.

Lemma checkSystemStatus_statusView : preserves statusView Client.checkSystemStatus.
Proof. by_running. Qed.

(** ** The answers of [ask] *)

Lemma normalizeError_retryAfter (e : Thrown) :
  ErrorCode_eqb (CyberneticError.code (Client.normalizeError e)) RATE_LIMIT = false ->
  CyberneticError.retryAfter (Client.normalizeError e) = None.
Proof.
  destruct e as [text |]; cbn; [| reflexivity].
  repeat (match goal with
          | |- context [if ?b then _ else _] => destruct b; cbn
          end); congruence.
Qed.

(** X5. What the [catch] block of [ask] does after a failed live call whose
    error is not a rate limit: the classified error is recorded and handed
    to the error observer; then, when the fallback is enabled and not
    skipped, the answer is the one of [fallbackAsk], and otherwise it is
    the fixed 'unable to connect' answer, which is not marked offline and
    carries no retry-after hint. *)
Theorem ask_failure_dispatch :
  forall (msg : string) (options : option AskOptions.t) (env : Env)
         (s s1 s2 : Machine) (settings : SystemSettings.t) (e : Thrown),
    isEmpty msg = false ->
    Client.checkSystemStatus env s = (Ret settings, s1) ->
    SystemSettings.maintenanceMode settings
      || SystemSettings.forceOfflineClients settings = false ->
    Client.apiWithRetry msg options env s1 = (Throw e, s2) ->
    ErrorCode_eqb (CyberneticError.code (Client.normalizeError e)) RATE_LIMIT
      = false ->
    let fallback :=
      Config.enabled (Config.fallback (ClientFields.config (client s)))
      && negb (Client.skipsFallback options) in
    (fallback = true ->
     Client.ask (Str msg) options env s
     = Client.fallbackAsk msg env (afterError e s2))
    /\ (fallback = false ->
        Client.ask (Str msg) options env s
        = (Ret {| Response.reply := "Unable to connect to the chatbot service. Please try again later.";
                  Response.confidence := none;
                  Response.sources := [];
                  Response.offline := false;
                  Response.sessionId := None;
                  Response.retryAfter := None;
                  Response.degradedReason := None |},
           afterError e s2)).
Proof.
  intros msg options env s s1 s2 settings e Hmsg Hset Hflags Hlive Hcode fallback.
  destruct msg as [| c rest]; [discriminate |].
  assert (Hcfg : ClientFields.config (client s2) = ClientFields.config (client s)).
  { pose proof (apiWithRetry_client (String c rest) options env s1) as K2.
    rewrite Hlive in K2. cbn [snd] in K2. rewrite K2.
    assert (K1 : preserves (fun m => ClientFields.config (client m))
                           Client.checkSystemStatus) by by_running.
    specialize (K1 env s). now rewrite Hset in K1. }
  assert (Hrun :
    Client.ask (Str (String c rest)) options env s
    = (if fallback
       then Client.fallbackAsk (String c rest) env (afterError e s2)
       else (Ret (Client.createErrorResponse
                    "Unable to connect to the chatbot service. Please try again later."
                    none None),
             afterError e s2))).
  { unfold Client.ask, bind. rewrite Hset, Hflags.
    unfold tryCatch, bind. rewrite Hlive.
    unfold Client.askFailed, bind, modifyClient, emit, modifyWorld, getClient.
    cbn [fst snd]. rewrite Hcode.
    cbn [client ClientFields.setLastError ClientFields.config]. rewrite Hcfg.
    fold fallback. destruct fallback; [reflexivity |].
    unfold ret. now rewrite (normalizeError_retryAfter e Hcode). }
  split; intros Hf; rewrite Hrun, Hf; reflexivity.
Qed.

Lemma ConnectionStatus_eqb_eq (a b : ConnectionStatus) :
  ConnectionStatus_eqb a b = true <-> a = b.
Proof. destruct a, b; cbn; split; congruence. Qed.

(** [setStatus] by the status before: the observer is told when, and only
    when, the value changes. *)
Lemma setStatus_run (st : ConnectionStatus) env s :
  exists s',
    Client.setStatus st env s = (Ret tt, s')
    /\ ClientFields.status (client s') = st
    /\ World.events (world s')
       = World.events (world s)
         ++ (if ConnectionStatus_eqb (ClientFields.status (client s)) st
             then [] else [EvStatusChange st])
    /\ cacheView s' = cacheView s
    /\ networkView s' = networkView s
    /\ errorView s' = errorView s
    /\ engineView s' = engineView s
    /\ settingsView s' = settingsView s
    /\ ClientFields.config (client s') = ClientFields.config (client s).
Proof.
  unfold Client.setStatus, bind, getClient, modifyClient, emit, modifyWorld, ret.
  destruct (ConnectionStatus_eqb _ _) eqn:E; cbn; eexists; (split; [reflexivity |]).
  - apply ConnectionStatus_eqb_eq in E. rewrite app_nil_r. now repeat split.
  - repeat split. unfold errorView, errorsNotified. cbn.
    now rewrite flat_map_app, app_nil_r.
Qed.

(** X6. The fallback path never contacts the server.  It first sets the
    status to offline, telling the status observer when the status was
    another one.  When the client was offline already or the observer
    returns, [fallbackAsk] returns an answer: the answer is marked
    offline and carries no session, the client is left offline, no call
    is made to any endpoint of the transport, and neither the last error
    nor the error observer is touched; the status observer has been told
    'offline' once if the status was another one, and not at all
    otherwise.  When the status was another one and the observer throws,
    [fallbackAsk] throws what the observer threw, before the cache is
    read: the status is offline and nothing else has changed. *)
Theorem fallbackAsk_is_offline :
  forall (callbacks : Host.Callbacks) (message : string) (env : Env) (s : Machine),
    let wasOffline := ConnectionStatus_eqb (ClientFields.status (client s)) offline in
    let observer := callbacks (World.events (world s)) (EvStatusChange offline) in
    (wasOffline = true \/ observer = None ->
     exists (answer : Response.t) (s' : Machine),
       Host.fallbackAsk callbacks message env s = (Ret answer, s')
       /\ Response.offline answer = true
       /\ Response.sessionId answer = None
       /\ ClientFields.status (client s') = offline
       /\ statusTrail (World.events (world s'))
          = statusTrail (World.events (world s))
            ++ (if wasOffline then [] else [offline])
       /\ networkView s' = networkView s
       /\ errorView s' = errorView s)
    /\ (forall x : Thrown,
          wasOffline = false ->
          observer = Some x ->
          Host.fallbackAsk callbacks message env s
          = (Throw x,
             {| client := ClientFields.setStatusField offline (client s);
                world := World.addEvent (EvStatusChange offline) (world s) |})).
Proof.
  intros callbacks message env s wasOffline observer.
  split; [| intros x Hst Hx; now apply host_fallbackAsk_throwing].
  intros Hreturns. rewrite (@host_fallbackAsk_returning callbacks message env s Hreturns).
  destruct (fallbackAsk_answers message env s) as (answer & s' & Hrun & Hshape).
  exists answer, s'. split; [exact Hrun |].
  split; [| split].
  - destruct Hshape as [-> | [-> | [st ->]]]; reflexivity.
  - destruct Hshape as [-> | [-> | [st ->]]]; reflexivity.
  - pose proof (fallbackAsk_networkView message env s) as Hnet.
    pose proof (fallbackAsk_errorView message env s) as Herr.
    rewrite Hrun in Hnet, Herr. cbn [snd] in Hnet, Herr.
    assert (Hstatus : statusView s'
                      = (offline,
                         statusTrail (World.events (world s))
                         ++ (if ConnectionStatus_eqb (ClientFields.status (client s))
                                                     offline
                             then [] else [offline]))).
    { replace s' with (snd (Client.fallbackAsk message env s)) by now rewrite Hrun.
      clear. run_steps.
      destruct (ConnectionStatus_eqb (ClientFields.status (client s)) offline) eqn:E;
        cbn; split_cases; unfold statusView, statusTrail; cbn;
        rewrite ?flat_map_app; cbn; rewrite ?app_nil_r;
        try reflexivity;
        apply ConnectionStatus_eqb_eq in E; now rewrite E. }
    unfold statusView in Hstatus. injection Hstatus as H1 H2. auto.
Qed.

(** X7. An engine that is indexed is not indexed again by the fallback path:
    the engine is left as it is and, unless the document count is 0 or
    the retrieval fails, the answer is the one the engine gives as it
    stands, whatever the cache holds by now. *)
Theorem fallbackAsk_reuses_index :
  forall (message : string) (env : Env) (s : Machine),
    LocalRAG.isIndexed (ClientFields.localRAG (client s)) = true ->
    exists (answer : Response.t) (s' : Machine),
      Client.fallbackAsk message env s = (Ret answer, s')
      /\ ClientFields.localRAG (client s') = ClientFields.localRAG (client s)
      /\ (answer = Client.noCacheResponse
          \/ answer = Client.localFailureResponse
          \/ exists isStale,
               answer = Client.localResponse
                          (LocalRAG.ask (ClientFields.localRAG (client s)) message)
                          isStale).
Proof.
  intros message env s Hindexed.
  destruct (fallbackAsk_answers message env s) as (answer & s' & Hrun & Hshape).
  assert (Hengine : ClientFields.localRAG (client s')
                    = ClientFields.localRAG (client s)).
  { replace s' with (snd (Client.fallbackAsk message env s)) by now rewrite Hrun.
    clear Hrun Hshape. run_steps.
    destruct (negb (ConnectionStatus_eqb _ _)); cbn -[LocalRAG.isIndexed];
      rewrite ?Hindexed; cbn; split_cases;
      first [reflexivity | rewrite Hindexed in *; discriminate]. }
  exists answer, s'. split; [exact Hrun |]. split; [exact Hengine |].
  now rewrite <- Hengine.
Qed.

Lemma apiWithRetry_errorView message options :
  preserves errorView (Client.apiWithRetry message options).
Proof. apply apiWithRetry_preserves; intros; by_running. Qed.


(** X9. Confidence high is the mark of a live answer.  [ask] gives it only to
    a reply of the server: such an answer is not offline, carries neither
    a degradation reason nor a retry-after hint, and the client is online
    afterwards.  Conversely an answer marked offline has confidence
    medium, low or none. *)
Theorem ask_high_confidence_is_live :
  forall (message : MessageArg) (options : option AskOptions.t)
         (env : Env) (s : Machine),
  exists (answer : Response.t) (s' : Machine),
    Client.ask message options env s = (Ret answer, s')
    /\ (Response.confidence answer = high ->
        Response.offline answer = false
        /\ Response.degradedReason answer = None
        /\ Response.retryAfter answer = None
        /\ ClientFields.status (client s') = online)
    /\ (Response.offline answer = true ->
        Response.confidence answer = medium
        \/ Response.confidence answer = low
        \/ Response.confidence answer = none).
Proof.
  intros message options env s.
  assert (Hfallback : forall msg env0 s0,
    exists answer s',
      Client.fallbackAsk msg env0 s0 = (Ret answer, s')
      /\ (Response.confidence answer = medium
          \/ Response.confidence answer = low
          \/ Response.confidence answer = none)).
  { intros msg env0 s0.
    destruct (fallbackAsk_answers msg env0 s0) as (a & s' & Hrun & Hshape).
    exists a, s'. split; [exact Hrun |].
    destruct Hshape as [-> | [-> | [st ->]]]; cbn; auto.
    rewrite confidenceOf_cases. destruct (PrimFloat.ltb _ _); auto. }
  assert (Hnothigh : forall a : Response.t,
    (Response.confidence a = medium \/ Response.confidence a = low
     \/ Response.confidence a = none) ->
    (Response.confidence a = high ->
     Response.offline a = false /\ Response.degradedReason a = None
     /\ Response.retryAfter a = None
     /\ ClientFields.status (client s) = online)).
  { intros a [H | [H | H]] Hh; congruence. }
  assert (Hnot : forall (a : Response.t) (s' : Machine),
    (Response.confidence a = medium \/ Response.confidence a = low
     \/ Response.confidence a = none) ->
    (Response.confidence a = high ->
     Response.offline a = false /\ Response.degradedReason a = None
     /\ Response.retryAfter a = None
     /\ ClientFields.status (client s') = online)
    /\ (Response.offline a = true ->
        Response.confidence a = medium \/ Response.confidence a = low
        \/ Response.confidence a = none)).
  { intros a s' H. split; [| auto]. destruct H as [H | [H | H]]; congruence. }
  clear Hnothigh.
  unfold Client.ask.
  destruct message as [msg |].
  2: { eexists _, _. split; [reflexivity |]. apply Hnot. cbn. auto. }
  destruct msg as [| c rest].
  { eexists _, _. split; [reflexivity |]. apply Hnot. cbn. auto. }
  unfold bind.
  destruct (returns_checkSystemStatus env s) as (settings & s1 & ->).
  destruct (_ || _).
  - destruct (returns_isCacheValid env s1) as (valid & s2 & ->).
    destruct valid; cbn [negb].
    + destruct (Hfallback (String c rest) env s2) as (a & s' & -> & Hc).
      exists a, s'. split; [reflexivity |]. now apply Hnot.
    + eexists _, _. split; [reflexivity |]. apply Hnot. cbn. auto.
  - unfold tryCatch, bind.
    destruct (Client.apiWithRetry (String c rest) options env s1) as [[r | e] s2].
    + destruct (setStatus_run online env s2) as (s' & -> & Hst & _).
      eexists _, _. split; [reflexivity |].
      cbn. split; [auto | discriminate].
    + unfold Client.askFailed, bind, modifyClient, emit, modifyWorld, getClient.
      cbn [fst snd].
      destruct (ErrorCode_eqb _ _).
      * eexists _, _. split; [reflexivity |]. apply Hnot. cbn. auto.
      * destruct (_ && _).
        -- match goal with
           | |- context [Client.fallbackAsk ?m ?e ?st] =>
               destruct (Hfallback m e st) as (a & s' & -> & Hc)
           end.
           exists a, s'. split; [reflexivity |]. now apply Hnot.
        -- eexists _, _. split; [reflexivity |]. apply Hnot. cbn. auto.
Qed.

(** ** The status observer *)

Section Invariants.
Context {A B : Type}.
Variable I : Machine -> Prop.

Lemma maintains_ret (a : A) : maintains I (ret a).
Proof. now intros env s. Qed.

Lemma maintains_throw (e : Thrown) : maintains I (@throw A e).
Proof. now intros env s. Qed.

Lemma maintains_bind (m : M A) (k : A -> M B) :
  maintains I m -> (forall a, maintains I (k a)) -> maintains I (bind m k).
Proof.
  intros Hm Hk env s Hs. unfold bind.
  specialize (Hm env s Hs). destruct (m env s) as [[a | e] s']; cbn in *.
  - now apply Hk.
  - exact Hm.
Qed.

Lemma maintains_tryCatch (m : M A) (h : Thrown -> M A) :
  maintains I m -> (forall e, maintains I (h e)) -> maintains I (tryCatch m h).
Proof.
  intros Hm Hh env s Hs. unfold tryCatch.
  specialize (Hm env s Hs). destruct (m env s) as [[a | e] s']; cbn in *.
  - exact Hm.
  - now apply Hh.
Qed.

End Invariants.

Lemma maintains_of_preserves {A : Type} (init : ConnectionStatus) (m : M A) :
  preserves statusView m -> maintains (statusInStep init) m.
Proof.
  intros Hm env s [H1 H2]. specialize (Hm env s).
  unfold statusView in Hm. injection Hm as Hst Htr.
  unfold statusInStep. now rewrite Hst, Htr.
Qed.

Lemma last_cons_default {A : Type} (l : list A) :
  forall x d d', last (x :: l) d = last (x :: l) d'.
Proof.
  induction l as [| y l IH]; intros x d d'; [reflexivity |].
  change (last (y :: l) d = last (y :: l) d'). apply IH.
Qed.

Lemma noRepeat_snoc (trail : list ConnectionStatus) :
  forall prev x,
    noRepeat prev (trail ++ [x])
    = noRepeat prev trail && negb (ConnectionStatus_eqb (last trail prev) x).
Proof.
  induction trail as [| y trail IH]; intros prev x; cbn [app noRepeat].
  - cbn. now rewrite andb_true_r.
  - rewrite IH, andb_assoc. do 2 f_equal.
    destruct trail as [| z trail]; [reflexivity |].
    change (last (y :: z :: trail) prev) with (last (z :: trail) prev).
    f_equal. apply last_cons_default.
Qed.

Lemma maintains_setStatus (init st : ConnectionStatus) :
  maintains (statusInStep init) (Client.setStatus st).
Proof.
  intros env s [Hlast Hno].
  destruct (setStatus_run st env s) as (s' & -> & Hst & Hev & _).
  cbn [snd]. unfold statusInStep. rewrite Hev, Hst.
  unfold statusTrail in *. rewrite flat_map_app.
  destruct (ConnectionStatus_eqb _ _) eqn:E; cbn [flat_map app].
  - rewrite app_nil_r. apply ConnectionStatus_eqb_eq in E. split; congruence.
  - split; [apply last_last |].
    now rewrite noRepeat_snoc, Hno, Hlast, E.
Qed.

Create HintDb instep discriminated.
#[local] Hint Resolve maintains_ret maintains_throw maintains_setStatus : instep.

Ltac inv_step :=
  match goal with
  | |- maintains _ (bind _ _) => apply maintains_bind; [| intros ?]
  | |- maintains _ (tryCatch _ _) => apply maintains_tryCatch; [| intros ?]
  | |- maintains _ (if ?b then _ else _) => destruct b
  | |- maintains _ (match ?x with _ => _ end) => destruct x
  | |- maintains _ _ =>
      solve [auto with instep | apply maintains_of_preserves; by_running]
  end.

Lemma putAll_statusView snapshot documents :
  preserves statusView (Cache.putAll snapshot documents).
Proof.
  induction documents as [| doc rest IH]; cbn [Cache.putAll].
  - by_running.
  - repeat view_step. exact IH.
Qed.

Lemma store_statusView documents : preserves statusView (Cache.store documents).
Proof.
  unfold Cache.store.
  repeat (view_step || apply putAll_statusView).
Qed.

Lemma streamChunks_statusView chunks :
  forall fullText sources sessionId,
    preserves statusView (Client.streamChunks chunks fullText sources sessionId).
Proof.
  induction chunks as [| chunk rest IH]; intros fullText sources sessionId;
    cbn [Client.streamChunks].
  - by_running.
  - destruct chunk; repeat view_step; apply IH.
Qed.

Lemma apiWithRetry_statusView message options :
  preserves statusView (Client.apiWithRetry message options).
Proof. apply apiWithRetry_preserves; intros; by_running. Qed.

Section StatusInStep.
Variable init : ConnectionStatus.

Lemma instep_fallbackAsk message :
  maintains (statusInStep init) (Client.fallbackAsk message).
Proof. unfold Client.fallbackAsk. repeat inv_step. Qed.

Lemma instep_apiWithRetry message options :
  maintains (statusInStep init) (Client.apiWithRetry message options).
Proof. apply maintains_of_preserves, apiWithRetry_statusView. Qed.

Lemma instep_store documents :
  maintains (statusInStep init) (Cache.store documents).
Proof. apply maintains_of_preserves, store_statusView. Qed.

Lemma instep_streamChunks chunks fullText sources sessionId :
  maintains (statusInStep init)
            (Client.streamChunks chunks fullText sources sessionId).
Proof. apply maintains_of_preserves, streamChunks_statusView. Qed.

#[local] Hint Resolve instep_fallbackAsk instep_apiWithRetry instep_store
  instep_streamChunks : instep.

Lemma instep_ask message options :
  maintains (statusInStep init) (Client.ask message options).
Proof.
  unfold Client.ask, Client.askFailed.
  destruct message as [msg |]; [destruct msg |]; repeat inv_step.
Qed.

Lemma instep_askStream message options :
  maintains (statusInStep init) (Client.askStream message options).
Proof.
  unfold Client.askStream, Client.apiChatStream.
  destruct message as [msg |]; [destruct msg |]; repeat inv_step.
Qed.

Lemma instep_operate (o : Operation) : maintains (statusInStep init) (operate o).
Proof.
  destruct o as [r | | |]; cbn [operate].
  - destruct r; cbn [perform];
      (apply maintains_bind; [| intros ?; apply maintains_ret])
      || idtac;
      first [ apply instep_ask | apply instep_askStream
            | unfold Client.checkConnection; repeat inv_step
            | apply maintains_of_preserves; by_running ].
  - unfold Client.syncCache. repeat inv_step.
  - unfold Client.clearCache. repeat inv_step.
  - apply maintains_setStatus.
Qed.

End StatusInStep.

(** X10. Through every sequence of operations of a client ([ask], [askStream],
    [getStatus], [checkConnection], [checkSystemStatus],
    [isMaintenanceMode], [isCacheValid], [syncCache], [clearCache] and the
    handlers of the browser's 'online' and 'offline' events), the
    status observer is in step with the client: the status it was told
    last is the status the client has (the initial 'connecting' when it was
    told none), and it is never told a status twice in a row. *)
Theorem status_observer_in_step :
  forall (operations : list Operation) (env : Env) (config : Config.t)
         (dbHandle : DbHandle) (storage : LocalStorage.t) (database : IndexedDb.t),
    let w := World.initial storage database in
    let s := operateAll operations env
               {| client := Client.create config dbHandle w; world := w |} in
    last (statusTrail (World.events (world s))) connecting
      = ClientFields.status (client s)
    /\ noRepeat connecting (statusTrail (World.events (world s))) = true.
Proof.
  intros operations env config dbHandle storage database w s.
  change (statusInStep connecting s). subst s.
  assert (H0 : statusInStep connecting
                 {| client := Client.create config dbHandle w; world := w |})
    by (split; reflexivity).
  revert H0.
  generalize {| client := Client.create config dbHandle w; world := w |}.
  intros s0 H0. revert s0 H0.
  induction operations as [| o os IH]; intros s0 H0; cbn [operateAll].
  - exact H0.
  - apply IH. now apply instep_operate.
Qed.

(** ** The local-storage cache *)

(** X11. Storing in local storage when both writes are accepted: the stored
    list is the given one (whatever was stored before), [retrieve] gives
    it back, the count is its length, the time of the sync is the clock
    reading, and the metadata item holds the same count and time, so a
    cache object constructed later over this storage starts with them. *)
Theorem store_localStorage_round_trip :
  forall (env : Env) (s : Machine) (documents : list JsDoc),
    CacheFields.storage (ClientFields.cache (client s)) = localstorage ->
    let n := World.setItemCalls (world s) in
    let now := Date_now env (World.clockReads (world s)) in
    setItem_throws env n DocsKey (TextDocs (DocArray documents)) = None ->
    setItem_throws env (S n) MetaKey
      (TextMeta (List.length documents) (Some (IsoDate now))) = None ->
    exists s',
      Cache.store documents env s = (Ret tt, s')
      /\ (forall env', Cache.retrieve env' s' = (Ret (DocArray documents), s'))
      /\ CacheFields.documentCount (ClientFields.cache (client s'))
         = List.length documents
      /\ CacheFields.lastSyncAt (ClientFields.cache (client s'))
         = Some (IsoDate now)
      /\ (forall maxAge dbHandle,
            Cache.create localstorage maxAge dbHandle (world s')
            = {| CacheFields.storage := localstorage;
                 CacheFields.maxAge := maxAge;
                 CacheFields.db := DbMissing;
                 CacheFields.documentCount := List.length documents;
                 CacheFields.lastSyncAt := Some (IsoDate now) |})
      /\ engineView s' = engineView s
      /\ statusView s' = statusView s.
Proof.
  intros env s documents Hkind n now Hdocs Hmeta. subst n now.
  eexists. split.
  - run_steps. rewrite Hkind. cbn. rewrite Hdocs. cbn. rewrite Hmeta. cbn.
    reflexivity.
  - split; [| now repeat split].
    intros env'. rewrite retrieve_localStorage; [reflexivity | exact Hkind].
Qed.

(** X12. After a rejected write the metadata item is never written: the
    truncated list is stored, but the item that a later cache object
    loads its count and sync time from is the one of before the call
    (none on a fresh storage), whichever of the two writes was rejected
    and whether or not the retry is accepted.  A cache constructed over
    the storage afterwards therefore starts with the old count, not with
    the number of documents stored. *)
Theorem store_quota_failure_metadata :
  forall (env : Env) (s : Machine) (documents : list JsDoc) (e : Thrown),
    CacheFields.storage (ClientFields.cache (client s)) = localstorage ->
    let n := World.setItemCalls (world s) in
    let listWrite :=
      setItem_throws env n DocsKey (TextDocs (DocArray documents)) in
    let metaWrite :=
      setItem_throws env (S n) MetaKey
        (TextMeta (List.length documents)
                  (Some (IsoDate (Date_now env (World.clockReads (world s)))))) in
    listWrite = Some e \/ (listWrite = None /\ metaWrite = Some e) ->
    let s' := snd (Cache.store documents env s) in
    LocalStorage.meta (World.storage (world s'))
      = LocalStorage.meta (World.storage (world s))
    /\ (forall maxAge dbHandle,
          Cache.create localstorage maxAge dbHandle (world s')
          = Cache.create localstorage maxAge dbHandle (world s))
    /\ (listWrite = Some e ->
        CacheFields.lastSyncAt (ClientFields.cache (client s'))
        = CacheFields.lastSyncAt (ClientFields.cache (client s))).
Proof.
  intros env s documents e Hkind n listWrite metaWrite Hrejected s'.
  assert (Hmeta : LocalStorage.meta (World.storage (world s'))
                  = LocalStorage.meta (World.storage (world s))
                  /\ (listWrite = Some e ->
                      CacheFields.lastSyncAt (ClientFields.cache (client s'))
                      = CacheFields.lastSyncAt (ClientFields.cache (client s)))).
  { subst s' metaWrite listWrite n. run_steps. rewrite Hkind. cbn -[firstn].
    destruct Hrejected as [H1 | [H1 H2]]; rewrite H1; cbn -[firstn].
    - destruct (setItem_throws env _ DocsKey (TextDocs (DocArray (firstn 50 documents))));
        cbn; auto.
    - rewrite H2. cbn -[firstn].
      destruct (setItem_throws env _ DocsKey (TextDocs (DocArray (firstn 50 documents))));
        cbn; split; auto; discriminate. }
  destruct Hmeta as [Hmeta Hsync].
  split; [exact Hmeta |]. split; [| exact Hsync].
  intros maxAge dbHandle. unfold Cache.create. cbn [LocalStorage.getItem].
  now rewrite Hmeta.
Qed.

(** ** The sync *)

Lemma returns_syncCache : returns Client.syncCache.
Proof. unfold Client.syncCache. apply returns_tryCatch. intros e. apply returns_ret. Qed.

(** The request of the documents, and what follows it. *)
Lemma docs_request_run (A : Type) (k : option JsDocs -> M A) env s :
  (lastSync <- Cache.getLastSync ;;
   docs <- Client.apiGetGeneralDocs lastSync ;;
   k docs) env s
  = match docsAnswer env s with
    | Ret docs => k docs env (afterDocsRequest s)
    | Throw e => (Throw e, afterDocsRequest s)
    end.
Proof.
  unfold docsAnswer, afterDocsRequest, Cache.getLastSync, Cache.fields,
    Client.apiGetGeneralDocs, Client.liftOutcome, bind, getEnv, getClient,
    getWorld, modifyWorld, emit, modifyWorld, ret, throw.
  cbn [fst snd client world].
  destruct (api_getGeneralDocs _ _ _) as [docs | e]; reflexivity.
Qed.

(** The sync up to the answer of the documents endpoint. *)
Lemma host_syncCache_run callbacks env s :
  Host.syncCache callbacks env s
  = match docsAnswer env s with
    | Throw _ | Ret None => (Ret tt, afterDocsRequest s)
    | Ret (Some NotIterable) =>
        (Ret tt, snd (Host.setStatus callbacks online env (afterDocsRequest s)))
    | Ret (Some (DocArray l)) =>
        tryCatch
          ((if (0 <? List.length l)%nat
            then Cache.store l ;; Client.ragIndex (DocArray l)
            else ret tt) ;;
           Host.setStatus callbacks online)
          (fun _ => ret tt) env (afterDocsRequest s)
    end.
Proof.
  unfold Host.syncCache, tryCatch. rewrite docs_request_run.
  destruct (docsAnswer env s) as [[[l |] |] | e]; try reflexivity.
  destruct (Host.setStatus _ _ _ _) as [[[] | e] s1]; reflexivity.
Qed.

(** X13. [syncCache] never throws, whatever the host's observers do.  It asks
    for the documents changed since the last sync of the cache.  When the
    request fails, or the answer has no documents ([undefined] or
    [null], so that reading their length throws), nothing else happens:
    cache, engine and status are as before.  When the documents are a
    value without a length above 0 (the empty array, but also a number, a
    boolean or an object that is no array), nothing is stored and nothing
    is indexed, and the status is set online; what the status observer
    throws then is dropped. *)
Theorem syncCache_without_documents :
  forall (callbacks : Host.Callbacks) (env : Env) (s : Machine),
    (exists s', Host.syncCache callbacks env s = (Ret tt, s'))
    /\ ((exists e, docsAnswer env s = Throw e) \/ docsAnswer env s = Ret None ->
        Host.syncCache callbacks env s = (Ret tt, afterDocsRequest s))
    /\ (docsAnswer env s = Ret (Some NotIterable)
        \/ docsAnswer env s = Ret (Some (DocArray [])) ->
        let s' := snd (Host.setStatus callbacks online env (afterDocsRequest s)) in
        Host.syncCache callbacks env s = (Ret tt, s')
        /\ ClientFields.status (client s') = online
        /\ cacheView s' = cacheView s
        /\ engineView s' = engineView s).
Proof.
  intros callbacks env s. split; [| split].
  - unfold Host.syncCache, tryCatch.
    match goal with
    | |- context [match ?m env s with _ => _ end] =>
        destruct (m env s) as [[[] | e] s1]
    end; [now exists s1 | exists s1; reflexivity].
  - intros [[e H] | H]; rewrite host_syncCache_run, H; reflexivity.
  - intros H s'.
    assert (Hrun : Host.syncCache callbacks env s = (Ret tt, s')).
    { rewrite host_syncCache_run.
      destruct H as [H | H]; rewrite H; [reflexivity |].
      unfold tryCatch, bind. cbn [List.length Nat.ltb Nat.leb ret].
      subst s'.
      destruct (Host.setStatus _ _ _ _) as [[[] | e] s1]; reflexivity. }
    split; [exact Hrun |]. subst s'. rewrite host_setStatus_run.
    destruct (ConnectionStatus_eqb _ _) eqn:E.
    + apply ConnectionStatus_eqb_eq in E. cbn [snd]. now repeat split.
    + cbv zeta. destruct (callbacks _ _); cbn [snd]; now repeat split.
Qed.

(** [syncCache] on a non-empty answer, by what [store] does. *)
Lemma syncCache_run env s d l :
  docsAnswer env s = Ret (Some (DocArray (d :: l))) ->
  Client.syncCache env s
  = match Cache.store (d :: l) env (afterDocsRequest s) with
    | (Throw _, s1) => (Ret tt, s1)
    | (Ret _, s1) =>
        match Client.ragIndex (DocArray (d :: l)) env s1 with
        | (Throw _, s2) => (Ret tt, s2)
        | (Ret _, s2) => Client.setStatus online env s2
        end
    end.
Proof.
  unfold docsAnswer. intros Hdocs.
  unfold Client.syncCache, Cache.getLastSync, Cache.fields,
    Client.apiGetGeneralDocs, Client.liftOutcome, tryCatch, bind, getEnv,
    getClient, getWorld, modifyWorld, emit, ret, throw.
  cbn -[Cache.store Client.ragIndex Client.setStatus]. rewrite Hdocs.
  cbn -[Cache.store Client.ragIndex Client.setStatus].
  unfold afterDocsRequest.
  destruct (Cache.store _ _ _) as [[[] | e] s1]; [| reflexivity].
  destruct (Client.ragIndex _ _ _) as [[[] | e] s2]; [| reflexivity].
  destruct (setStatus_run online env s2) as (s' & Hrun & _).
  now rewrite Hrun.
Qed.

Lemma ragIndex_run docs env s :
  Client.ragIndex docs env s
  = (fst (LocalRAG.index (Math_log env) docs (ClientFields.localRAG (client s))),
     {| client :=
          ClientFields.setLocalRAG
            (snd (LocalRAG.index (Math_log env) docs
                                 (ClientFields.localRAG (client s))))
            (client s);
        world := world s |}).
Proof.
  unfold Client.ragIndex, bind, getEnv, getClient, modifyClient, Client.liftOutcome.
  cbn -[LocalRAG.index].
  destruct (LocalRAG.index _ _ _) as [[[] | e] rag]; reflexivity.
Qed.

(** Without a database, [store] throws before it touches anything. *)
Lemma store_without_database documents env s :
  CacheFields.storage (ClientFields.cache (client s)) = indexeddb ->
  CacheFields.db (ClientFields.cache (client s)) = DbMissing ->
  Cache.store documents env s = (Throw (JsError "Database not available"), s).
Proof.
  intros Hkind Hdb.
  unfold Cache.store, Cache.getDB, Cache.fields, bind, getClient, throw, ret.
  cbn. rewrite Hkind. cbn. now rewrite Hdb.
Qed.

(** X14. When the documents cannot be stored, the sync stops there: the answer
    of the server is not indexed and the status is not set online, so the
    engine and the status are as before the call, and the failure is not
    reported (neither thrown nor recorded as last error).  When the cache
    is configured for IndexedDB and no database is available, [store]
    throws 'Database not available' on every list, so that every
    non-empty answer of the server ends this way, with nothing stored. *)
Theorem syncCache_store_failure :
  forall (env : Env) (s : Machine) (d : JsDoc) (l : list JsDoc),
    docsAnswer env s = Ret (Some (DocArray (d :: l))) ->
    (forall (e : Thrown) (s1 : Machine),
        Cache.store (d :: l) env (afterDocsRequest s) = (Throw e, s1) ->
        Client.syncCache env s = (Ret tt, s1)
        /\ engineView s1 = engineView s
        /\ statusView s1 = statusView s
        /\ errorView s1 = errorView s)
    /\ (CacheFields.storage (ClientFields.cache (client s)) = indexeddb ->
        CacheFields.db (ClientFields.cache (client s)) = DbMissing ->
        Cache.store (d :: l) env (afterDocsRequest s)
        = (Throw (JsError "Database not available"), afterDocsRequest s)
        /\ Client.syncCache env s = (Ret tt, afterDocsRequest s)
        /\ cacheView (afterDocsRequest s) = cacheView s).
Proof.
  intros env s d l Hdocs.
  assert (Hfail : forall e s1,
    Cache.store (d :: l) env (afterDocsRequest s) = (Throw e, s1) ->
    Client.syncCache env s = (Ret tt, s1)).
  { intros e s1 Hstore. rewrite (syncCache_run env s Hdocs), Hstore. reflexivity. }
  split.
  - intros e s1 Hstore.
    split; [now apply (Hfail e) | split; [| split]].
    + assert (K : preserves engineView (Cache.store (d :: l))).
      { unfold Cache.store. repeat view_step.
        clear. generalize (d :: l). intros docs.
        induction docs as [| x xs IH]; cbn [Cache.putAll]; repeat view_step.
        exact IH. }
      specialize (K env (afterDocsRequest s)). now rewrite Hstore in K.
    + pose proof (store_statusView (d :: l) env (afterDocsRequest s)) as K.
      rewrite Hstore in K. cbn [snd] in K. rewrite K.
      unfold statusView, statusTrail, afterDocsRequest. cbn.
      now rewrite flat_map_app, app_nil_r.
    + assert (K : preserves errorView (Cache.store (d :: l))).
      { unfold Cache.store. repeat view_step.
        clear. generalize (d :: l). intros docs.
        induction docs as [| x xs IH]; cbn [Cache.putAll]; repeat view_step.
        exact IH. }
      specialize (K env (afterDocsRequest s)). rewrite Hstore in K.
      cbn [snd] in K. rewrite K.
      unfold errorView, errorsNotified, afterDocsRequest. cbn.
      now rewrite flat_map_app, app_nil_r.
  - intros Hkind Hdb.
    assert (Hstore : Cache.store (d :: l) env (afterDocsRequest s)
                     = (Throw (JsError "Database not available"), afterDocsRequest s))
      by now apply store_without_database.
    split; [exact Hstore |]. split; [now apply (Hfail _ _ Hstore) | reflexivity].
Qed.

(** With the local-storage cache, a document count other than 0 and an
    indexed engine, the fallback path always answers from the engine as it
    stands (reading the stored list cannot fail there, and its content is
    not looked at). *)
Lemma fallbackAsk_indexed_localStorage message env s :
  CacheFields.storage (ClientFields.cache (client s)) = localstorage ->
  (CacheFields.documentCount (ClientFields.cache (client s)) =? 0)%nat = false ->
  LocalRAG.isIndexed (ClientFields.localRAG (client s)) = true ->
  exists isStale,
    fst (Client.fallbackAsk message env s)
    = Ret (Client.localResponse
             (LocalRAG.ask (ClientFields.localRAG (client s)) message) isStale).
Proof.
  intros Hkind Hcount Hindexed. run_steps.
  destruct (negb (ConnectionStatus_eqb _ _));
    cbn -[LocalRAG.isIndexed LocalRAG.ask];
    rewrite Hcount; cbn -[LocalRAG.isIndexed LocalRAG.ask];
    rewrite Hkind; cbn -[LocalRAG.isIndexed LocalRAG.ask];
    rewrite Hindexed; cbn -[LocalRAG.isIndexed LocalRAG.ask];
    eexists; reflexivity.
Qed.

Lemma isIndexed_index_wellFormed log (docs : list CachedDocument) rag0 :
  LocalRAG.isIndexed (snd (LocalRAG.index log (DocArray (map WellFormed docs)) rag0))
  = (0 <? List.length docs)%nat.
Proof.
  destruct (index_wellFormed log docs rag0) as (_ & Hi & Hd).
  unfold LocalRAG.isIndexed. rewrite Hi, Hd, length_map. reflexivity.
Qed.

(** X15. A sync that succeeds, with the local-storage cache: the documents of
    the answer replace the stored list, the count is their number and the
    sync time is the clock reading; the engine is indexed anew with
    exactly the documents of this answer; the status is online.  From
    then on a fallback request is answered by the engine from these
    documents. *)
Theorem syncCache_then_fallback :
  forall (env : Env) (s : Machine) (d : CachedDocument) (ds : list CachedDocument),
    let docs := map WellFormed (d :: ds) in
    let n := World.setItemCalls (world s) in
    let now := Date_now env (World.clockReads (world s)) in
    CacheFields.storage (ClientFields.cache (client s)) = localstorage ->
    docsAnswer env s = Ret (Some (DocArray docs)) ->
    setItem_throws env n DocsKey (TextDocs (DocArray docs)) = None ->
    setItem_throws env (S n) MetaKey
      (TextMeta (List.length docs) (Some (IsoDate now))) = None ->
    exists s',
      Client.syncCache env s = (Ret tt, s')
      /\ CacheFields.documentCount (ClientFields.cache (client s')) = S (List.length ds)
      /\ CacheFields.lastSyncAt (ClientFields.cache (client s')) = Some (IsoDate now)
      /\ LocalStorage.docs (World.storage (world s')) = Some (TextDocs (DocArray docs))
      /\ ClientFields.localRAG (client s')
         = snd (LocalRAG.index (Math_log env) (DocArray docs)
                               (ClientFields.localRAG (client s)))
      /\ LocalRAG.isIndexed (ClientFields.localRAG (client s')) = true
      /\ ClientFields.status (client s') = online
      /\ (forall env' message,
          exists isStale,
            fst (Client.fallbackAsk message env' s')
            = Ret (Client.localResponse
                     (LocalRAG.ask (ClientFields.localRAG (client s')) message)
                     isStale)).
Proof.
  intros env s d ds docs n now Hkind Hdocs Hw1 Hw2.
  assert (Hstore :
    exists s1,
      Cache.store docs env (afterDocsRequest s) = (Ret tt, s1)
      /\ cacheView s1
         = ({| CacheFields.storage := localstorage;
               CacheFields.maxAge := CacheFields.maxAge (ClientFields.cache (client s));
               CacheFields.db := CacheFields.db (ClientFields.cache (client s));
               CacheFields.documentCount := List.length docs;
               CacheFields.lastSyncAt := Some (IsoDate now) |},
            {| LocalStorage.docs := Some (TextDocs (DocArray docs));
               LocalStorage.meta :=
                 Some (TextMeta (List.length docs) (Some (IsoDate now))) |},
            World.database (world s))
      /\ engineView s1 = engineView s).
  { subst n now. clearbody docs. eexists. split.
    - run_steps. rewrite Hkind. cbn. rewrite Hw1. cbn. rewrite Hw2. cbn.
      reflexivity.
    - split; [| reflexivity]. unfold cacheView. cbn.
      unfold CacheFields.setLastSyncAt, CacheFields.setDocumentCount. cbn.
      now rewrite Hkind. }
  destruct Hstore as (s1 & Hstore & Hcache1 & Hengine1).
  destruct (setStatus_run online env
              (snd (Client.ragIndex (DocArray docs) env s1)))
    as (s' & Hrun & Hst & _ & Hcache & _ & _ & Hengine & _).
  pose proof (keeps_ragIndex (DocArray docs) env s1) as Hcache2.
  rewrite ragIndex_run in Hrun, Hcache, Hengine, Hcache2. cbn [snd] in *.
  unfold engineView in Hengine, Hengine1. cbn [client ClientFields.setLocalRAG
    ClientFields.localRAG] in Hengine. rewrite Hengine1 in Hengine.
  rewrite Hcache2, Hcache1 in Hcache. unfold cacheView in Hcache.
  injection Hcache as Hc Hs Hd.
  assert (Hidx : LocalRAG.isIndexed (ClientFields.localRAG (client s')) = true).
  { rewrite Hengine. unfold docs. now rewrite isIndexed_index_wellFormed. }
  exists s'. split; [| repeat split].
  - rewrite (@syncCache_run env s (WellFormed d) (map WellFormed ds) Hdocs).
    change (WellFormed d :: map WellFormed ds) with docs. rewrite Hstore.
    rewrite ragIndex_run.
    destruct (index_wellFormed (Math_log env) (d :: ds)
                               (ClientFields.localRAG (client s1))) as (Hok & _).
    fold docs in Hok. unfold engineView in Hengine1. rewrite Hok. exact Hrun.
  - rewrite Hc. cbn. unfold docs. now rewrite length_map.
  - now rewrite Hc.
  - now rewrite Hs.
  - exact Hengine.
  - exact Hidx.
  - exact Hst.
  - intros env' message.
    apply fallbackAsk_indexed_localStorage; [now rewrite Hc | | exact Hidx].
    rewrite Hc. reflexivity.
Qed.

(** ** The IndexedDB cache *)

Lemma put_keeps_others stored k d k' d' :
  In (k', d') stored -> k' <> k -> In (k', d') (IndexedDb.put stored k d).
Proof.
  intros Hin Hne. induction stored as [| [k0 d0] stored IH]; [destruct Hin |].
  cbn [IndexedDb.put].
  destruct (String.eqb k k0) eqn:E.
  - apply String.eqb_eq in E. subst k0.
    destruct Hin as [H | H]; [congruence | now right].
  - destruct (String.ltb k k0).
    + now right.
    + destruct Hin as [H | H]; [now left | right; now apply IH].
Qed.

Lemma put_stores stored k d : In (k, d) (IndexedDb.put stored k d).
Proof.
  induction stored as [| [k0 d0] stored IH]; cbn [IndexedDb.put]; [now left |].
  destruct (String.eqb k k0); [now left |].
  destruct (String.ltb k k0); [now left | now right].
Qed.

Lemma put_length stored k d :
  (List.length stored <= List.length (IndexedDb.put stored k d))%nat.
Proof.
  induction stored as [| [k0 d0] stored IH]; cbn [IndexedDb.put]; [cbn; lia |].
  destruct (String.eqb k k0); [cbn; lia |].
  destruct (String.ltb k k0); cbn; lia.
Qed.

Lemma put_key_stays stored k d k' :
  In k' (map fst stored) -> In k' (map fst (IndexedDb.put stored k d)).
Proof.
  induction stored as [| [k0 d0] stored IH]; cbn [IndexedDb.put map fst];
    [intros [] |].
  destruct (String.eqb k k0) eqn:E.
  - apply String.eqb_eq in E. subst k0. cbn. tauto.
  - destruct (String.ltb k k0); cbn; tauto.
Qed.

Lemma putDocuments_facts (docs : list CachedDocument) :
  forall stored,
    (forall k x, In (k, x) stored -> ~ In k (map doc_id docs) ->
                 In (k, x) (putDocuments stored docs))
    /\ (forall d, In d docs -> In (doc_id d) (map fst (putDocuments stored docs)))
    /\ (forall k, In k (map fst stored) -> In k (map fst (putDocuments stored docs)))
    /\ (List.length stored <= List.length (putDocuments stored docs))%nat.
Proof.
  unfold putDocuments.
  induction docs as [| d docs IH]; intros stored; cbn [fold_left map].
  - repeat split; auto. intros d [].
  - destruct (IH (IndexedDb.put stored (doc_id d) (WellFormed d)))
      as (Hkeep & Hnew & Hkeys & Hlen).
    split; [| split; [| split]].
    + intros k x Hin Hno. apply Hkeep.
      * apply put_keeps_others; [exact Hin |]. intros ->. apply Hno. now left.
      * intros H. apply Hno. now right.
    + intros d' [<- | Hd'].
      * apply Hkeys. apply (in_map fst _ _ (put_stores stored (doc_id d) (WellFormed d))).
      * now apply Hnew.
    + intros k Hk. apply Hkeys. now apply put_key_stays.
    + pose proof (put_length stored (doc_id d) (WellFormed d)). lia.
Qed.

(** The [put] loop when no request fails. *)
Lemma putAll_run snapshot env (docs : list CachedDocument) :
  forall s,
    (forall k, (k < List.length docs)%nat ->
               idb_fails env (World.idbRequests (world s) + k) = None) ->
    exists s',
      Cache.putAll snapshot (map WellFormed docs) env s = (Ret tt, s')
      /\ besideDatabase s' = besideDatabase s
      /\ World.idbRequests (world s')
         = (World.idbRequests (world s) + List.length docs)%nat
      /\ World.database (world s')
         = {| IndexedDb.documents :=
                putDocuments (IndexedDb.documents (World.database (world s))) docs;
              IndexedDb.metaCount := IndexedDb.metaCount (World.database (world s));
              IndexedDb.metaLastSync :=
                IndexedDb.metaLastSync (World.database (world s)) |}.
Proof.
  induction docs as [| d docs IH]; intros s Hok; cbn [map Cache.putAll].
  - exists s. cbn. repeat split; [lia |]. now destruct (World.database (world s)).
  - cbn [IndexedDb.keyOf].
    pose proof (Hok 0%nat ltac:(cbn; lia)) as H0. rewrite Nat.add_0_r in H0.
    unfold idbRequest, modifyDatabase, bind, getEnv, getWorld, modifyWorld, ret.
    cbn. rewrite H0. cbn.
    match goal with
    | |- context [Cache.putAll _ _ env ?st] => destruct (IH st) as (s' & Hrun & Hb & Hn & Hd)
    end.
    { intros k Hk. cbn [world World.idbRequests World.setDatabase World.tickIdb].
      replace (S (World.idbRequests (world s)) + k)%nat
        with (World.idbRequests (world s) + S k)%nat by lia.
      apply Hok. cbn. lia. }
    exists s'. rewrite Hrun. split; [reflexivity |]. split; [exact Hb |].
    split; [rewrite Hn; cbn; lia |]. rewrite Hd. reflexivity.
Qed.

(** X16. Storing in IndexedDB when no request fails: the documents are put
    one by one under their [id], on top of what the object store holds.
    A stored document whose id is not among the new ones stays, every new
    id is stored, and nothing is removed; the count is the number of
    documents in the object store afterwards (not the number given), and
    the two metadata records hold the count and the sync time, so a cache
    opened later over this database starts with them. *)
Theorem store_indexedDb_merges :
  forall (env : Env) (s : Machine) (docs : list CachedDocument),
    CacheFields.storage (ClientFields.cache (client s)) = indexeddb ->
    CacheFields.db (ClientFields.cache (client s)) = DbOpen ->
    (forall k, (k < List.length docs + 4)%nat ->
               idb_fails env (World.idbRequests (world s) + k) = None) ->
    let old := IndexedDb.documents (World.database (world s)) in
    let merged := putDocuments old docs in
    let now := Date_now env (World.clockReads (world s)) in
    exists s',
      Cache.store (map WellFormed docs) env s = (Ret tt, s')
      /\ World.database (world s')
         = {| IndexedDb.documents := merged;
              IndexedDb.metaCount := Some (List.length merged);
              IndexedDb.metaLastSync := Some (IsoDate now) |}
      /\ CacheFields.documentCount (ClientFields.cache (client s'))
         = List.length merged
      /\ CacheFields.lastSyncAt (ClientFields.cache (client s')) = Some (IsoDate now)
      /\ (forall maxAge,
            Cache.create indexeddb maxAge DbOpen (world s')
            = {| CacheFields.storage := indexeddb;
                 CacheFields.maxAge := maxAge;
                 CacheFields.db := DbOpen;
                 CacheFields.documentCount := List.length merged;
                 CacheFields.lastSyncAt := Some (IsoDate now) |})
      /\ (forall k x, In (k, x) old -> ~ In k (map doc_id docs) -> In (k, x) merged)
      /\ (forall d, In d docs -> In (doc_id d) (map fst merged))
      /\ (List.length old <= List.length merged)%nat.
Proof.
  intros env s docs Hkind Hdb Hok old merged now.
  destruct (@putAll_run (World.database (world s)) env docs s)
    as (s1 & Hrun & Hb & Hn & Hd).
  { intros k Hk. apply Hok. lia. }
  unfold besideDatabase in Hb. injection Hb as Hclient Hclock _ _ _ _ _ _ _.
  assert (H1 : idb_fails env (World.idbRequests (world s1)) = None).
  { rewrite Hn. apply Hok. lia. }
  assert (H2 : idb_fails env (S (World.idbRequests (world s1))) = None).
  { rewrite Hn. replace (S (World.idbRequests (world s) + List.length docs))
      with (World.idbRequests (world s) + (List.length docs + 1))%nat by lia.
    apply Hok. lia. }
  assert (H3 : idb_fails env (S (S (World.idbRequests (world s1)))) = None).
  { rewrite Hn. replace (S (S (World.idbRequests (world s) + List.length docs)))
      with (World.idbRequests (world s) + (List.length docs + 2))%nat by lia.
    apply Hok. lia. }
  assert (H4 : idb_fails env (S (S (S (World.idbRequests (world s1))))) = None).
  { rewrite Hn. replace (S (S (S (World.idbRequests (world s) + List.length docs))))
      with (World.idbRequests (world s) + (List.length docs + 3))%nat by lia.
    apply Hok. lia. }
  destruct (putDocuments_facts docs old) as (Hkeep & Hnew & _ & Hlen).
  eexists. split; [| split; [| split; [| split; [| split; [| split; [| split]]]]]].
  - unfold Cache.store, Cache.getDB, Cache.fields. unfold bind at 1 2.
    unfold getClient at 1. unfold ret at 1. rewrite Hkind.
    unfold bind at 1 2 3. unfold getClient at 1. unfold ret at 1. rewrite Hdb.
    unfold ret at 1. unfold bind at 1 2. unfold getWorld at 1.
    unfold bind at 1. cbn [world client]. rewrite Hrun.
    unfold idbRequest, modifyDatabase, modifyCache, dateNow, bind, getEnv,
      getClient, getWorld, modifyClient, modifyWorld, throw, ret.
    cbn. rewrite H1. cbn. rewrite H2. cbn. rewrite H3. cbn. rewrite H4. cbn.
    reflexivity.
  - cbn. rewrite Hd. cbn. fold old merged. rewrite Hclock. reflexivity.
  - cbn. rewrite Hd. reflexivity.
  - cbn. now rewrite Hclock.
  - intros maxAge. cbn. rewrite Hd. cbn. now rewrite Hclock.
  - exact Hkeep.
  - exact Hnew.
  - exact Hlen.
Qed.

(** ** Staleness and validity *)

(** X17. A last-sync text that is no date makes every comparison with it
    false: such a cache is never stale for [getStatus], whatever the
    clock says, and never valid for [isCacheValid].  A cache that was
    never synced is never valid either, and is stale once the clock is
    past [maxAge]. *)
Theorem cache_without_sync_date :
  forall (env : Env) (s : Machine),
    let sync := CacheFields.lastSyncAt (ClientFields.cache (client s)) in
    let now := Date_now env (World.clockReads (world s)) in
    (sync = None \/ sync = Some InvalidDate) ->
    fst (Client.isCacheValid env s) = Ret false
    /\ exists status s',
         Cache.getStatus env s = (Ret status, s')
         /\ CacheStatus.lastSyncAt status = sync
         /\ CacheStatus.isStale status
            = match sync with
              | None => (CacheFields.maxAge (ClientFields.cache (client s)) <? now)%Z
              | Some _ => false
              end.
Proof.
  intros env s sync now Hsync. subst sync now. split.
  - rewrite isCacheValid_reads. now destruct Hsync as [-> | ->].
  - unfold Cache.getStatus, Cache.fields, dateNow, bind, getEnv, getClient,
      getWorld, modifyWorld, ret. cbn.
    eexists _, _. split; [reflexivity |]. cbn. split; [reflexivity |].
    destruct Hsync as [-> | ->]; cbn; [| reflexivity].
    now rewrite Z.sub_0_r.
Qed.

(** ** The engine *)

Section EngineFacts.
Import LocalRAG.
Local Open Scope float_scope.

Lemma firstn_In {A : Type} (n : nat) (l : list A) (x : A) :
  In x (firstn n l) -> In x l.
Proof.
  revert l. induction n as [| n IH]; intros [| y l]; cbn; try tauto.
  intros [<- | H]; [now left | right; now apply IH].
Qed.

Lemma filter_length_le {A : Type} (f : A -> bool) (l : list A) :
  (List.length (filter f l) <= List.length l)%nat.
Proof.
  induction l as [| x l IH]; cbn; [lia |].
  destruct (f x); cbn; lia.
Qed.

(** X18. What [ask] returns as sources: at most three, each of a document of
    the index, with the title of the document, the first 200 characters
    of its content and its cosine score against the query, a score above
    0.1; the top score of a result with sources is the score of the first
    source, and its answer is a snippet of the document of that source. *)
Theorem ask_sources_bounded :
  forall (rag : t) (query : string),
    let result := ask rag query in
    (List.length (sources result) <= 3)%nat
    /\ Forall (fun src =>
                 (0.1 <? score src) = true
                 /\ exists doc,
                      In doc (documents rag)
                      /\ src = toSource (scored rag query doc))
              (sources result)
    /\ (forall src rest,
          sources result = src :: rest ->
          topScore result = score src
          /\ exists doc,
               In doc (documents rag)
               /\ src = toSource (scored rag query doc)
               /\ answer result
                  = extractRelevantSnippet (idoc_content doc) (tokenize query))
    /\ (isIndexed rag = false -> sources result = []).
Proof.
  intros rag query result. subst result.
  assert (Hin : forall r,
            In r (filter (fun r => 0.1 <? snd r) (firstn 3 (rankedScores rag query))) ->
            (0.1 <? snd r) = true
            /\ exists doc, In doc (documents rag) /\ r = scored rag query doc).
  { intros r Hr. apply filter_In in Hr. destruct Hr as [Hr Hs].
    split; [exact Hs |].
    apply firstn_In in Hr. unfold rankedScores in Hr. apply sortBy_In in Hr.
    apply in_map_iff in Hr. destruct Hr as (doc & <- & Hdoc). eauto. }
  assert (Hlen : (List.length (filter (fun r : Scored => (0.1 <? snd r)%float)
                                      (firstn 3 (rankedScores rag query))) <= 3)%nat).
  { etransitivity; [apply filter_length_le |]. apply firstn_le_length. }
  unfold ask, isIndexed.
  destruct (negb (indexed rag) || (List.length (documents rag) =? 0)%nat) eqn:E.
  - cbn [sources topScore answer List.length].
    split; [lia |]. split; [constructor |]. split; [discriminate | reflexivity].
  - destruct (filter _ _) as [| top tops] eqn:F; cbn [sources topScore answer].
    + cbn [List.length].
      split; [lia |]. split; [constructor |]. split; [discriminate | reflexivity].
    + split; [| split; [| split]].
      * rewrite length_map. exact Hlen.
      * apply Forall_forall. intros src Hsrc.
        apply in_map_iff in Hsrc. destruct Hsrc as (r & <- & Hr).
        destruct (Hin r Hr) as (Hs & doc & Hdoc & ->).
        split; [exact Hs | eauto].
      * intros src rest Hsrc. cbn [map] in Hsrc. injection Hsrc as <- _.
        split; [reflexivity |].
        destruct (Hin top (or_introl eq_refl)) as (_ & doc & Hdoc & ->).
        exists doc. auto.
      * intros Hno. apply orb_false_iff in E. destruct E as [E1 E2].
        apply negb_false_iff in E1. rewrite E1 in Hno. cbn [andb] in Hno.
        apply Nat.eqb_neq in E2. apply Nat.ltb_ge in Hno. lia.
Qed.

End EngineFacts.

Section EngineEdgeCases.
Import LocalRAG.
Local Open Scope float_scope.

(** When every document scores exactly 0, nothing passes the threshold. *)
Lemma ask_all_zero (rag : t) (query : string) :
  isIndexed rag = true ->
  (forall doc, In doc (documents rag) -> snd (scored rag query doc) = 0) ->
  ask rag query = nothingRelevant.
Proof.
  intros Hidx Hzero.
  assert (Hall : forall r, In r (rankedScores rag query) -> snd r = 0).
  { intros r Hr. unfold rankedScores in Hr. apply sortBy_In in Hr.
    apply in_map_iff in Hr. destruct Hr as (doc & <- & Hdoc). now apply Hzero. }
  unfold isIndexed in Hidx. apply andb_true_iff in Hidx. destruct Hidx as [Hi Hn].
  apply Nat.ltb_lt in Hn.
  unfold ask. rewrite Hi. cbn [negb orb].
  replace (List.length (documents rag) =? 0)%nat with false
    by (symmetry; apply Nat.eqb_neq; lia).
  assert (Hnone : filter (fun r : IndexedDocument * float => 0.1 <? snd r)
                         (firstn 3 (rankedScores rag query)) = []).
  { assert (H3 : forall r, In r (firstn 3 (rankedScores rag query)) -> snd r = 0).
    { intros r Hr. apply Hall. eapply firstn_In. exact Hr. }
    induction (firstn 3 (rankedScores rag query)) as [| r l IH]; [reflexivity |].
    cbn [filter]. rewrite (H3 r (or_introl eq_refl)).
    change (0.1 <? 0) with false. apply IH. intros r' Hr'. apply H3. now right. }
  cbv zeta. rewrite Hnone. unfold nothingRelevant. f_equal.
  destruct (rankedScores rag query) as [| r l]; [reflexivity |].
  cbn [hd_error option_map Num.orElse]. rewrite (Hall r (or_introl eq_refl)).
  reflexivity.
Qed.

Lemma cosineSimilarity_empty_query (vec : JsMap.t float) :
  cosineSimilarity [] vec = 0.
Proof. unfold cosineSimilarity. cbn [fold_left]. reflexivity. Qed.

Lemma cosineSimilarity_empty_document (vec : JsMap.t float) :
  cosineSimilarity vec [] = 0.
Proof.
  unfold cosineSimilarity.
  destruct (fold_left _ vec (0, 0)) as [dotProduct norm1].
  cbn [JsMap.values map fold_left].
  change (PrimFloat.eqb 0 0) with true. now rewrite orb_true_r.
Qed.

(** X19. A query without any token (empty, or made of stop words, short words
    and punctuation only) finds nothing in any index: every score is 0,
    no source is returned, the top score is 0 and the answer is the fixed
    'nothing relevant' text. *)
Theorem ask_without_query_tokens :
  forall (rag : t) (query : string),
    isIndexed rag = true ->
    tokenize query = [] ->
    ask rag query = nothingRelevant.
Proof.
  intros rag query Hidx Htok. apply ask_all_zero; [exact Hidx |].
  intros doc _. unfold scored, queryVector. rewrite Htok. cbn [snd].
  apply cosineSimilarity_empty_query.
Qed.

Lemma indexLoop_until_malformed (good : list CachedDocument) k rest :
  forall docFreq acc,
    indexLoop (map WellFormed good ++ Malformed k :: rest) docFreq acc
    = (Throw TypeError, acc ++ map pushed good).
Proof.
  induction good as [| d good IH]; intros docFreq acc; cbn [map app indexLoop].
  - now rewrite app_nil_r.
  - rewrite IH, <- app_assoc. reflexivity.
Qed.

(** X20. Indexing is not all or nothing.  At the first element whose content
    is not a string [index] throws, and the engine is left with the
    documents before that element, without their vectors, an empty IDF
    table and the indexed flag of before.  If the flag was set (an earlier
    indexing succeeded) and at least one document precedes the malformed
    one, the engine still reports to be indexed, and it answers every
    query with the fixed 'nothing relevant' text and top score 0. *)
Theorem index_failure_leaves_partial_index :
  forall (log : float -> float) (good : list CachedDocument) (k : option string)
         (rest : list JsDoc) (rag0 : t),
    let docs := DocArray (map WellFormed good ++ Malformed k :: rest) in
    let rag := {| documents := map pushed good; idf := [];
                  indexed := indexed rag0 |} in
    index log docs rag0 = (Throw TypeError, rag)
    /\ (indexed rag0 = true ->
        forall d ds, good = d :: ds ->
          isIndexed rag = true
          /\ forall query, ask rag query = nothingRelevant).
Proof.
  intros log good k rest rag0 docs rag. split.
  - unfold docs, index. now rewrite indexLoop_until_malformed.
  - intros Hflag d ds ->.
    assert (Hidx : isIndexed rag = true).
    { unfold isIndexed, rag. cbn. now rewrite Hflag. }
    split; [exact Hidx |].
    intros query. apply ask_all_zero; [exact Hidx |].
    intros doc Hdoc. unfold rag in Hdoc. cbn [documents] in Hdoc.
    apply in_map_iff in Hdoc. destruct Hdoc as (x & <- & _).
    unfold scored. cbn [snd pushed tfidf].
    apply cosineSimilarity_empty_document.
Qed.

(** When the engine counts as indexed: after [index] of well-formed
    documents exactly when there is at least one; never after [reset];
    not when new.  An engine that does not count as indexed answers every
    query with the fixed 'no information' result. *)
Lemma isIndexed_characterised :
  forall (log : float -> float) (docs : list CachedDocument) (rag0 : t)
         (query : string),
    isIndexed (snd (index log (DocArray (map WellFormed docs)) rag0))
      = negb (List.length docs =? 0)%nat
    /\ isIndexed (reset rag0) = false
    /\ isIndexed create = false
    /\ (isIndexed rag0 = false -> ask rag0 query = noInformation).
Proof.
  intros log docs rag0 query. split; [| split; [| split]].
  - rewrite isIndexed_index_wellFormed. now destruct docs.
  - reflexivity.
  - reflexivity.
  - unfold isIndexed, ask. intros H.
    replace (negb (indexed rag0) || (List.length (documents rag0) =? 0)%nat)
      with true; [reflexivity |].
    destruct (indexed rag0); cbn in *; [| reflexivity].
    destruct (documents rag0); [reflexivity | discriminate].
Qed.

End EngineEdgeCases.

(** ** More on tokenization *)

Section TokenizeAlgebra.
Import LocalRAG TokenizeSpec.

Ltac for_every_char c :=
  destruct c as [b0 b1 b2 b3 b4 b5 b6 b7];
  destruct b0, b1, b2, b3, b4, b5, b6, b7; vm_compute; (reflexivity || congruence || auto).

Lemma lowerChar_idempotent (c : ascii) : lowerChar (lowerChar c) = lowerChar c.
Proof. for_every_char c. Qed.

Lemma lowerChar_wordChar (c : ascii) : isWordChar (lowerChar c) = isWordChar c.
Proof. for_every_char c. Qed.

Lemma tokenChar_fixed (c : ascii) :
  isTokenChar c = true -> lowerChar c = c /\ isWordChar c = true.
Proof. for_every_char c; intros; try discriminate; auto. Qed.

Lemma smap_app (f : ascii -> ascii) (a b : string) :
  smap f (a ++ b) = (smap f a ++ smap f b)%string.
Proof. induction a as [| c a IH]; cbn; [reflexivity | now rewrite IH]. Qed.

Lemma toLowerCase_idempotent (s : string) :
  toLowerCase (toLowerCase s) = toLowerCase s.
Proof.
  unfold toLowerCase. induction s as [| c s IH]; cbn; [reflexivity |].
  now rewrite lowerChar_idempotent, IH.
Qed.

Lemma tokenize_runs (text : string) :
  tokenize text = filter keepToken (wordRuns (toLowerCase text) "").
Proof. unfold tokenize, JsString.split. apply split_is_wordRuns. discriminate. Qed.

Lemma runsOf_separator (word : ascii -> bool) (c : ascii) (a b : string) :
  word c = false ->
  forall cur,
    runsOf word (a ++ String c b) cur = runsOf word a cur ++ runsOf word b "".
Proof.
  intros Hc. induction a as [| x a IH]; intros cur; cbn [append runsOf].
  - now rewrite Hc.
  - destruct (word x); [apply IH |]. now rewrite IH, app_assoc.
Qed.

Lemma tokenChars_lower (s : string) :
  allChars isTokenChar s = true -> toLowerCase s = s.
Proof.
  unfold toLowerCase. induction s as [| c s IH]; cbn; [reflexivity |].
  intros H. apply andb_true_iff in H. destruct H as [Hc Hs].
  destruct (tokenChar_fixed c Hc) as [-> _]. now rewrite IH.
Qed.

Lemma runsOf_whole (s : string) :
  allChars isTokenChar s = true ->
  forall cur, runsOf isWordChar s cur = flush (cur ++ s).
Proof.
  induction s as [| c s IH]; cbn [allChars runsOf]; intros H cur.
  - assert (E : (cur ++ "")%string = cur) by (induction cur; cbn; congruence).
    now rewrite E.
  - apply andb_true_iff in H. destruct H as [Hc Hs].
    destruct (tokenChar_fixed c Hc) as [_ ->].
    rewrite (IH Hs). f_equal.
    induction cur as [| x cur IHc]; cbn; [reflexivity | now rewrite IHc].
Qed.

(** X21. The algebra of tokenization, for Latin-1 texts.  It ignores case:
    the tokens of a text are those of its lower-case form.  It works
    piece by piece: the tokens of two texts joined by a character whose
    lower-case form is no word character (a space, a punctuation mark, an
    accented Latin-1 letter) are the tokens of the first followed by the
    tokens of the second.  The condition is on the lower-case form
    because the text is lower-cased before it is split: a character that
    is no word character but lower-cases to one would join the pieces.
    There is no such character below 256 ([lowerChar_wordChar]); above,
    the Kelvin sign U+212A is one.  And tokens are stable: each token
    that [tokenize] returns is tokenized to itself and nothing else. *)
Theorem tokenize_algebra :
  forall (a b : string) (c : ascii),
    tokenize (toLowerCase a) = tokenize a
    /\ (isWordChar (lowerChar c) = false ->
        tokenize (a ++ String c b) = tokenize a ++ tokenize b)
    /\ Forall (fun token => tokenize token = [token]) (tokenize a).
Proof.
  intros a b c. split; [| split].
  - now rewrite !tokenize_runs, toLowerCase_idempotent.
  - intros Hc. rewrite !tokenize_runs. unfold toLowerCase, wordRuns.
    rewrite smap_app. cbn [smap].
    rewrite runsOf_separator by exact Hc.
    apply filter_app.
  - rewrite (tokenize_runs a).
    pose proof (Forall_filter keepToken (wordRuns_lowered a "" eq_refl)) as H.
    eapply Forall_impl; [| exact H].
    cbn beta. intros token [Hchars Hkeep].
    rewrite tokenize_runs, (tokenChars_lower token Hchars).
    unfold wordRuns. rewrite (runsOf_whole token Hchars). cbn [append].
    unfold flush. destruct token as [| x token]; [discriminate |].
    cbn [isEmpty filter]. now rewrite Hkeep.
Qed.

End TokenizeAlgebra.

(** ** The classification of errors *)

Lemma parseDigits_nonneg (ds : string) :
  forall acc, (0 <= acc)%Z -> (0 <= parseDigits ds acc)%Z.
Proof.
  induction ds as [| c ds IH]; intros acc Hacc; cbn [parseDigits]; [exact Hacc |].
  apply IH. unfold digitValue. lia.
Qed.

(** The conversion to a number never yields a negative value. *)
Lemma toNumber_nonneg (n : Z) :
  toNumber n = Infinity \/ exists z, toNumber n = Finite z /\ (0 <= z)%Z.
Proof.
  unfold toNumber.
  destruct (SpecFloat.binary_normalize _ _ _ _ _) as [s | s | | s m e]; auto.
  - right. exists 0%Z. split; [reflexivity | lia].
  - right. eexists. split; [reflexivity |]. apply Z.shiftl_nonneg. lia.
Qed.

(** X22. [normalizeError] by classes.  The code is one of AUTH_ERROR,
    RATE_LIMIT, SERVER_ERROR and NETWORK_ERROR.  A message that mentions
    401 or Unauthorized is an AUTH_ERROR even when it mentions 429 as
    well; every message that contains the digit 5 gets a code other than
    NETWORK_ERROR; a thrown value that is no [Error] is a NETWORK_ERROR
    without original error.  A retry-after hint is present exactly for
    RATE_LIMIT, and it is a number that is not negative: [Infinity]
    (digits beyond the range of binary64) or an integer from 0 on. *)
Theorem normalizeError_classes :
  forall e : Thrown,
    let c := Client.normalizeError e in
    (CyberneticError.code c = AUTH_ERROR \/ CyberneticError.code c = RATE_LIMIT
     \/ CyberneticError.code c = SERVER_ERROR
     \/ CyberneticError.code c = NETWORK_ERROR)
    /\ (forall msg, e = JsError msg ->
          (includes msg "401" || includes msg "Unauthorized" = true ->
           CyberneticError.code c = AUTH_ERROR)
          /\ (includes msg "5" = true ->
              ErrorCode_eqb (CyberneticError.code c) NETWORK_ERROR = false)
          /\ CyberneticError.originalError c = Some e)
    /\ (e = NotAnError ->
        CyberneticError.code c = NETWORK_ERROR
        /\ CyberneticError.originalError c = None)
    /\ ((exists n, CyberneticError.retryAfter c = Some n)
        <-> CyberneticError.code c = RATE_LIMIT)
    /\ (forall n, CyberneticError.retryAfter c = Some n ->
          n = Infinity \/ exists z, n = Finite z /\ (0 <= z)%Z).
Proof.
  intros e c. subst c.
  assert (Hhint : forall msg,
            Client.retryAfterOf msg = Infinity
            \/ exists z, Client.retryAfterOf msg = Finite z /\ (0 <= z)%Z).
  { intros msg. unfold Client.retryAfterOf, parseInt.
    destruct (matchRetryAfter msg); [apply toNumber_nonneg |].
    right. exists 60%Z. split; [reflexivity | lia]. }
  destruct e as [msg |]; cbn [Client.normalizeError].
  - destruct (includes msg "401" || includes msg "Unauthorized") eqn:E1;
      [| destruct (includes msg "429" || includes msg "Rate limit") eqn:E2;
         [| destruct (includes msg "5" || includes msg "Server") eqn:E3]];
      cbn [CyberneticError.code CyberneticError.retryAfter
           CyberneticError.originalError].
    all: split; [auto |].
    all: split;
      [ intros m Hm; injection Hm as <-;
        split; [intros H; (reflexivity || (rewrite E1 in H; discriminate)) |];
        split; [| reflexivity];
        intros H; try reflexivity;
        apply orb_false_iff in E3; destruct E3 as [E3 _]; congruence |].
    all: split; [discriminate |].
    all: split; [split; [intros [n H]; (discriminate || reflexivity)
                        | intros H; (discriminate || eauto)] |].
    all: intros n H; try discriminate; injection H as <-; apply Hhint.
  - cbn. split; [auto |]. split; [discriminate |]. split; [auto |].
    split; [split; [intros [n H] | intros H]; discriminate | discriminate].
Qed.

(** ** The streaming variant *)

Lemma run_block {A X : Type} (view : Machine -> X) (m : M A) :
  returns m -> preserves view m ->
  forall env s, exists a s', m env s = (Ret a, s') /\ view s' = view s.
Proof.
  intros Hr Hp env s. destruct (Hr env s) as (a & s' & H).
  exists a, s'. split; [exact H |]. specialize (Hp env s). now rewrite H in Hp.
Qed.

Lemma returns_streamChunks chunks :
  forall fullText sources sessionId,
    returns (Client.streamChunks chunks fullText sources sessionId).
Proof.
  induction chunks as [| chunk rest IH]; intros fullText sources sessionId;
    cbn [Client.streamChunks].
  - apply returns_ret.
  - destruct chunk; repeat total_step; apply IH.
Qed.

Ltac same_terminals :=
  intros ? ?; run_steps; split_cases;
  unfold terminalView, terminalsOf; cbn;
  rewrite ?filter_app; cbn; rewrite ?app_nil_r; reflexivity.

Lemma streamChunks_terminalView chunks :
  forall fullText sources sessionId,
    preserves terminalView (Client.streamChunks chunks fullText sources sessionId).
Proof.
  induction chunks as [| chunk rest IH]; intros fullText sources sessionId;
    cbn [Client.streamChunks].
  - now intros env s.
  - destruct chunk;
      repeat (match goal with
              | |- preserves _ (bind _ _) => apply preserves_bind; [| intros ?]
              | |- preserves _ (emit _) => same_terminals
              end); apply IH.
Qed.

Lemma fallbackAsk_terminalView message :
  preserves terminalView (Client.fallbackAsk message).
Proof. same_terminals. Qed.

Lemma checkSystemStatus_terminalView :
  preserves terminalView Client.checkSystemStatus.
Proof. same_terminals. Qed.

Lemma fallback_completes message env s :
  exists s' response,
    (response <- Client.fallbackAsk message ;; emit (EvComplete response)) env s
    = (Ret tt, s')
    /\ terminalView s' = terminalView s ++ [EvComplete response]
    /\ Response.offline response = true
    /\ World.streamCalls (world s') = World.streamCalls (world s).
Proof.
  destruct (fallbackAsk_answers message env s) as (answer & s1 & Hrun & Hshape).
  assert (Hoff : Response.offline answer = true)
    by (destruct Hshape as [-> | [-> | [st ->]]]; reflexivity).
  pose proof (fallbackAsk_networkView message env s) as Hnet.
  pose proof (fallbackAsk_terminalView message env s) as HT.
  rewrite Hrun in HT, Hnet. cbn [snd] in HT, Hnet.
  unfold bind. rewrite Hrun, terminals_emit.
  eexists _, answer. split; [reflexivity |].
  unfold terminalView in *. cbn. unfold terminalsOf in *.
  rewrite filter_app, HT. cbn.
  unfold networkView in Hnet. injection Hnet as _ Hs _ _. auto.
Qed.

Lemma apiChatStream_ends message sid env s :
  (exists s' terminal,
     Client.apiChatStream message sid env s = (Ret tt, s')
     /\ terminalView s' = terminalView s ++ [terminal]
     /\ isTerminalShape terminal)
  \/ (exists e s',
        Client.apiChatStream message sid env s = (Throw e, s')
        /\ terminalView s' = terminalView s).
Proof.
  unfold Client.apiChatStream, bind, getEnv, getWorld, modifyWorld.
  cbn [fst snd world client]. rewrite terminals_emit. cbn [world client].
  set (s1 := {| client := client s;
                world := World.addEvent (EvChatStream message sid)
                           (World.tickStream (world s)) |}).
  assert (H1 : terminalView s1 = terminalView s).
  { unfold terminalView, terminalsOf, s1. cbn.
    now rewrite filter_app, app_nil_r. }
  destruct (api_chatStream env (World.streamCalls (world s)) message sid)
    as [e | chunks failure].
  - right. exists e, s1. split; [reflexivity | exact H1].
  - left.
    destruct (run_block (returns_streamChunks chunks "" [] None)
                (streamChunks_terminalView chunks "" [] None) env s1)
      as ([[fullText sources] sessionId] & s2 & Hrun & H2).
    rewrite Hrun. destruct failure as [readError |].
    + rewrite !terminals_emit. cbn [world client].
      eexists _, _. split; [reflexivity |]. split.
      * unfold terminalView, terminalsOf in *. cbn.
        rewrite !filter_app. cbn. rewrite app_nil_r.
        now rewrite H2, H1.
      * right. eauto.
    + destruct (setStatus_run online env s2) as (s3 & Hst & _ & Hev & _).
      rewrite Hst, terminals_emit.
      eexists _, _. split; [reflexivity |]. split.
      * unfold terminalView, terminalsOf in *. cbn.
        rewrite filter_app, Hev, filter_app. cbn.
        destruct (ConnectionStatus_eqb _ _); cbn; rewrite app_nil_r;
          now rewrite H2, H1.
      * left. eauto.
Qed.

(** With a host whose callbacks return, the streaming methods are those
    of [Client]. *)
Section QuietStreams.
Variable callbacks : Host.Callbacks.
Hypothesis Hquiet : quiet callbacks.

Lemma guarded_notify_quiet e env s :
  tryCatch (Host.notify callbacks e) (fun _ => ret tt) env s = emit e env s.
Proof. unfold tryCatch. now rewrite (notify_quiet Hquiet). Qed.

Lemma streamChunks_quiet chunks :
  forall fullText sources sessionId env s,
    Host.streamChunks callbacks chunks fullText sources sessionId env s
    = Client.streamChunks chunks fullText sources sessionId env s.
Proof.
  induction chunks as [| chunk rest IH]; intros fullText sources sessionId env s;
    cbn [Host.streamChunks Client.streamChunks]; [reflexivity |].
  destruct chunk; try apply IH.
  - unfold bind. rewrite guarded_notify_quiet, terminals_emit. apply IH.
  - unfold bind. rewrite guarded_notify_quiet, terminals_emit. apply IH.
Qed.

Lemma apiChatStream_quiet message sid env s :
  Host.apiChatStream callbacks message sid env s
  = Client.apiChatStream message sid env s.
Proof.
  unfold Host.apiChatStream, Client.apiChatStream.
  unfold bind at 1 2 3 4. symmetry. unfold bind at 1 2 3 4. symmetry.
  unfold getEnv, getWorld, modifyWorld. cbn [fst snd world client].
  rewrite terminals_emit.
  destruct (api_chatStream _ _ _ _) as [e | chunks failure]; [reflexivity |].
  unfold bind at 1. symmetry. unfold bind at 1. symmetry.
  rewrite streamChunks_quiet.
  destruct (Client.streamChunks _ _ _ _ _ _) as [[[[fullText sources] sessionId] | e] s2];
    [| reflexivity].
  unfold tryCatch. destruct failure as [readError |].
  - unfold throw, bind. rewrite (notify_quiet Hquiet), !terminals_emit.
    apply (notify_quiet Hquiet).
  - unfold bind. rewrite (setStatus_quiet Hquiet).
    destruct (setStatus_run online env s2) as (s3 & Hst & _).
    rewrite Hst. rewrite (notify_quiet Hquiet). reflexivity.
Qed.

Lemma askStream_quiet message options env s :
  Host.askStream callbacks message options env s
  = Client.askStream message options env s.
Proof.
  destruct message as [[| c rest] |]; cbn [Host.askStream Client.askStream];
    try apply (notify_quiet Hquiet).
  unfold bind at 1. symmetry. unfold bind at 1. symmetry.
  destruct (Client.checkSystemStatus env s) as [[settings | e] s1]; [| reflexivity].
  destruct (_ || _).
  - unfold bind. rewrite (fallbackAsk_quiet Hquiet).
    destruct (Client.fallbackAsk _ env s1) as [[response | e] s2]; [| reflexivity].
    apply (notify_quiet Hquiet).
  - unfold tryCatch. rewrite apiChatStream_quiet.
    destruct (Client.apiChatStream _ _ env s1) as [[[] | e] s2]; [reflexivity |].
    unfold bind at 1 2 3. symmetry. unfold bind at 1 2 3. symmetry.
    unfold modifyClient, getClient. cbn [fst snd].
    rewrite (notify_quiet Hquiet), terminals_emit. cbn [client].
    destruct (_ && _); [| apply (notify_quiet Hquiet)].
    unfold bind. rewrite (fallbackAsk_quiet Hquiet).
    destruct (Client.fallbackAsk _ env _) as [[response | e'] s3]; [| reflexivity].
    apply (notify_quiet Hquiet).
Qed.

End QuietStreams.

(** X23. With a host whose callbacks return, every call of [askStream] ends its
    stream once: it returns normally and exactly one terminal callback has
    been called, [onComplete] or the stream's [onError], never both and
    never none, whatever the message, the transport and the storage do.
    In maintenance mode the call completes with the answer of the fallback
    path, an answer marked offline (the validity of the cache is not
    looked at, unlike in [ask]), and the stream endpoint is not
    contacted.  (A callback that throws breaks this: [onComplete] is
    called inside the [try] of [chatStream], whose [catch] then calls
    the stream's [onError] too; see [askStream_complete_throws].) *)
Theorem askStream_ends_once :
  forall (callbacks : Host.Callbacks) (message : MessageArg)
         (options : option AskOptions.t) (env : Env) (s : Machine),
  quiet callbacks ->
  exists (s' : Machine) (terminal : Event),
    Host.askStream callbacks message options env s = (Ret tt, s')
    /\ terminalsOf (World.events (world s'))
       = terminalsOf (World.events (world s)) ++ [terminal]
    /\ isTerminalShape terminal
    /\ (forall msg settings s1,
          message = Str msg -> isEmpty msg = false ->
          Client.checkSystemStatus env s = (Ret settings, s1) ->
          SystemSettings.maintenanceMode settings
            || SystemSettings.forceOfflineClients settings = true ->
          World.streamCalls (world s') = World.streamCalls (world s)
          /\ exists response,
               terminal = EvComplete response
               /\ Response.offline response = true).
Proof.
  intros callbacks message options env s Hquiet.
  rewrite (askStream_quiet Hquiet).
  assert (Hinvalid :
    exists s' terminal,
      emit (EvStreamError
              {| CyberneticError.code := LOCAL_RAG_ERROR;
                 CyberneticError.message := "Message is required";
                 CyberneticError.retryAfter := None;
                 CyberneticError.originalError := None |}) env s = (Ret tt, s')
      /\ terminalsOf (World.events (world s'))
         = terminalsOf (World.events (world s)) ++ [terminal]
      /\ isTerminalShape terminal).
  { rewrite terminals_emit. eexists _, _. split; [reflexivity |]. split.
    - unfold terminalsOf. cbn. now rewrite filter_app.
    - right. eauto. }
  destruct message as [[| c rest] |]; cbn [Client.askStream].
  - destruct Hinvalid as (s' & terminal & Hrun & HT & Hshape).
    exists s', terminal. split; [exact Hrun |]. split; [exact HT |].
    split; [exact Hshape |].
    intros msg settings s1 Hm Hne. injection Hm as <-. discriminate.
  - unfold bind at 1.
    destruct (run_block returns_checkSystemStatus
                checkSystemStatus_terminalView env s)
      as (settings & s1 & Hcheck & HT1).
    assert (Hstream : World.streamCalls (world s1) = World.streamCalls (world s)).
    { assert (K : preserves (fun m => World.streamCalls (world m))
                            Client.checkSystemStatus) by by_running.
      specialize (K env s). now rewrite Hcheck in K. }
    rewrite Hcheck.
    destruct (_ || _) eqn:Hflags.
    + destruct (fallback_completes (String c rest) env s1)
        as (s' & response & Hrun & HT & Hoff & Hs).
      rewrite Hrun.
      exists s', (EvComplete response). split; [reflexivity |].
      split; [unfold terminalView in *; now rewrite HT, HT1 |].
      split; [left; eauto |].
      intros msg settings0 s0 _ _ _ _. split; [congruence | eauto].
    + match goal with
      | |- context [tryCatch ?m ?h env s1] =>
          assert (Hlive :
            exists s' terminal,
              tryCatch m h env s1 = (Ret tt, s')
              /\ terminalView s' = terminalView s1 ++ [terminal]
              /\ isTerminalShape terminal)
      end.
      { unfold tryCatch.
        destruct (apiChatStream_ends (String c rest) (Client.sessionIdOf options) env s1)
          as [(s' & terminal & Hrun & HT & Hshape) | (e & s2 & Hrun & HT)];
          rewrite Hrun.
        - eauto.
        - unfold bind at 1 2 3. unfold modifyClient at 1. rewrite terminals_emit.
          unfold getClient at 1. cbn [client world].
          set (s3 := {| client := _; world := _ |}).
          assert (H3 : terminalView s3 = terminalView s2).
          { unfold terminalView, terminalsOf, s3. cbn.
            now rewrite filter_app, app_nil_r. }
          destruct (_ && _); clearbody s3.
          + destruct (fallback_completes (String c rest) env s3)
              as (s' & response & Hrun' & HT' & _).
            rewrite Hrun'. exists s', (EvComplete response).
            split; [reflexivity |]. split; [congruence | left; eauto].
          + rewrite terminals_emit. eexists _, _. split; [reflexivity |]. split.
            * unfold terminalView, terminalsOf in *. cbn.
              rewrite filter_app. cbn. now rewrite H3, HT.
            * right. eauto. }
      destruct Hlive as (s' & terminal & Hrun & HT & Hshape).
      rewrite Hrun. exists s', terminal. split; [reflexivity |].
      split; [unfold terminalView in *; now rewrite HT, HT1 |].
      split; [exact Hshape |].
      intros msg settings0 s0 _ _ H0 Hm.
      injection H0 as <- <-. congruence.
  - destruct Hinvalid as (s' & terminal & Hrun & HT & Hshape).
    exists s', terminal. split; [exact Hrun |]. split; [exact HT |].
    split; [exact Hshape | discriminate].
Qed.

(** ** The reading of a stream (ApiClient.ts) *)

Section StreamLines.
Import ApiClient.
Variable JSON_parse : string -> option StreamData.

Lemma splitOn_nonempty sep s : forall cur, splitOn sep s cur <> [].
Proof.
  induction s as [| c s IH]; intros cur; cbn [splitOn]; [discriminate |].
  destruct (Ascii.eqb c sep); [discriminate | apply IH].
Qed.

Lemma removelast_cons {A : Type} (x : A) (l : list A) :
  l <> [] -> removelast (x :: l) = x :: removelast l.
Proof. destruct l; [congruence | reflexivity]. Qed.

Lemma last_cons {A : Type} (x : A) (l : list A) (d : A) :
  l <> [] -> last (x :: l) d = last l d.
Proof. destruct l; [congruence | reflexivity]. Qed.

(** Splitting a text in two parts splits the lines of the first part off;
    its last piece is continued by the second part. *)
Lemma splitOn_app sep (a b : string) :
  forall cur,
    splitOn sep (a ++ b) cur
    = removelast (splitOn sep a cur)
      ++ splitOn sep b (last (splitOn sep a cur) "").
Proof.
  induction a as [| c a IH]; intros cur; cbn [append splitOn].
  - reflexivity.
  - destruct (Ascii.eqb c sep).
    + rewrite IH.
      rewrite removelast_cons, last_cons by apply splitOn_nonempty.
      reflexivity.
    + apply IH.
Qed.

(** A buffer without line feed is the beginning of the first line. *)
Lemma splitOn_buffer (buffer value : string) :
  noLineFeed buffer = true ->
  forall cur,
    splitOn lineFeed (buffer ++ value) cur = splitOn lineFeed value (cur ++ buffer).
Proof.
  induction buffer as [| c buffer IH]; cbn [noLineFeed append]; intros H cur.
  - now rewrite append_empty.
  - apply andb_true_iff in H. destruct H as [Hc Hb]. apply negb_true_iff in Hc.
    cbn [splitOn]. rewrite Hc, (IH Hb), append_assoc. reflexivity.
Qed.

Lemma noLineFeed_app (a b : string) :
  noLineFeed (a ++ b) = noLineFeed a && noLineFeed b.
Proof.
  induction a as [| c a IH]; cbn; [reflexivity |].
  now rewrite IH, andb_assoc.
Qed.

Lemma splitOn_last_noLineFeed (s : string) :
  forall cur,
    noLineFeed cur = true -> noLineFeed (last (splitOn lineFeed s cur) "") = true.
Proof.
  induction s as [| c s IH]; intros cur Hcur; cbn [splitOn]; [exact Hcur |].
  destruct (Ascii.eqb c lineFeed) eqn:E.
  - rewrite last_cons by apply splitOn_nonempty. now apply IH.
  - apply IH. rewrite noLineFeed_app, Hcur. cbn [noLineFeed andb]. now rewrite E.
Qed.

Lemma handleLines_app (a b : list string) :
  handleLines JSON_parse (a ++ b)
  = handleLines JSON_parse a ++ handleLines JSON_parse b.
Proof. apply flat_map_app. Qed.

Lemma readLoop_lines (reads : list string) :
  forall buffer,
    noLineFeed buffer = true ->
    readLoop JSON_parse reads buffer
    = handleLines JSON_parse
        (removelast (splitOn lineFeed (received reads) buffer)).
Proof.
  induction reads as [| value rest IH]; intros buffer Hbuffer;
    cbn [readLoop received fold_right].
  - reflexivity.
  - unfold lines. rewrite (@splitOn_buffer buffer value Hbuffer). cbn [append].
    fold (received rest). rewrite splitOn_app.
    rewrite removelast_app by apply splitOn_nonempty.
    rewrite handleLines_app. f_equal.
    apply IH. now apply splitOn_last_noLineFeed.
Qed.

(** X24. The events of a stream do not depend on how the transport cuts the
    body into pieces: they are those of the complete lines of the whole
    text received, in order, and two sequences of reads that add up to the
    same text give the same events.  What follows the last line feed is
    never handled: a final event that is not terminated by a line feed is
    lost. *)
Theorem readLoop_by_lines :
  forall (reads reads' : list string) (text rest : string),
    readLoop JSON_parse reads ""
      = handleLines JSON_parse (removelast (lines (received reads)))
    /\ (received reads = received reads' ->
        readLoop JSON_parse reads "" = readLoop JSON_parse reads' "")
    /\ (noLineFeed rest = true ->
        readLoop JSON_parse [text; String lineFeed rest] ""
        = handleLines JSON_parse (lines text)).
Proof.
  intros reads reads' text rest.
  assert (H : forall r, readLoop JSON_parse r ""
                        = handleLines JSON_parse (removelast (lines (received r)))).
  { intros r. now apply readLoop_lines. }
  split; [apply H |]. split.
  - intros E. now rewrite !H, E.
  - intros Hrest.
    assert (E : forall s cur, noLineFeed s = true ->
                  splitOn lineFeed s cur = [(cur ++ s)%string]).
    { clear. induction s as [| c s IH]; intros cur Hs; cbn [splitOn noLineFeed] in *.
      - now rewrite append_empty.
      - apply andb_true_iff in Hs. destruct Hs as [Hc Hs].
        apply negb_true_iff in Hc. rewrite Hc, (IH _ Hs), append_assoc. reflexivity. }
    rewrite H. unfold lines, received. cbn [fold_right].
    rewrite append_empty, splitOn_app. cbn [splitOn].
    rewrite Ascii.eqb_refl, (E rest "" Hrest).
    rewrite removelast_app by discriminate. cbn [removelast].
    rewrite <- app_removelast_last by apply splitOn_nonempty.
    reflexivity.
Qed.

End StreamLines.

(** ** The errors of the transport, classified *)

Lemma includes_here (sub rest : string) : includes (sub ++ rest) sub = true.
Proof.
  assert (H : String.prefix sub (sub ++ rest) = true).
  { induction sub as [| c sub IH]; cbn; [now destruct rest |].
    destruct (ascii_dec c c); [exact IH | congruence]. }
  destruct sub; cbn [append includes] in *; [now destruct rest |].
  now rewrite H.
Qed.

Lemma includes_later (before s sub : string) :
  includes s sub = true -> includes (before ++ s) sub = true.
Proof.
  intros H. induction before as [| c before IH]; cbn [append includes]; [exact H |].
  rewrite IH. apply orb_true_r.
Qed.

Lemma statusCode_5xx (k : nat) :
  (k < 100)%nat ->
  exists rest, ApiClient.statusCode (500 + k) = String "5" rest.
Proof.
  intros Hk.
  do 100 (destruct k as [| k]; [vm_compute; eauto |]).
  lia.
Qed.

(** X25. How the failures of [chat] are classified.  Without a truthy message
    in the body, the status line decides: 401 is an AUTH_ERROR, 429 is a
    RATE_LIMIT (unless the status text mentions 401 or Unauthorized), and
    every status from 500 to 599 gets a code other than NETWORK_ERROR.
    With a truthy message in the body, the status plays no part: the
    error is classified by the words of that message alone, so a 429
    whose message mentions neither 401, Unauthorized, 429 nor 'Rate
    limit' is not a RATE_LIMIT and is retried.  When the body is the JSON
    value [null], the read of its message throws a [TypeError], which
    is what [chat] rejects with whatever the status is: a NETWORK_ERROR,
    retried even on a 401 or a 429. *)
Theorem chat_failure_classified :
  forall (status : nat) (statusText message : string),
    let code e := CyberneticError.code (Client.normalizeError e) in
    code (ApiClient.chatError 401 statusText ApiClient.NoMessage) = AUTH_ERROR
    /\ (includes statusText "401" || includes statusText "Unauthorized" = false ->
        code (ApiClient.chatError 429 statusText ApiClient.NoMessage) = RATE_LIMIT)
    /\ ((500 <= status <= 599)%nat ->
        ErrorCode_eqb (code (ApiClient.chatError status statusText ApiClient.NoMessage))
                      NETWORK_ERROR = false)
    /\ Client.normalizeError
         (ApiClient.chatError status statusText (ApiClient.TruthyMessage message))
       = Client.normalizeError (JsError message)
    /\ (includes message "401" || includes message "Unauthorized" = false ->
        includes message "429" || includes message "Rate limit" = false ->
        Client.noRetry
          (code (ApiClient.chatError 429 statusText (ApiClient.TruthyMessage message)))
        = false)
    /\ (ApiClient.chatError status statusText ApiClient.NullBody = TypeError
        /\ code (ApiClient.chatError status statusText ApiClient.NullBody)
           = NETWORK_ERROR
        /\ Client.noRetry (code (ApiClient.chatError status statusText ApiClient.NullBody))
           = false).
Proof.
  intros status statusText message code. subst code.
  split; [| split; [| split; [| split; [| split]]]].
  - reflexivity.
  - intros H. unfold ApiClient.chatError.
    change (ApiClient.statusCode 429) with "429".
    cbn [Client.normalizeError].
    assert (E1 : includes ("HTTP 429: " ++ statusText) "401"
                 || includes ("HTTP 429: " ++ statusText) "Unauthorized" = false).
    { cbn. apply orb_false_iff in H. destruct H as [H1 H2].
      cbn in H1, H2. now rewrite H1, H2. }
    cbn [append] in E1 |- *. rewrite E1. reflexivity.
  - intros Hs.
    destruct (@statusCode_5xx (status - 500)) as [rest Hrest]; [lia |].
    replace (500 + (status - 500))%nat with status in Hrest by lia.
    unfold ApiClient.chatError.
    rewrite Hrest. cbn [append Client.normalizeError].
    assert (E5 : forall x,
                   includes (String "H" (String "T" (String "T" (String "P" (String " "
                     (String "5" x)))))) "5" = true).
    { intros x. apply (includes_later "HTTP "). apply (includes_here "5"). }
    destruct (_ || _); [reflexivity |].
    destruct (_ || _); [reflexivity |].
    rewrite E5. reflexivity.
  - reflexivity.
  - intros H1 H2. unfold ApiClient.chatError.
    cbn [Client.normalizeError]. rewrite H1, H2.
    destruct (includes message "5" || includes message "Server"); reflexivity.
  - repeat split.
Qed.

(** ** The failures of a stream *)

Lemma apiChatStream_run message sid env s :
  Client.apiChatStream message sid env s
  = match api_chatStream env (World.streamCalls (world s)) message sid with
    | StreamRejected e => (Throw e, afterStreamRequest message sid s)
    | StreamRead chunks failure =>
        (data <- Client.streamChunks chunks "" [] None ;;
         match failure with
         | Some readError =>
             emit (EvError (Client.normalizeError readError)) ;;
             emit (EvStreamError (Client.normalizeError readError))
         | None =>
             let '(fullText, sources, sid') := data in
             Client.setStatus online ;;
             emit (EvComplete
                     {| Response.reply := fullText;
                        Response.confidence := high;
                        Response.sources := sources;
                        Response.offline := false;
                        Response.sessionId := sid';
                        Response.retryAfter := None;
                        Response.degradedReason := None |})
         end) env (afterStreamRequest message sid s)
    end.
Proof.
  unfold Client.apiChatStream, bind, getEnv, getWorld, modifyWorld, emit.
  cbn [fst snd world client].
  destruct (api_chatStream _ _ _ _); reflexivity.
Qed.

(** The data events are delivered in order; nothing else happens. *)
Lemma streamChunks_run chunks :
  forall fullText sources sessionId env s,
  exists data s',
    Client.streamChunks chunks fullText sources sessionId env s = (Ret data, s')
    /\ client s' = client s
    /\ World.events (world s') = World.events (world s) ++ deliveries chunks
    /\ networkView s' = networkView s.
Proof.
  induction chunks as [| chunk rest IH]; intros fullText sources sessionId env s;
    cbn [Client.streamChunks deliveries flat_map].
  - eexists _, s. rewrite app_nil_r. now repeat split.
  - destruct chunk as [text | l | id]; unfold bind; rewrite ?terminals_emit.
    + destruct (IH (fullText ++ text)%string sources sessionId env
                   {| client := client s;
                      world := World.addEvent (EvToken text) (world s) |})
        as (data & s' & Hrun & Hc & Hev & Hnet).
      exists data, s'. split; [exact Hrun |]. split; [exact Hc |].
      split; [| exact Hnet].
      rewrite Hev. cbn. now rewrite <- app_assoc.
    + destruct (IH fullText l sessionId env
                   {| client := client s;
                      world := World.addEvent (EvSources l) (world s) |})
        as (data & s' & Hrun & Hc & Hev & Hnet).
      exists data, s'. split; [exact Hrun |]. split; [exact Hc |].
      split; [| exact Hnet].
      rewrite Hev. cbn. now rewrite <- app_assoc.
    + apply IH.
Qed.


(** ** The configuration file (config.ts) *)

Lemma prefix_am (key : string) :
  String.prefix "am_" key = true <-> exists rest, key = ("am_" ++ rest)%string.
Proof.
  split.
  - destruct key as [| a [| b [| c more]]]; cbn [String.prefix];
      repeat (match goal with
              | |- context [ascii_dec ?x ?y] => destruct (ascii_dec x y)
              end);
      intros H; try discriminate H.
    subst. now exists more.
  - intros [rest ->]. cbn [append String.prefix].
    repeat (destruct (ascii_dec _ _); [| congruence]).
    now destruct rest.
Qed.

(** X27. [validateConfig] accepts exactly the objects whose [apiUrl] is a
    non-empty string and whose [apiKey] is a string that starts with
    'am_'; it never returns false, it throws.  [loadConfig] validates the
    global configuration object only: the configuration read from the
    script tag is returned as it is, with the default URL for a missing
    or empty one, whether or not its key would pass the validation. *)
Theorem validateConfig_accepts :
  forall (config : ConfigFile.Value),
    (ConfigFile.validateConfig config = Ret true
     <-> exists url rest,
           config = ConfigFile.Object (ConfigFile.FString url)
                                      (ConfigFile.FString ("am_" ++ rest))
           /\ isEmpty url = false)
    /\ (forall b, ConfigFile.validateConfig config = Ret b -> b = true)
    /\ (forall script loaded,
          ConfigFile.loadConfig (ConfigFile.Window (Some config) script)
            = Ret (Some loaded) ->
          loaded = config /\ ConfigFile.validateConfig config = Ret true)
    /\ (forall url key,
        exists loadedUrl,
          ConfigFile.loadConfig (ConfigFile.Window None (Some (url, key)))
          = Ret (Some (ConfigFile.Object
                         (ConfigFile.FString loadedUrl)
                         (ConfigFile.FString (ConfigFile.attributeOr key ""))))
          /\ isEmpty loadedUrl = false).
Proof.
  intros config.
  assert (Hbool : forall b, ConfigFile.validateConfig config = Ret b -> b = true).
  { intros b. destruct config as [| [url |] [key |]]; cbn; try discriminate;
      repeat (match goal with
              | |- context [if ?c then _ else _] => destruct c; try discriminate
              end); congruence. }
  split; [| split; [exact Hbool | split]].
  - split.
    + destruct config as [| [url |] [key |]]; cbn; try discriminate.
      * destruct (isEmpty url) eqn:Eu; cbn; [discriminate |].
        destruct (isEmpty key); [discriminate |].
        destruct (String.prefix "am_" key) eqn:Ek; cbn; [| discriminate].
        intros _. apply prefix_am in Ek. destruct Ek as [rest ->].
        exists url, rest. split; [reflexivity | exact Eu].
      * destruct (isEmpty url); cbn; discriminate.
    + intros (url & rest & -> & Hu). cbn. rewrite Hu. cbn. now destruct rest.
  - intros script loaded. cbn.
    destruct (ConfigFile.validateConfig config) as [b | e] eqn:E; [| discriminate].
    intros H. injection H as <-. split; [reflexivity |].
    now rewrite (Hbool b eq_refl).
  - intros url key. eexists. split; [reflexivity |].
    destruct url as [[| c u] |]; reflexivity.
Qed.

(** ** The gate of the agent (agentic/CyberneticAgent.ts) *)

Section AgentGate.
Import Agent.
Local Open Scope Z_scope.
Variable perform : AgentAction -> Outcome ActionResult.

Lemma admitted_cons (cfg : Config) (call : Z * AgentAction)
      (calls : list (Z * AgentAction)) :
  admitted cfg (call :: calls)
  = (if isActionAllowed cfg (snd call) then 1 else 0) + admitted cfg calls.
Proof.
  unfold admitted, allowedCalls. cbn [filter].
  destruct (isActionAllowed cfg (snd call)); cbn [List.length]; lia.
Qed.

Lemma admitted_nonneg (cfg : Config) (calls : list (Z * AgentAction)) :
  0 <= admitted cfg calls.
Proof. unfold admitted. lia. Qed.

(** One call inside the window. *)
Lemma executeAction_in_window (cfg : Config) (reset count now : Z) (a : AgentAction) :
  now - reset <= 60000 ->
  executeAction perform cfg now a {| actionCount := count; lastActionReset := reset |}
  = if maxActions cfg <=? count
    then (Ret (rateLimited cfg), {| actionCount := count; lastActionReset := reset |})
    else if isActionAllowed cfg a
         then (dispatch perform a,
               {| actionCount := count + 1; lastActionReset := reset |})
         else (Ret (notAllowed a),
               {| actionCount := count; lastActionReset := reset |}).
Proof.
  intros Hnow. unfold executeAction. cbn [lastActionReset actionCount].
  replace (60000 <? now - reset) with false by (symmetry; apply Z.ltb_ge; lia).
  cbn [lastActionReset actionCount].
  destruct (maxActions cfg <=? count); [reflexivity |].
  destruct (isActionAllowed cfg a); reflexivity.
Qed.

Lemma executeAll_window (cfg : Config) (reset : Z) (calls : list (Z * AgentAction)) :
  Forall (fun call => fst call - reset <= 60000) calls ->
  forall count,
    let st := {| actionCount := count; lastActionReset := reset |} in
    let run := executeAll perform cfg calls st in
    actionCount (snd run)
    = Z.max count (Z.min (maxActions cfg) (count + admitted cfg calls))
    /\ lastActionReset (snd run) = reset
    /\ List.length (fst run) = List.length calls
    /\ (forall i now a,
          nth_error calls i = Some (now, a) ->
          nth_error (fst run) i
          = Some (if maxActions cfg <=? count + admitted cfg (firstn i calls)
                  then Ret (rateLimited cfg)
                  else if isActionAllowed cfg a
                       then dispatch perform a
                       else Ret (notAllowed a))).
Proof.
  induction 1 as [| [now a] calls Hnow Hcalls IH]; intros count st run;
    subst st run; cbn [executeAll fst snd List.length].
  - cbn [actionCount lastActionReset]. unfold admitted. cbn.
    repeat split; [lia |]. intros [| i] now a; discriminate.
  - cbn [fst] in Hnow. rewrite (@executeAction_in_window cfg reset count now a Hnow).
    rewrite admitted_cons. cbn [snd].
    pose proof (admitted_nonneg cfg calls) as Hadm.
    assert (Hnth :
      forall count' o i now' a',
        nth_error ((now, a) :: calls) i = Some (now', a') ->
        o = (if maxActions cfg <=? count then Ret (rateLimited cfg)
             else if isActionAllowed cfg a then dispatch perform a
                  else Ret (notAllowed a)) ->
        ((maxActions cfg <=? count) = true -> count' = count) ->
        ((maxActions cfg <=? count) = false ->
         count' = count + (if isActionAllowed cfg a then 1 else 0)) ->
        nth_error (o :: fst (executeAll perform cfg calls
                               {| actionCount := count'; lastActionReset := reset |})) i
        = Some (if maxActions cfg
                   <=? count + admitted cfg (firstn i ((now, a) :: calls))
                then Ret (rateLimited cfg)
                else if isActionAllowed cfg a'
                     then dispatch perform a'
                     else Ret (notAllowed a'))).
    { intros count' o [| i] now' a' Hi Ho Hlim Hfree.
      - cbn in Hi. injection Hi as <- <-. cbn [nth_error firstn].
        unfold admitted at 1. cbn. rewrite Z.add_0_r. now rewrite Ho.
      - cbn [nth_error firstn] in Hi |- *.
        destruct (IH count') as (_ & _ & _ & H4). rewrite (H4 i now' a' Hi).
        rewrite admitted_cons. cbn [snd].
        pose proof (admitted_nonneg cfg (firstn i calls)) as Hpre.
        destruct (maxActions cfg <=? count) eqn:E.
        + rewrite (Hlim eq_refl). apply Z.leb_le in E.
          replace (maxActions cfg <=? count + admitted cfg (firstn i calls))
            with true by (symmetry; apply Z.leb_le; lia).
          replace (maxActions cfg
                   <=? count + ((if isActionAllowed cfg a then 1 else 0)
                                + admitted cfg (firstn i calls)))
            with true
            by (symmetry; apply Z.leb_le; destruct (isActionAllowed cfg a); lia).
          reflexivity.
        + rewrite (Hfree eq_refl). now rewrite Z.add_assoc. }
    destruct (maxActions cfg <=? count) eqn:Elimit.
    + apply Z.leb_le in Elimit.
      destruct (IH count) as (H1 & H2 & H3 & _).
      destruct (executeAll perform cfg calls
                  {| actionCount := count; lastActionReset := reset |})
        as [os st2] eqn:Erun.
      cbn [fst snd List.length] in *.
      split; [rewrite H1; destruct (isActionAllowed cfg a); lia |].
      split; [exact H2 |]. split; [now rewrite H3 |].
      intros i now' a' Hi.
      specialize (Hnth count (Ret (rateLimited cfg)) i now' a' Hi).
      rewrite Erun in Hnth. cbn [fst] in Hnth.
      apply Hnth; [| reflexivity | discriminate].
      replace (maxActions cfg <=? count) with true
        by (symmetry; apply Z.leb_le; lia).
      reflexivity.
    + apply Z.leb_gt in Elimit.
      destruct (isActionAllowed cfg a) eqn:Eallowed.
      * destruct (IH (count + 1)) as (H1 & H2 & H3 & _).
        destruct (executeAll perform cfg calls
                    {| actionCount := count + 1; lastActionReset := reset |})
          as [os st2] eqn:Erun.
        cbn [fst snd List.length] in *.
        split; [rewrite H1; lia |].
        split; [exact H2 |]. split; [now rewrite H3 |].
        intros i now' a' Hi.
        specialize (Hnth (count + 1) (dispatch perform a) i now' a' Hi).
        rewrite Erun in Hnth. cbn [fst] in Hnth.
        apply Hnth; [reflexivity | discriminate | reflexivity].
      * destruct (IH count) as (H1 & H2 & H3 & _).
        destruct (executeAll perform cfg calls
                    {| actionCount := count; lastActionReset := reset |})
          as [os st2] eqn:Erun.
        cbn [fst snd List.length] in *.
        split; [rewrite H1; lia |].
        split; [exact H2 |]. split; [now rewrite H3 |].
        intros i now' a' Hi.
        specialize (Hnth count (Ret (notAllowed a)) i now' a' Hi).
        rewrite Erun in Hnth. cbn [fst] in Hnth.
        apply Hnth; [reflexivity | discriminate | intros _; lia].
Qed.

(** X28. The rate limit of an agent.  Take the calls of [executeAction] made
    on one agent within a minute of its creation, and let the limit be
    [maxActionsPerTurn] (5 when it is not configured).  A call is
    answered by the rate-limit refusal exactly when as many calls as the
    limit, or more, came before it whose action type the allow-list
    admits; otherwise it is answered by the not-allowed refusal when its
    type is not admitted, and reaches the [switch] on the action type
    when it is.  So a call refused because its action type is not allowed
    does not count against the limit, while a call with an unknown action
    type counts when no allow-list is configured (it is admitted, and
    answered 'Unknown action type').  The counter of the agent ends at
    the number of admitted calls or at the limit, whichever is smaller
    (0 for a limit below 0): that many calls got past the gate. *)
Theorem agent_rate_limit :
  forall (cfg : Config) (created : Z) (calls : list (Z * AgentAction)),
    Forall (fun call => fst call - created <= 60000) calls ->
    let run := executeAll perform cfg calls (create created) in
    actionCount (snd run) = Z.min (Z.max 0 (maxActions cfg)) (admitted cfg calls)
    /\ List.length (fst run) = List.length calls
    /\ (forall i now a,
          nth_error calls i = Some (now, a) ->
          nth_error (fst run) i
          = Some (if maxActions cfg <=? admitted cfg (firstn i calls)
                  then Ret (rateLimited cfg)
                  else if isActionAllowed cfg a
                       then dispatch perform a
                       else Ret (notAllowed a)))
    /\ (forall a, allowedActions cfg = None ->
          isActionAllowed cfg a = true
          /\ (actionTypeMap (type a) = None ->
              dispatch perform a = Ret (unknownType a))).
Proof.
  intros cfg created calls Hwindow run.
  destruct (@executeAll_window cfg created calls Hwindow 0) as (H1 & _ & H3 & H4).
  subst run. unfold create.
  pose proof (admitted_nonneg cfg calls) as Hadm.
  split; [rewrite H1; lia |]. split; [exact H3 |]. split; [exact H4 |].
  intros a Hnone. unfold isActionAllowed. rewrite Hnone.
  split; [reflexivity |].
  unfold actionTypeMap, dispatch. cbn [existsb].
  repeat (destruct (String.eqb (type a) _); [discriminate |]).
  reflexivity.
Qed.

End AgentGate.

(** ** The agentic methods of the client *)

Lemma liftOutcome_run {A : Type} (o : Outcome A) env s :
  Client.liftOutcome o env s = (o, s).
Proof. now destruct o. Qed.

(** X29. [smartAsk] by cases.  When no capabilities are registered, or the
    agentic configuration is absent or not enabled, [smartAsk] is [ask]:
    it returns the answer of [ask] as [response], leaves the machine as
    [ask] does and throws what [ask] throws, whatever the message.
    Otherwise an agent is made, which reads the clock, and its
    classifier is asked.  When the classifier finds an action, it reads
    the clock a second time, for the identifier of the action
    ('action-' and the time).  If the confidence of the action is below
    the threshold (0.8 when none is configured), the action is dropped
    and the message goes to [ask].  If not, and [requireConfirmation] is
    not false, the action is returned for confirmation: nothing is
    executed, no request is made and the machine is unchanged but for the
    two clock reads; [confirmActions] plays no part.  If
    [requireConfirmation] is false, the action is executed and returned
    with its result.  When the classifier finds nothing, the message goes
    to [ask].  When the classifier throws, [smartAsk] throws: unlike
    [ask] it is not guarded, and with the agentic part enabled a
    message that is no string makes it throw a [TypeError]. *)
Theorem smartAsk_dispatch :
  forall (a : Agentic.t) (message : MessageArg) (options : option AskOptions.t)
         (env : Env) (s : Machine),
    let constructed := {| client := client s; world := World.tickClock (world s) |} in
    let classified :=
      {| client := client s;
         world := World.tickClock (World.tickClock (world s)) |} in
    let answered (run : Outcome Response.t * Machine) :=
      match run with
      | (Ret r, s') =>
          (Ret {| Agentic.response := Some r; Agentic.action := None;
                  Agentic.actionResult := None |}, s')
      | (Throw e, s') => (Throw e, s')
      end in
    (Agentic.isAgenticEnabled a = false ->
     Agentic.smartAsk a message options env s
     = answered (Client.ask message options env s))
    /\ (forall cfg text p,
          Agentic.isAgenticEnabled a = true ->
          Agentic.config a = Some cfg ->
          message = Str text ->
          Agentic.propose a text = Ret (Some p) ->
          let act :=
            {| Agent.id :=
                 "action-"
                 ++ Agent.number (Date_now env (World.clockReads (world constructed)));
               Agent.type := Agent.proposedType p;
               Agent.target := Agent.proposedTarget p;
               Agent.confidence := Agent.proposedConfidence p |} in
          let low := PrimFloat.ltb (Agent.proposedConfidence p) (Agent.threshold cfg) in
          (low = true ->
           Agentic.smartAsk a message options env s
           = answered (Client.ask message options env classified))
          /\ (low = false ->
              (Agent.requireConfirmation cfg = None
               \/ Agent.requireConfirmation cfg = Some true) ->
              Agentic.smartAsk a message options env s
              = (Ret {| Agentic.response := None; Agentic.action := Some act;
                        Agentic.actionResult := None |}, classified))
          /\ (low = false ->
              Agent.requireConfirmation cfg = Some false ->
              Agentic.smartAsk a message options env s
              = match Agentic.executeAction a act env classified with
                | (Ret result, s') =>
                    (Ret {| Agentic.response := None; Agentic.action := Some act;
                            Agentic.actionResult := Some result |}, s')
                | (Throw e, s') => (Throw e, s')
                end))
    /\ (forall text,
          Agentic.isAgenticEnabled a = true ->
          message = Str text ->
          Agentic.propose a text = Ret None ->
          Agentic.smartAsk a message options env s
          = answered (Client.ask message options env constructed))
    /\ (forall text e,
          Agentic.isAgenticEnabled a = true ->
          message = Str text ->
          Agentic.propose a text = Throw e ->
          Agentic.smartAsk a message options env s = (Throw e, constructed))
    /\ (Agentic.isAgenticEnabled a = true ->
        Agentic.smartAsk a NotAString options env s = (Throw TypeError, constructed)).
Proof.
  intros a message options env s constructed classified answered.
  assert (Henabled : forall cfg,
            Agentic.isAgenticEnabled a = true -> Agentic.config a = Some cfg ->
            Agent.enabled cfg = true).
  { intros cfg Hon Hcfg. unfold Agentic.isAgenticEnabled in Hon.
    rewrite Hcfg in Hon. now apply andb_true_iff in Hon. }
  assert (Hconfigured : Agentic.isAgenticEnabled a = true ->
                        exists cfg, Agentic.config a = Some cfg).
  { intros Hon. unfold Agentic.isAgenticEnabled in Hon.
    destruct (Agentic.config a) as [cfg |]; [eauto |].
    rewrite andb_false_r in Hon. discriminate. }
  assert (Hask : forall s0,
    (r <- Client.ask message options ;;
     ret {| Agentic.response := Some r; Agentic.action := None;
            Agentic.actionResult := None |}) env s0
    = answered (Client.ask message options env s0)).
  { intros s0. unfold bind, answered, ret.
    destruct (Client.ask message options env s0) as [[r | e] s']; reflexivity. }
  split; [| split; [| split; [| split]]].
  - intros Hoff. rewrite <- Hask.
    unfold Agentic.smartAsk, Agentic.classifyIntent. rewrite Hoff.
    reflexivity.
  - intros cfg text p Hon Hcfg -> Hp act low.
    assert (Hclass :
      Agentic.classifyIntent a (Str text) env s
      = (Ret (Some {| Agent.action := Some act; Agent.shouldEscalate := low |}),
         classified)).
    { unfold Agentic.classifyIntent, Agentic.interpretIntent.
      rewrite Hon, Hcfg, (Henabled cfg Hon Hcfg), Hp. reflexivity. }
    split; [| split].
    + intros Hlow. rewrite <- Hask.
      unfold Agentic.smartAsk. unfold bind at 1. rewrite Hclass.
      cbn [Agent.action Agent.shouldEscalate]. rewrite Hlow. reflexivity.
    + intros Hlow Hconfirm.
      unfold Agentic.smartAsk. unfold bind at 1. rewrite Hclass.
      cbn [Agent.action Agent.shouldEscalate]. rewrite Hlow, Hcfg.
      destruct Hconfirm as [-> | ->]; reflexivity.
    + intros Hlow Hconfirm.
      unfold Agentic.smartAsk. unfold bind at 1. rewrite Hclass.
      cbn [Agent.action Agent.shouldEscalate]. rewrite Hlow, Hcfg, Hconfirm.
      cbn [negb]. unfold bind, ret.
      destruct (Agentic.executeAction a act env classified) as [[result | e] s'];
        reflexivity.
  - intros text Hon -> Hp. rewrite <- Hask.
    destruct (Hconfigured Hon) as [cfg Hcfg].
    unfold Agentic.smartAsk. unfold bind at 1.
    unfold Agentic.classifyIntent, Agentic.interpretIntent.
    rewrite Hon, Hcfg, (Henabled cfg Hon Hcfg), Hp. reflexivity.
  - intros text e Hon -> Hp.
    destruct (Hconfigured Hon) as [cfg Hcfg].
    unfold Agentic.smartAsk, Agentic.classifyIntent, Agentic.interpretIntent.
    rewrite Hon, Hcfg, (Henabled cfg Hon Hcfg), Hp. reflexivity.
  - intros Hon.
    destruct (Hconfigured Hon) as [cfg Hcfg].
    unfold Agentic.smartAsk, Agentic.classifyIntent, Agentic.interpretIntent.
    rewrite Hon, Hcfg, (Henabled cfg Hon Hcfg). reflexivity.
Qed.

(** X30. The limit of the agent does not hold through the client.  Each call
    of the client's [executeAction] (and each action [smartAsk] executes)
    makes a new agent, whose count starts at 0: whatever was executed
    before, the call is let through to the action implementation when the
    action type is allowed and refused as not allowed otherwise, and it is
    refused by the rate limit only if [maxActionsPerTurn] is 0 or less.
    The machine is unchanged but for two clock reads. *)
Theorem executeAction_makes_new_agent :
  forall (a : Agentic.t) (cfg : Agent.Config) (action : Agent.AgentAction)
         (env : Env) (s : Machine),
    Agentic.isAgenticEnabled a = true ->
    Agentic.config a = Some cfg ->
    Agentic.executeAction a action env s
    = (if (Agent.maxActions cfg <=? 0)%Z then Ret (Agent.rateLimited cfg)
       else if Agent.isActionAllowed cfg action
            then Agent.dispatch (Agentic.perform a) action
            else Ret (Agent.notAllowed action),
       {| client := client s;
          world := World.tickClock (World.tickClock (world s)) |}).
Proof.
  intros a cfg action env s Hon Hcfg.
  unfold Agentic.executeAction. rewrite Hcfg, Hon. cbn [negb].
  unfold dateNow, bind, getEnv, getWorld, modifyWorld, ret. cbn [fst snd world client].
  rewrite liftOutcome_run. f_equal.
  unfold Agent.executeAction, Agent.create.
  cbn [Agent.lastActionReset Agent.actionCount].
  destruct (60000 <? _)%Z; cbn [Agent.lastActionReset Agent.actionCount];
    destruct (Agent.maxActions cfg <=? 0)%Z; cbn [fst]; try reflexivity;
    destruct (Agent.isActionAllowed cfg action); reflexivity.
Qed.

(** ** Concrete runs of the further properties *)

Section FurtherRuns.
Import Samples Scenarios.

(** A second settings check one millisecond after a successful one. *)
Lemma checkSystemStatus_fresh_witness :
  let s1 := snd (Client.checkSystemStatus envMaintenance
                   (newClient configLocal LocalStorage.empty)) in
  ClientFields.settingsLastChecked (client s1) = 200000000%Z
  /\ Client.checkSystemStatus envMaintenance s1
     = (Ret {| SystemSettings.cacheRetentionHours := 168;
               SystemSettings.maintenanceMode := true;
               SystemSettings.maintenanceMessage := Some "Back in 2 hours!";
               SystemSettings.forceOfflineClients := false |},
        {| client := client s1; world := World.tickClock (world s1) |}).
Proof.
  intros s1. split; [reflexivity |].
  apply (@checkSystemStatus_uses_fresh_settings envMaintenance s1 _ eq_refl).
  vm_compute. reflexivity.
Defined.

(** Settings fetched at time 0, a check at time 1000000, the status
    endpoint down: the old settings are returned and kept, with their old
    time. *)
Lemma checkSystemStatus_fetch_witness :
  Client.checkSystemStatus envOffline clientWithOldSettings
  = (Ret Client.defaultSettings,
     {| client := client clientWithOldSettings;
        world := afterStatusRequest clientWithOldSettings |}).
Proof.
  apply (@checkSystemStatus_fetch envOffline clientWithOldSettings).
  intros cached _. vm_compute. discriminate.
Defined.

(** Nothing is reachable and [maxRetries] is 2: three chat calls, sleeps of
    1000 and 2000 ms, and the error of the third call. *)
Lemma apiWithRetry_exhausts_witness :
  exists s',
    Client.apiWithRetry "Hello" None envOffline
                        (newClient configLocal LocalStorage.empty)
    = (Throw (JsError "Network error"), s')
    /\ World.chatCalls (world s') = 3%nat
    /\ World.events (world s')
       = [EvChat "Hello" None; EvSleep 1000; EvChat "Hello" None;
          EvSleep 2000; EvChat "Hello" None].
Proof.
  destruct (@apiWithRetry_exhausts "Hello" None envOffline
              (newClient configLocal LocalStorage.empty)
              (fun _ => JsError "Network error"))
    as (s' & H1 & _ & H2 & H3 & _).
  - vm_compute. discriminate.
  - intros k _. split; reflexivity.
  - exists s'. split; [exact H1 |]. split; [exact H2 | exact H3].
Defined.

Lemma apiWithRetry_no_attempt_witness :
  Client.apiWithRetry "Hello" None envOffline
                      (newClient configNegativeRetries LocalStorage.empty)
  = (Throw NotAnError, newClient configNegativeRetries LocalStorage.empty).
Proof.
  destruct (@apiWithRetry_no_attempt "Hello" None envOffline
              (newClient configNegativeRetries LocalStorage.empty)) as [H _].
  - vm_compute. reflexivity.
  - exact H.
Defined.


(** Nothing is reachable, one document is cached: the answer is the one of
    the fallback path. *)
Lemma ask_failure_dispatch_witness :
  let s := newClient configLocal storageWithFaq in
  let s1 := snd (Client.checkSystemStatus envOffline s) in
  let s2 := snd (Client.apiWithRetry "What is the return policy?" None envOffline s1) in
  Client.ask (Str "What is the return policy?") None envOffline s
  = Client.fallbackAsk "What is the return policy?" envOffline
      (afterError (JsError "Network error") s2).
Proof.
  intros s s1 s2.
  assert (Hcheck : Client.checkSystemStatus envOffline s
                   = (Ret Client.defaultSettings, s1))
    by (vm_compute; reflexivity).
  assert (Hlive : Client.apiWithRetry "What is the return policy?" None envOffline s1
                  = (Throw (JsError "Network error"), s2))
    by (vm_compute; reflexivity).
  exact (proj1 (@ask_failure_dispatch "What is the return policy?" None envOffline
                  s s1 s2 Client.defaultSettings (JsError "Network error")
                  eq_refl Hcheck eq_refl Hlive eq_refl) eq_refl).
Defined.

(** A client that has answered from its cache answers again without
    indexing again. *)
Lemma fallbackAsk_reuses_index_witness :
  exists answer s',
    Client.fallbackAsk "returns" envOffline afterOfflineAnswer = (Ret answer, s')
    /\ ClientFields.localRAG (client s')
       = ClientFields.localRAG (client afterOfflineAnswer).
Proof.
  destruct (@fallbackAsk_reuses_index "returns" envOffline afterOfflineAnswer)
    as (answer & s' & H1 & H2 & _).
  - vm_compute. reflexivity.
  - exists answer, s'. split; [exact H1 | exact H2].
Defined.

(** One document stored in an empty local storage. *)
Lemma store_localStorage_round_trip_witness :
  exists s',
    Cache.store [WellFormed faq] envOffline (newClient configLocal LocalStorage.empty)
    = (Ret tt, s')
    /\ Cache.retrieve envOffline s' = (Ret (DocArray [WellFormed faq]), s')
    /\ CacheFields.documentCount (ClientFields.cache (client s')) = 1%nat
    /\ CacheFields.lastSyncAt (ClientFields.cache (client s'))
       = Some (IsoDate 1000000).
Proof.
  destruct (@store_localStorage_round_trip envOffline
              (newClient configLocal LocalStorage.empty) [WellFormed faq]
              eq_refl eq_refl eq_refl)
    as (s' & H1 & H2 & H3 & H4 & _).
  exists s'. split; [exact H1 |]. split; [apply H2 |]. split; [exact H3 | exact H4].
Defined.

(** Fifty-one documents, the first write rejected: fifty documents are
    stored, and a cache made over the storage afterwards counts none. *)
Lemma store_quota_failure_metadata_witness :
  let s' := snd (Cache.store fiftyOneDocs envQuotaOnce
                   (newClient configLocal LocalStorage.empty)) in
  LocalStorage.meta (World.storage (world s')) = None
  /\ CacheFields.documentCount (ClientFields.cache (client s')) = 50%nat
  /\ CacheFields.documentCount
       (Cache.create localstorage 86400000 DbMissing (world s')) = 0%nat.
Proof.
  intros s'.
  destruct (@store_quota_failure_metadata envQuotaOnce
              (newClient configLocal LocalStorage.empty) fiftyOneDocs
              QuotaExceededError eq_refl (or_introl eq_refl)) as (H1 & H2 & _).
  fold s' in H1, H2.
  split; [exact H1 |]. split; [vm_compute; reflexivity |].
  now rewrite H2.
Defined.

(** The default configuration (IndexedDB) where no database is available:
    the documents of the server are neither stored nor indexed, and the
    status stays as it was. *)
Lemma syncCache_store_failure_witness :
  let env := envWithDocs (DocArray [WellFormed faq]) (fun _ => None) in
  let s := newClient Config.default LocalStorage.empty in
  Client.syncCache env s = (Ret tt, afterDocsRequest s)
  /\ LocalRAG.isIndexed (ClientFields.localRAG (client (afterDocsRequest s))) = false
  /\ ClientFields.status (client (afterDocsRequest s)) = connecting.
Proof.
  intros env s.
  destruct (@syncCache_store_failure env s (WellFormed faq) [] eq_refl)
    as (_ & H).
  destruct (H eq_refl eq_refl) as (_ & Hrun & _).
  split; [exact Hrun |]. split; reflexivity.
Defined.

(** The server has one document: after the sync the question is answered
    offline from it. *)
Lemma syncCache_then_fallback_witness :
  let env := envWithDocs (DocArray [WellFormed faq]) (fun _ => None) in
  exists s' isStale,
    Client.syncCache env (newClient configLocal LocalStorage.empty) = (Ret tt, s')
    /\ CacheFields.documentCount (ClientFields.cache (client s')) = 1%nat
    /\ ClientFields.status (client s') = online
    /\ fst (Client.fallbackAsk "What is the return policy?" env s')
       = Ret (Client.localResponse
                (LocalRAG.ask (ClientFields.localRAG (client s'))
                              "What is the return policy?") isStale).
Proof.
  intros env.
  destruct (@syncCache_then_fallback env (newClient configLocal LocalStorage.empty)
              faq [] eq_refl eq_refl eq_refl eq_refl)
    as (s' & H1 & H2 & _ & _ & _ & _ & H3 & H4).
  destruct (H4 env "What is the return policy?") as [isStale H5].
  exists s', isStale.
  split; [exact H1 |]. split; [exact H2 |]. split; [exact H3 | exact H5].
Defined.

(** A database that holds the document 'cat' receives the document
    'doc-1': both are stored afterwards and the count is 2. *)
Lemma store_indexedDb_merges_witness :
  exists s',
    Cache.store [WellFormed faq] envOffline
                (newClientWithDatabase Config.default databaseWithCat)
    = (Ret tt, s')
    /\ map fst (IndexedDb.documents (World.database (world s'))) = ["cat"; "doc-1"]
    /\ CacheFields.documentCount (ClientFields.cache (client s')) = 2%nat.
Proof.
  destruct (@store_indexedDb_merges envOffline
              (newClientWithDatabase Config.default databaseWithCat) [faq]
              eq_refl eq_refl (fun k _ => eq_refl))
    as (s' & H1 & H2 & H3 & _).
  exists s'. split; [exact H1 |]. split.
  - rewrite H2. reflexivity.
  - rewrite H3. reflexivity.
Defined.

(** Stored metadata with a sync time that is no date. *)
Lemma cache_without_sync_date_witness :
  fst (Client.isCacheValid envOffline (newClient configLocal storageWithBadDate))
  = Ret false
  /\ exists status s',
       Cache.getStatus envOffline (newClient configLocal storageWithBadDate)
       = (Ret status, s')
       /\ CacheStatus.lastSyncAt status = Some InvalidDate
       /\ CacheStatus.isStale status = false.
Proof.
  exact (@cache_without_sync_date envOffline
           (newClient configLocal storageWithBadDate) (or_intror eq_refl)).
Defined.

(** A question made of stop words only. *)
Lemma ask_without_query_tokens_witness :
  LocalRAG.ask
    (snd (LocalRAG.index Math_log_at_one (DocArray [WellFormed catDoc])
                         LocalRAG.create))
    "What is this?"
  = nothingRelevant.
Proof.
  apply ask_without_query_tokens; vm_compute; reflexivity.
Defined.

(** Six clicks and a navigation on an agent that may only click, within
    its first minute: the navigation is refused and does not count, the
    first five clicks get through, the sixth is refused by the limit. *)
Lemma agent_rate_limit_witness :
  let run := Agent.executeAll (fun _ => Ret done) clicksOnly sevenCalls
                              (Agent.create 0) in
  Agent.actionCount (snd run) = 5%Z
  /\ fst run
     = [Ret done; Ret (Agent.notAllowed navigateAction); Ret done; Ret done;
        Ret done; Ret done; Ret (Agent.rateLimited clicksOnly)].
Proof.
  intros run.
  destruct (@agent_rate_limit (fun _ => Ret done) clicksOnly 0%Z sevenCalls)
    as (H1 & _).
  - unfold sevenCalls. repeat constructor; vm_compute; discriminate.
  - subst run. split; [rewrite H1; reflexivity | vm_compute; reflexivity].
Defined.

(** Through the client the same seven clicks all get through, each on an
    agent of its own. *)
Lemma executeAction_makes_new_agent_witness :
  Agentic.executeAction (agentHost (Some false)) clickAction envOffline
                        afterOfflineAnswer
  = (Ret done,
     {| client := client afterOfflineAnswer;
        world := World.tickClock (World.tickClock (world afterOfflineAnswer)) |}).
Proof.
  exact (@executeAction_makes_new_agent (agentHost (Some false))
           (agentConfig (Some false)) clickAction envOffline afterOfflineAnswer
           eq_refl eq_refl).
Defined.

(** [confirmActions] is false and [requireConfirmation] is not set: the
    click the classifier finds has confidence 0.9 * 0.95, which is not
    below 0.8; it is returned for confirmation and not executed, with the
    time of the second clock read in its identifier. *)
Lemma smartAsk_dispatch_witness :
  let s := newClient configLocal storageWithFaq in
  Agentic.smartAsk (agentHost None) (Str "Click the submit button") None envOffline s
  = (Ret {| Agentic.response := None;
            Agentic.action :=
              Some {| Agent.id := "action-1000001";
                      Agent.type := "clickElement";
                      Agent.target := "#submit";
                      Agent.confidence := (0.9 * 0.95)%float |};
            Agentic.actionResult := None |},
     {| client := client s;
        world := World.tickClock (World.tickClock (world s)) |}).
Proof.
  intros s.
  destruct (smartAsk_dispatch (agentHost None) (Str "Click the submit button") None
              envOffline s) as (_ & H & _).
  destruct (H (agentConfig None) "Click the submit button" clickProposal
              eq_refl eq_refl eq_refl eq_refl) as (_ & H2 & _).
  exact (H2 eq_refl (or_introl eq_refl)).
Defined.

(** An indexed engine is indexed again with a list whose second element
    has no content: it keeps the first document without vector, still
    counts as indexed, and finds nothing any more. *)
Lemma index_failure_witness :
  let rag0 := snd (LocalRAG.index Math_log_at_one (DocArray [WellFormed catDoc])
                                  LocalRAG.create) in
  let rag := snd (LocalRAG.index Math_log_at_one
                    (DocArray [WellFormed catDoc; Malformed (Some "2")]) rag0) in
  LocalRAG.answer (LocalRAG.ask rag0 "cat") = "The cat sat on the mat."
  /\ LocalRAG.isIndexed rag = true
  /\ LocalRAG.ask rag "cat" = nothingRelevant.
Proof.
  intros rag0 rag. split; [vm_compute; reflexivity |].
  destruct (index_failure_leaves_partial_index Math_log_at_one [catDoc] (Some "2") []
              rag0) as [Hrun Hafter].
  destruct (Hafter eq_refl catDoc [] eq_refl) as [H1 H2].
  unfold rag. cbn [map app] in Hrun. rewrite Hrun. cbn [snd].
  split; [exact H1 | apply H2].
Defined.

(** Two events cut in the middle of a line, and a last event without line
    feed: the cut changes nothing, the last event is not delivered. *)
Lemma readLoop_by_lines_witness :
  let parse payload :=
    Some {| ApiClient.text := Some payload; ApiClient.sources := None;
            ApiClient.sessionId := None |} in
  let LF := String ApiClient.lineFeed "" in
  ApiClient.readLoop parse ["data: Hel"; ("lo" ++ LF ++ "data: world" ++ LF ++ "data: lost")%string] ""
  = [ChunkText "Hello"; ChunkText "world"]
  /\ ApiClient.readLoop parse ["data: Hel"; ("lo" ++ LF ++ "data: world" ++ LF ++ "data: lost")%string] ""
     = ApiClient.readLoop parse [("data: Hello" ++ LF ++ "data: world" ++ LF ++ "data: lost")%string] "".
Proof.
  intros parse LF. split; [vm_compute; reflexivity |].
  destruct (readLoop_by_lines parse
              ["data: Hel"; ("lo" ++ LF ++ "data: world" ++ LF ++ "data: lost")%string]
              [("data: Hello" ++ LF ++ "data: world" ++ LF ++ "data: lost")%string]
              "" "") as (_ & H & _).
  apply H. vm_compute. reflexivity.
Defined.

(** A 429 whose body carries the message 'Too many requests' is not
    classified as a rate limit, a 429 without body message is; a 401
    whose body is [null] is retried. *)
Lemma chat_failure_classified_witness :
  CyberneticError.code
    (Client.normalizeError
       (ApiClient.chatError 429 "Too Many Requests" ApiClient.NoMessage))
  = RATE_LIMIT
  /\ Client.normalizeError
       (ApiClient.chatError 429 "Too Many Requests"
                            (ApiClient.TruthyMessage "Too many requests"))
     = Client.normalizeError (JsError "Too many requests")
  /\ CyberneticError.code (Client.normalizeError (JsError "Too many requests"))
     = NETWORK_ERROR
  /\ Client.noRetry
       (CyberneticError.code
          (Client.normalizeError
             (ApiClient.chatError 401 "Unauthorized" ApiClient.NullBody)))
     = false.
Proof.
  destruct (chat_failure_classified 429 "Too Many Requests" "Too many requests")
    as (_ & H1 & _ & H2 & _).
  destruct (chat_failure_classified 401 "Unauthorized" "")
    as (_ & _ & _ & _ & _ & _ & _ & H3).
  split; [exact (H1 eq_refl) |]. split; [exact H2 |].
  split; [reflexivity | exact H3].
Defined.


(** A stream that ends cleanly, with callbacks that return: one terminal
    callback. *)
Lemma askStream_ends_once_witness :
  exists (s' : Machine) (terminal : Event),
    Host.askStream (fun _ _ => None) (Str "Hello") None
      (mkEnv (clockFrom 1000000) (fun _ => Ret chatOk) (fun _ => statusPlain)
             (fun _ => None))
      (newClient configLocal LocalStorage.empty)
    = (Ret tt, s')
    /\ terminalsOf (World.events (world s')) = [terminal]
    /\ isTerminalShape terminal.
Proof.
  destruct (@askStream_ends_once (fun _ _ => None) (Str "Hello") None
              (mkEnv (clockFrom 1000000) (fun _ => Ret chatOk)
                     (fun _ => statusPlain) (fun _ => None))
              (newClient configLocal LocalStorage.empty)
              (fun _ _ => eq_refl))
    as (s' & terminal & Hrun & HT & Hshape & _).
  exists s', terminal. split; [exact Hrun |]. split; [exact HT | exact Hshape].
Defined.

(** The same stream with an [onComplete] that throws: the stream's
    [onError] is called too, with what [onComplete] threw. *)
Example askStream_complete_throws :
  let run :=
    Host.askStream completeCallbackThrows (Str "Hello") None
      (mkEnv (clockFrom 1000000) (fun _ => Ret chatOk) (fun _ => statusPlain)
             (fun _ => None))
      (newClient configLocal LocalStorage.empty) in
  fst run = Ret tt
  /\ terminalsOf (World.events (world (snd run)))
     = [EvComplete {| Response.reply := "Success!";
                      Response.confidence := high;
                      Response.sources := [];
                      Response.offline := false;
                      Response.sessionId := None;
                      Response.retryAfter := None;
                      Response.degradedReason := None |};
        EvStreamError (Client.normalizeError (JsError "onComplete failed"))].
Proof. vm_compute. split; reflexivity. Qed.

(** A status observer that throws: the fallback path throws before the
    cache is read, and the sync drops what the observer threw. *)
Example fallbackAsk_status_observer_throws :
  let s := newClient configLocal storageWithFaq in
  Host.fallbackAsk statusObserverThrows "What is the return policy?" envOffline s
  = (Throw (JsError "onStatusChange failed"),
     {| client := ClientFields.setStatusField offline (client s);
        world := World.addEvent (EvStatusChange offline) (world s) |}).
Proof. vm_compute. reflexivity. Qed.

Example syncCache_status_observer_throws :
  let s := newClient configLocal LocalStorage.empty in
  let run := Host.syncCache statusObserverThrows
               (envWithDocs NotIterable (fun _ => None)) s in
  fst run = Ret tt
  /\ ClientFields.status (client (snd run)) = online
  /\ LocalStorage.docs (World.storage (world (snd run))) = None
  /\ LocalRAG.isIndexed (ClientFields.localRAG (client (snd run))) = false.
Proof. vm_compute. repeat split; reflexivity. Qed.

End FurtherRuns.
